(** * Greedy weekly timetable allocation: a shallow embedding of [main.py]

    The development follows the script: the start-up data (slot labels,
    [calc_slot_duration], [time_durations], the colour palette and the two
    room pools), the free-block finder ([find_free_blocks]), the session
    placer ([place_session]), the builder ([create_timetable]) with its
    three retry loops, and the renderer ([style_and_merge_cells]).

    Modelling conventions.
    - [calc_slot_duration] computes in binary64 floating point, as line 24
      does (module [Float64], on the Standard Library's [SpecFloat]); the
      table [time_durations] holds the exact rational value of each double.
      The sums of durations and the hours left of a course are exact
      rationals [Q]; the code computes them in doubles, which gives the same
      numbers as long as they are halves and quarters of moderate size.
    - Python [dict]s are [gmap]s; [d[k]] is the total lookup [d !!! k].  The
      script only reads keys that are present (section "The reads of a run
      are defined"), so the default of [!!!] is never what a run observes.
    - The pandas frame is a [gmap] from (day, slot label) to the cell text;
      the days are the five fixed weekdays, and the slot labels are taken to
      be pairwise distinct column labels.
    - The mutable objects ([tt_frame], [faculty_schedule]), the global
      [room_allocations], the position in the shared pseudo-random stream and
      the text printed so far are the fields of one explicit [state].
    - [random.choice] reads one draw of an arbitrary stream [rnd]; every
      statement holds for all streams.
    - Text is ASCII; [str.strip] and [int] are modelled on ASCII input.
    - The data files (slots, courses, rooms) are parameters.  The sheet is
      the list of the rows of the frame; of the styling, the runs of cells
      that are merged and their fill colours are modelled, the workbook
      file is not.
    - [random.randint] and [random.shuffle] read the same stream [rnd] as
      [random.choice], one draw per number needed. *)

From Stdlib Require Import Ascii String ZArith QArith Lqa SpecFloat.
From stdpp Require Import base option list gmap strings fin_maps sorting.

Local Open Scope string_scope.
Local Open Scope list_scope.

(** ** Python string primitives used by the script *)

Module Py.

(** [s.split(sep)] for a one-character separator. *)
Fixpoint split (sep : ascii) (s : string) : list string :=
  match s with
  | EmptyString => [EmptyString]
  | String c rest =>
      if Ascii.eqb c sep then EmptyString :: split sep rest
      else match split sep rest with
           | [] => [String c EmptyString]
           | w :: ws => String c w :: ws
           end
  end.

(** ASCII characters for which [str.isspace] holds. *)
Definition is_space (c : ascii) : bool :=
  let n := nat_of_ascii c in
  (Nat.leb 9 n && Nat.leb n 13) || (Nat.leb 28 n && Nat.leb n 32).

Fixpoint lstrip (s : string) : string :=
  match s with
  | EmptyString => EmptyString
  | String c rest => if is_space c then lstrip rest else s
  end.

Fixpoint rstrip (s : string) : string :=
  match s with
  | EmptyString => EmptyString
  | String c rest =>
      match rstrip rest with
      | EmptyString => if is_space c then EmptyString else String c EmptyString
      | rest' => String c rest'
      end
  end.

(** [s.strip()] *)
Definition strip (s : string) : string := rstrip (lstrip s).

Definition digit_of (c : ascii) : option Z :=
  let n := nat_of_ascii c in
  if Nat.leb 48 n && Nat.leb n 57 then Some (Z.of_nat (n - 48)) else None.

(** Decimal digits, with single underscores allowed between two digits. *)
Fixpoint digits (acc : Z) (after_digit : bool) (s : string) : option Z :=
  match s with
  | EmptyString => if after_digit then Some acc else None
  | String c rest =>
      match digit_of c with
      | Some d => digits (10 * acc + d) true rest
      | None =>
          if Ascii.eqb c "_" && after_digit then digits acc false rest
          else None
      end
  end.

(** [int(s)] in base ten; [None] stands for [ValueError]. *)
Definition int (s : string) : option Z :=
  match strip s with
  | String "+" rest => digits 0 false rest
  | String "-" rest => Z.opp <$> digits 0 false rest
  | body => digits 0 false body
  end.

(** [random.choice(seq)] on a non-empty sequence, reading draw number [pos]
    of the pseudo-random stream [rnd]. *)
Definition choice {A} (rnd : nat → nat) (pos : nat) (seq : list A) : option A :=
  seq !! (rnd pos `mod` length seq)%nat.

End Py.

(** ** Binary64 arithmetic

    A Python [float] is an IEEE 754 binary64 number.  The operations are
    those of [SpecFloat], the executable specification of the Standard
    Library, at precision 53 with rounding to nearest, ties to even. *)

Module Float64.

Definition prec : Z := 53.
Definition emax : Z := 1024.
Definition float : Type := spec_float.

Definition is_finite (x : float) : bool :=
  match x with
  | S754_zero _ | S754_finite _ _ _ => true
  | S754_infinity _ | S754_nan => false
  end.

(** An [int] as a binary number that has not been rounded yet. *)
Definition unrounded (z : Z) : float :=
  match z with
  | Z0 => S754_zero false
  | Zpos p => S754_finite false p 0
  | Zneg p => S754_finite true p 0
  end.

(** The conversion of an [int] that [h + x] makes for a [float] [x]: the
    nearest double; [None] stands for [OverflowError]. *)
Definition of_int (z : Z) : option float :=
  let x := binary_normalize prec emax z 0 false in
  if is_finite x then Some x else None.

(** [a / b] on two [int]s: the double nearest to the quotient; [None]
    stands for [ZeroDivisionError] and [OverflowError]. *)
Definition true_div (a b : Z) : option float :=
  if Z.eqb b 0 then None
  else
    let x := SFdiv prec emax (unrounded a) (unrounded b) in
    if is_finite x then Some x else None.

(** [x + y] and [x - y] on two [float]s. *)
Definition add (x y : float) : float := SFadd prec emax x y.
Definition sub (x y : float) : float := SFsub prec emax x y.

(** The rational number a finite double stands for, in lowest terms. *)
Definition to_Q (x : float) : option Q :=
  match x with
  | S754_zero _ => Some 0%Q
  | S754_finite s m e =>
      let n := if s then Zneg m else Zpos m in
      Some (Qred match e with
                 | Zneg p => Qmake n (2 ^ p)
                 | _ => inject_Z (n * 2 ^ e)
                 end)
  | S754_infinity _ | S754_nan => None
  end.

End Float64.

(** ** Slot catalogue *)

(** [h, m = map(int, t.split(":"))] *)
Definition hour_minute (t : string) : option (Z * Z) :=
  match Py.split ":" t with
  | [a; b] => h ← Py.int a; m ← Py.int b; Some (h, m)
  | _ => None
  end.

(** [h + m / 60] on two [int]s: the true division, then the addition of
    the [int] to the [float]; [None] stands for [OverflowError]. *)
Definition clock_hours (h m : Z) : option Float64.float :=
  x ← Float64.true_div m 60;
  y ← Float64.of_int h;
  Some (Float64.add y x).

(** Line 24: [(h2 + m2 / 60) - (h1 + m1 / 60)] *)
Definition clock_difference (h1 m1 h2 m2 : Z) : option Float64.float :=
  a ← clock_hours h2 m2;
  b ← clock_hours h1 m1;
  Some (Float64.sub a b).

(** [calc_slot_duration(slot)], the double it returns; [None] stands for
    the [ValueError] raised on a label that does not have the two-by-two
    shape, and for the [OverflowError] of a number too large for a double. *)
Definition calc_slot_duration_float (slot : string) : option Float64.float :=
  match Py.split "-" slot with
  | [start; end_] =>
      '(h1, m1) ← hour_minute start;
      '(h2, m2) ← hour_minute end_;
      clock_difference h1 m1 h2 m2
  | _ => None
  end.

(** [calc_slot_duration(slot)] as the exact rational value of the double.
    The rationals cannot hold an infinity or a NaN, which line 24 returns
    only on numbers of some three hundred digits: such labels are outside
    the model, and the result is [None] for them too. *)
Definition calc_slot_duration (slot : string) : option Q :=
  calc_slot_duration_float slot ≫= Float64.to_Q.

(** [time_durations = {s: calc_slot_duration(s) for s in slot_keys}];
    [None] when some label makes [calc_slot_duration] raise, in which case
    the script stops before any timetable is built. *)
Fixpoint load_time_durations (slot_keys : list string) (acc : gmap string Q)
  : option (gmap string Q) :=
  match slot_keys with
  | [] => Some acc
  | s :: rest => d ← calc_slot_duration s; load_time_durations rest (<[s := d]> acc)
  end.

Definition time_durations_of (slot_keys : list string) : option (gmap string Q) :=
  load_time_durations slot_keys ∅.

#[global] Instance Q_inhabited : Inhabited Q := populate 0%Q.

(** ** Fixed constants of the core *)

Inductive day := Monday | Tuesday | Wednesday | Thursday | Friday.

#[global] Instance day_eq_dec : EqDecision day.
Proof. solve_decision. Defined.

#[global] Instance day_countable : Countable day.
Proof.
  refine (inj_countable'
    (λ d, match d with
          | Monday => 0%nat | Tuesday => 1%nat | Wednesday => 2%nat
          | Thursday => 3%nat | Friday => 4%nat end)
    (λ n, match n with
          | 0%nat => Monday | 1%nat => Tuesday | 2%nat => Wednesday
          | 3%nat => Thursday | _ => Friday end) _).
  by intros [].
Defined.

Definition week_days : list day := [Monday; Tuesday; Wednesday; Thursday; Friday].
Definition excluded_slots : list string := ["07:30-09:00"; "13:15-14:00"; "17:30-18:30"].
Definition MAX_ATTEMPTS : nat := 10.

(** ** Mutable state of one run *)

Record state := State {
  tt_frame : gmap (day * string) string;
  faculty_schedule : gmap day (list string);
  room_allocations : gmap string string;
  rng_pos : nat;
  stdout : list string
}.

Definition set_tt_frame (tt : gmap (day * string) string) (st : state) : state :=
  State tt (faculty_schedule st) (room_allocations st) (rng_pos st) (stdout st).
Definition set_faculty_schedule (fs : gmap day (list string)) (st : state) : state :=
  State (tt_frame st) fs (room_allocations st) (rng_pos st) (stdout st).
Definition bind_room (course_code room : string) (st : state) : state :=
  State (tt_frame st) (faculty_schedule st)
        (<[course_code := room]> (room_allocations st)) (rng_pos st) (stdout st).
Definition draw (st : state) : state :=
  State (tt_frame st) (faculty_schedule st) (room_allocations st)
        (S (rng_pos st)) (stdout st).
Definition print (line : string) (st : state) : state :=
  State (tt_frame st) (faculty_schedule st) (room_allocations st)
        (rng_pos st) (stdout st ++ [line]).

(** Python truthiness of a string. *)
Definition truthy (s : string) : bool := negb (bool_decide (s = "")).

Definition Qltb (a b : Q) : bool := negb (Qle_bool b a).

(** [min(a, b)] of Python: the first argument wins a tie. *)
Definition py_min (a b : Q) : Q := if Qltb b a then b else a.

Section Core.

(** Data read from the input files at start-up. *)
Variable slot_keys : list string.
Variable time_durations : gmap string Q.
Variable classrooms labs : list string.
(** The shared pseudo-random stream: [rnd i] is the value of draw [i]. *)
Variable rnd : nat → nat.

(** *** Free-block finder *)

(** The test of line 63: the cell is empty and the slot is not excluded. *)
Definition is_free (tt : gmap (day * string) string) (d : day) (slot : string) : bool :=
  bool_decide (tt !!! (d, slot) = "") && bool_decide (slot ∉ excluded_slots).

(** The loop of [find_free_blocks] over the remaining slots, carrying
    [free_groups] and [temp_group]; the last case is the flush after it. *)
Fixpoint scan_slots (tt : gmap (day * string) string) (d : day) (slots : list string)
    (free_groups : list (list string)) (temp_group : list string) : list (list string) :=
  match slots with
  | [] =>
      match temp_group with
      | [] => free_groups
      | _ => free_groups ++ [temp_group]
      end
  | slot :: rest =>
      if is_free tt d slot then scan_slots tt d rest free_groups (temp_group ++ [slot])
      else
        match temp_group with
        | [] => scan_slots tt d rest free_groups temp_group
        | _ => scan_slots tt d rest (free_groups ++ [temp_group]) []
        end
  end.

Definition find_free_blocks (tt : gmap (day * string) string) (d : day) : list (list string) :=
  scan_slots tt d slot_keys [] [].

(** *** Session placer *)

(** [sum(time_durations[s] for s in group)] *)
Definition total_duration (group : list string) : Q :=
  foldl (λ acc s, acc + time_durations !!! s)%Q 0%Q group.

(** The inner loop filling [slots_to_fill], with [duration_accum]. *)
Fixpoint select_slots (duration_hours duration_accum : Q) (group : list string) : list string :=
  match group with
  | [] => []
  | s :: rest =>
      let accum := (duration_accum + time_durations !!! s)%Q in
      if Qle_bool duration_hours accum then [s]
      else s :: select_slots duration_hours accum rest
  end.

(** [random.choice(pool)] for a pool already tested non-empty. *)
Definition choose `{Inhabited A} (st : state) (pool : list A) : A :=
  default inhabitant (Py.choice rnd (rng_pos st) pool).

(** Lines 90-103: the room of a non-elective course.  [None] is the
    [return False] taken after the diagnostic. *)
Definition resolve_room (st : state) (course_code session_type : string)
  : option string * state :=
  match room_allocations st !! course_code with
  | Some room => (Some room, st)
  | None =>
      if bool_decide (session_type = "P") then
        match labs with
        | [] => (None, print ("No labs available for " +:+ course_code) st)
        | _ => let room := choose st labs in
               (Some room, bind_room course_code room (draw st))
        end
      else
        match classrooms with
        | [] => (None, print ("No classrooms available for " +:+ course_code) st)
        | _ => let room := choose st classrooms in
               (Some room, bind_room course_code room (draw st))
        end
  end.

(** The text written by lines 106-111; [None] when no branch applies. *)
Definition occupant_tag (session_type course_code room : string) (is_elective : bool)
  : option string :=
  if bool_decide (session_type = "L") then
    Some (if negb is_elective then course_code +:+ " (" +:+ room +:+ ")" else course_code)
  else if bool_decide (session_type = "T") then
    Some (if negb is_elective then course_code +:+ "T (" +:+ room +:+ ")" else course_code +:+ "T")
  else if bool_decide (session_type = "P") then
    Some (if negb is_elective then course_code +:+ " (Lab-" +:+ room +:+ ")" else course_code)
  else None.

(** Lines 105-111: [for s in slots_to_fill: tt_frame.at[day, s] = ...] *)
Definition write_slots (tt : gmap (day * string) string) (d : day)
    (session_type course_code room : string) (is_elective : bool)
    (slots_to_fill : list string) : gmap (day * string) string :=
  foldl (λ tt s,
           match occupant_tag session_type course_code room is_elective with
           | Some tag => <[(d, s) := tag]> tt
           | None => tt
           end) tt slots_to_fill.

(** Lines 113-114 *)
Definition record_faculty (d : day) (faculty : string) (st : state) : state :=
  if truthy faculty then
    set_faculty_schedule
      (<[d := faculty_schedule st !!! d ++ [faculty]]> (faculty_schedule st)) st
  else st.

(** The loop of [place_session] over the free groups still to be tried.
    For an elective the variable [room] stays unbound and is never read;
    the empty string stands for it. *)
Fixpoint place_in (st : state) (d : day) (faculty course_code : string)
    (duration_hours : Q) (session_type : string) (is_elective : bool)
    (free_groups : list (list string)) : bool * state :=
  match free_groups with
  | [] => (false, st)
  | group :: rest =>
      if Qle_bool duration_hours (total_duration group) then
        let slots_to_fill := select_slots duration_hours 0 group in
        match (if negb is_elective then resolve_room st course_code session_type
               else (Some "", st)) with
        | (None, st1) => (false, st1)
        | (Some room, st1) =>
            let tt := write_slots (tt_frame st1) d session_type course_code room
                                  is_elective slots_to_fill in
            (true, record_faculty d faculty (set_tt_frame tt st1))
        end
      else place_in st d faculty course_code duration_hours session_type is_elective rest
  end.

Definition place_session (st : state) (d : day) (faculty course_code : string)
    (duration_hours : Q) (session_type : string) (is_elective : bool) : bool * state :=
  place_in st d faculty course_code duration_hours session_type is_elective
           (find_free_blocks (tt_frame st) d).

(** *** Course scheduler *)

(** Sizes of one attempted session (lines 221, 233 and 244). *)
Definition lecture_alloc (remaining : Q) : Q := py_min 1.5 remaining.
Definition tutorial_alloc (remaining : Q) : Q := 1.
Definition practical_alloc (remaining : Q) : Q :=
  if Qle_bool 2 remaining then py_min 2 remaining else remaining.

Section Scheduler.

(** The three retry loops of [create_timetable] differ only in the session
    type and in the size [alloc] of the session they request. *)
Variable alloc : Q → Q.
Variable session_type : string.
Variables faculty course_code : string.
Variable is_elective : bool.

(** [faculty and faculty in faculty_schedule[day]] *)
Definition busy (st : state) (d : day) : bool :=
  truthy faculty && bool_decide (faculty ∈ faculty_schedule st !!! d).

(** [for day in week_days: ...], leaving at the [break]. *)
Fixpoint day_loop (days : list day) (remaining : Q) (st : state) : Q * state :=
  match days with
  | [] => (remaining, st)
  | d :: rest =>
      if Qle_bool remaining 0 || busy st d then day_loop rest remaining st
      else
        let alloc_hours := alloc remaining in
        let '(placed, st') :=
          place_session st d faculty course_code alloc_hours session_type is_elective in
        if placed then ((remaining - alloc_hours)%Q, st')
        else day_loop rest remaining st'
  end.

(** [while remaining > 0 and attempts < MAX_ATTEMPTS: ...]; [fuel] bounds
    the number of iterations unfolded. *)
Fixpoint pass_loop (fuel attempts : nat) (remaining : Q) (st : state) : Q * nat * state :=
  match fuel with
  | O => (remaining, attempts, st)
  | S fuel' =>
      if Qltb 0 remaining && Nat.ltb attempts MAX_ATTEMPTS then
        let attempts' := S attempts in
        let '(remaining', st') := day_loop week_days remaining st in
        pass_loop fuel' attempts' remaining' st'
      else (remaining, attempts, st)
  end.

(** One retry loop from [attempts = 0]: the hours left, the passes made
    and the state reached. *)
Definition schedule_hours (hours : Q) (st : state) : Q * nat * state :=
  pass_loop MAX_ATTEMPTS 0 hours st.

End Scheduler.

(** *** Timetable builder *)

(** A record of the course list, each field as the text [str(...)] gives. *)
Record course := Course {
  Course_Code : string;
  Faculty : string;
  L_T_P_S_C : string;
  Elective : string
}.

#[global] Instance course_inhabited : Inhabited course := populate (Course "" "" "" "").

(** [L, T, P, S, C = map(int, [x.strip() for x in text.split("-")])] *)
Definition parse_quintuple (text : string) : option (Z * Z * Z * Z * Z) :=
  match (λ x, Py.int (Py.strip x)) <$> Py.split "-" text with
  | [Some l; Some t; Some p; Some s; Some c] => Some (l, t, p, s, c)
  | _ => None
  end.

(** The body of [for course in mandatory] (lines 205-247). *)
Definition schedule_course (st : state) (c : course) : state :=
  let faculty := Py.strip (Faculty c) in
  let course_code := Py.strip (Course_Code c) in
  let is_elective := bool_decide (course_code = "Elective") in
  match parse_quintuple (L_T_P_S_C c) with
  | None => st
  | Some (l, t, p, _, _) =>
      let '(_, _, st1) :=
        schedule_hours lecture_alloc "L" faculty course_code is_elective (inject_Z l) st in
      let '(_, _, st2) :=
        schedule_hours tutorial_alloc "T" faculty course_code is_elective (inject_Z t) st1 in
      let '(_, _, st3) :=
        schedule_hours practical_alloc "P" faculty course_code is_elective (inject_Z p) st2 in
      st3
  end.

(** [pd.DataFrame("", index=week_days, columns=slot_keys)] *)
Definition empty_frame : gmap (day * string) string :=
  list_to_map ((λ cell, (cell, "")) <$> list_prod week_days slot_keys).

(** [{day: [] for day in week_days}] *)
Definition empty_faculty_schedule : gmap day (list string) :=
  list_to_map ((λ d, (d, [])) <$> week_days).

(** Lines 249-252 *)
Definition clear_excluded (tt : gmap (day * string) string) : gmap (day * string) string :=
  foldl (λ tt d,
           foldl (λ tt slot,
                    if bool_decide (slot ∈ slot_keys) then <[(d, slot) := ""]> tt else tt)
                 tt excluded_slots)
        tt week_days.

(** Lines 192-202: the course list actually scheduled. *)
Definition select_courses (st : state) (course_list : list course) : list course * state :=
  let electives := filter (λ c, Elective c = "1") course_list in
  let mandatory := filter (λ c, Elective c ≠ "1") course_list in
  match electives with
  | [] => (mandatory, st)
  | _ =>
      let chosen_elective := choose st electives in
      let elective_course :=
        Course "Elective" (Faculty chosen_elective) (L_T_P_S_C chosen_elective) "0" in
      (mandatory ++ [elective_course], draw st)
  end.

(** [create_timetable(course_list, filename)] up to the point where the
    grid is handed to the renderer.  [globals] carries what survives from
    earlier in the process: the old [room_allocations], the position in
    the random stream and the printed text; the frame and the faculty
    lists are fresh locals. *)
Definition create_timetable (globals : state) (course_list : list course) : state :=
  let st0 := State empty_frame empty_faculty_schedule ∅ (rng_pos globals) (stdout globals) in
  let '(mandatory, st1) := select_courses st0 course_list in
  let st2 := foldl schedule_course st1 mandatory in
  set_tt_frame (clear_excluded (tt_frame st2)) st2.

(** The pool a fresh room is drawn from. *)
Definition pool_of (session_type : string) : list string :=
  if bool_decide (session_type = "P") then labs else classrooms.

(** The shape of a successful placement: the state [st1] left by room
    resolution, the slots written and the final state. *)
Definition placed_as (st : state) (d : day) (faculty course_code : string)
    (duration_hours : Q) (session_type : string) (is_elective : bool)
    (group : list string) (room : string) (st1 st' : state) : Prop :=
  Qle_bool duration_hours (total_duration group) = true ∧
  (if negb is_elective then resolve_room st course_code session_type = (Some room, st1)
   else room = "" ∧ st1 = st) ∧
  st' = record_faculty d faculty
          (set_tt_frame
             (write_slots (tt_frame st1) d session_type course_code room is_elective
                          (select_slots duration_hours 0 group)) st1).

End Core.

(** ** Vocabulary of the statements *)

(** [boundary free o]: the neighbouring slot [o], when there is one, is not
    free. *)
Definition boundary {A} (free : A → bool) (o : option A) : Prop :=
  ∀ x, o = Some x → free x = false.

(** [maximal_runs free l gs]: [gs] lists, in order, the maximal runs of
    consecutive elements of [l] that satisfy [free]. *)
Inductive maximal_runs {A} (free : A → bool) : list A → list (list A) → Prop :=
  | runs_end : maximal_runs free [] []
  | runs_skip x l gs :
      free x = false → maximal_runs free l gs → maximal_runs free (x :: l) gs
  | runs_group g l gs :
      g ≠ [] → Forall (λ x, free x = true) g → boundary free (head l) →
      maximal_runs free l gs → maximal_runs free (g ++ l) (g :: gs).

(** [grid_respected slot_keys st st']: every cell of the frame is either the
    same in [st'] as in [st], or it was an empty cell of a catalogue slot
    that is not excluded. *)
Definition grid_respected (slot_keys : list string) (st st' : state) : Prop :=
  ∀ cell, (tt_frame st' !! cell = tt_frame st !! cell) ∨
          (tt_frame st !!! cell = "" ∧ (cell.2 ∉ excluded_slots) ∧ cell.2 ∈ slot_keys).

(** [keys_kept st st']: every cell of the frame and every day of the faculty
    lists present in [st] is present in [st']. *)
Definition keys_kept (st st' : state) : Prop :=
  (∀ cell, is_Some (tt_frame st !! cell) → is_Some (tt_frame st' !! cell)) ∧
  (∀ d, is_Some (faculty_schedule st !! d) → is_Some (faculty_schedule st' !! d)).

(** [bindings_kept st st']: every room bound in [st] is bound to the same
    room in [st']. *)
Definition bindings_kept (st st' : state) : Prop :=
  ∀ course_code room,
    room_allocations st !! course_code = Some room →
    room_allocations st' !! course_code = Some room.

(** [faculty_once st]: no name occurs twice in the list of a day. *)
Definition faculty_once (st : state) : Prop :=
  ∀ d, NoDup (faculty_schedule st !!! d).


Fixpoint has_char (c : ascii) (s : string) : bool :=
  match s with
  | EmptyString => false
  | String c' rest => Ascii.eqb c' c || has_char c rest
  end.





(** The end-to-end scenario: three one-hour slots, none of them excluded,
    and a process that has printed nothing and drawn nothing yet. *)
Definition scenario_slots : list string := ["08:00-09:00"; "09:00-10:00"; "10:00-11:00"].
Definition scenario_durations : gmap string Q := default ∅ (time_durations_of scenario_slots).
Definition scenario_course : course := Course "CODE" "X" "2-0-0-0-2" "0".
Definition fresh_process : state := State ∅ ∅ ∅ 0 [].
Definition first_draws : nat → nat := λ _, 0%nat.

(** The frame and lists the builder starts from in the scenario. *)
Definition scenario_start (globals : state) : state :=
  State (empty_frame scenario_slots) empty_faculty_schedule ∅
        (rng_pos globals) (stdout globals).

(** The grid as the rows of the emitted sheet: one row per weekday, one
    cell per catalogue slot. *)
Definition grid_rows (slot_keys : list string) (tt : gmap (day * string) string)
  : list (list string) :=
  (λ d, (λ slot, tt !!! (d, slot)) <$> slot_keys) <$> week_days.

(** A course with one lecture hour and one practical hour. *)
Definition lab_course : course := Course "CODE" "X" "1-0-1-0-2" "0".

(** [draws_match_bindings st st']: from [st] to [st'] the random stream has
    advanced by exactly as many draws as rooms were bound, and no binding
    was lost. *)
Definition draws_match_bindings (st st' : state) : Prop :=
  (rng_pos st' + size (room_allocations st) = rng_pos st + size (room_allocations st'))%nat ∧
  (size (room_allocations st) ≤ size (room_allocations st'))%nat ∧
  stdout st `prefix_of` stdout st'.

(** The number of occurrences of a character in a text. *)
Fixpoint count_char (c : ascii) (s : string) : nat :=
  match s with
  | EmptyString => 0
  | String c' rest => (if Ascii.eqb c' c then 1 else 0) + count_char c rest
  end.

(** ** Start-up: the slot labels and the two room pools *)

Module PyStr.

(** [c.lower()] on an ASCII character. *)
Definition lower_char (c : ascii) : ascii :=
  let n := nat_of_ascii c in
  if Nat.leb 65 n && Nat.leb n 90 then ascii_of_nat (n + 32) else c.

(** [s.lower()] *)
Fixpoint lower (s : string) : string :=
  match s with
  | EmptyString => EmptyString
  | String c rest => String (lower_char c) (lower rest)
  end.

End PyStr.

(** A record of [time_slots.json]. *)
Record slot_row := SlotRow { slot_start : string; slot_end : string }.

(** Line 14: [f"{slot['start'].strip()}-{slot['end'].strip()}"] *)
Definition slot_key (slot : slot_row) : string :=
  Py.strip (slot_start slot) +:+ "-" +:+ Py.strip (slot_end slot).

Definition slot_keys_of (slots_data : list slot_row) : list string :=
  slot_key <$> slots_data.

(** A record of [rooms.csv]; [Room_Type] is the column [Type]. *)
Record room_row := RoomRow { Room_ID : string; Room_Type : string }.

(** Lines 48-49: the rows whose type, in lower case, is the wanted one. *)
Definition rooms_of_type (wanted : string) (rooms_df : list room_row) : list string :=
  Room_ID <$> filter (λ r, PyStr.lower (Room_Type r) = wanted) rooms_df.

Definition classrooms_of (rooms_df : list room_row) : list string :=
  rooms_of_type "classroom" rooms_df.
Definition labs_of (rooms_df : list room_row) : list string :=
  rooms_of_type "lab" rooms_df.

(** Texts made of white space only. *)
Fixpoint only_spaces (s : string) : bool :=
  match s with
  | EmptyString => true
  | String c rest => Py.is_space c && only_spaces rest
  end.

(** ** Renderer: merged cells and fill colours *)

Module PyText.

(** The tokens of [s.split()]: maximal runs without white space; [cur] is
    the token being read. *)
Fixpoint words (s cur : string) : list string :=
  match s with
  | EmptyString => if bool_decide (cur = "") then [] else [cur]
  | String c rest =>
      if Py.is_space c then
        if bool_decide (cur = "") then words rest "" else cur :: words rest ""
      else words rest (cur +:+ String c "")
  end.

(** [s.split()] *)
Definition split_ws (s : string) : list string := words s "".

(** [s.replace(c, "")] for a one-character [c]. *)
Fixpoint remove_char (c : ascii) (s : string) : string :=
  match s with
  | EmptyString => EmptyString
  | String c' rest =>
      if Ascii.eqb c' c then remove_char c rest else String c' (remove_char c rest)
  end.

(** [needle in hay] *)
Fixpoint contains (needle hay : string) : bool :=
  String.prefix needle hay ||
  match hay with
  | EmptyString => false
  | String _ rest => contains needle rest
  end.

Definition hex_digit (n : nat) : ascii :=
  if Nat.ltb n 10 then ascii_of_nat (48 + n) else ascii_of_nat (55 + n).

(** ["%02X" % n], for [n] below 256. *)
Definition hex2 (n : nat) : string :=
  String (hex_digit (n / 16)) (String (hex_digit (n mod 16)) "").

(** [random.randint(a, b)], reading draw [pos]. *)
Definition randint (rnd : nat → nat) (pos a b : nat) : nat :=
  (a + rnd pos `mod` (b - a + 1))%nat.

(** [x[i], x[j] = x[j], x[i]] *)
Definition swap {A} (i j : nat) (x : list A) : list A :=
  match x !! i, x !! j with
  | Some a, Some b => <[i := b]> (<[j := a]> x)
  | _, _ => x
  end.

(** The loop of [random.shuffle(x)]: [for i in reversed(range(1, len(x)))],
    with [i] the number of indices still to visit. *)
Fixpoint shuffle_from {A} (rnd : nat → nat) (pos i : nat) (x : list A) : list A :=
  match i with
  | O => x
  | S i' => shuffle_from rnd (S pos) i' (swap i (rnd pos `mod` S i) x)
  end.

(** [random.shuffle(x)], from draw [pos] on; it reads [len(x) - 1] draws. *)
Definition shuffle {A} (rnd : nat → nat) (pos : nat) (x : list A) : list A :=
  shuffle_from rnd pos (length x - 1) x.

End PyText.

(** Lines 29-34 *)
Definition random_pastel (rnd : nat → nat) (pos : nat) : string :=
  PyText.hex2 (PyText.randint rnd pos 180 255) +:+
  PyText.hex2 (PyText.randint rnd (pos + 1) 180 255) +:+
  PyText.hex2 (PyText.randint rnd (pos + 2) 180 255).

(** Line 36: [[random_pastel() for _ in range(20)]], from draw [pos] on. *)
Definition color_palette_of (rnd : nat → nat) (pos : nat) : list string :=
  (λ i, random_pastel rnd (pos + 3 * i)) <$> seq 0 20.

(** Lines 136-144: the length of a session as the renderer guesses it from
    the cell text. *)
Definition session_duration (value : string) : Q :=
  if PyText.contains "(" value then
    if PyText.contains "Lab" value then 2
    else if PyText.contains "T" value then 1
    else 1.5
  else 1.5.

(** Line 167: [str(value).split()[0].replace("T", "")]; [None] stands for
    the [IndexError] on a text of white space only. *)
Definition raw_name (value : string) : option string :=
  PyText.remove_char "T" <$> head (PyText.split_ws value).

(** The colours of a sheet: [course_colors], [available_colors] and the
    position in the random stream. *)
Record palette := Palette {
  course_colors : gmap string string;
  available_colors : list string;
  palette_rng : nat
}.

(** One styled run of cells of the sheet: merged when it has more than one
    column, its first cell centred, bold and filled with [span_fill], all its
    cells bordered. *)
Record span := Span {
  span_row : nat;
  span_first : nat;
  span_last : nat;
  span_fill : string
}.

Section Render.

Variable slot_keys : list string.
Variable time_durations : gmap string Q.
Variable color_palette : list string.
Variable rnd : nat → nat.

(** [ws.max_column]: the index column and one column per slot. *)
Definition max_column : nat := S (length slot_keys).

(** [ws.cell(row=row_idx, column=col).value], the empty text for an empty
    cell; [row] holds the cells of the columns from 2 on. *)
Definition cell_value (row : list string) (col : nat) : string :=
  default "" (row !! (col - 2)%nat).

(** [time_durations[slot_keys[col - 2]]]; [None] stands for the [IndexError]
    of a column past the slots and for the [KeyError] of a label without a
    duration. *)
Definition column_duration (col : nat) : option Q :=
  slot ← slot_keys !! (col - 2)%nat; time_durations !! slot.

(** Lines 148-157: the inner [while], from [next_col] on; the result lists
    the columns appended to [merge_cols]. *)
Fixpoint extend_merge (row : list string) (value : string) (session_dur : Q)
    (fuel next_col : nat) (total_dur : Q) : option (list nat) :=
  match fuel with
  | O => Some []
  | S fuel' =>
      if Nat.leb next_col max_column then
        if bool_decide (cell_value row next_col = value) then
          d ← column_duration next_col;
          let total_dur' := (total_dur + d)%Q in
          if Qle_bool session_dur total_dur' then Some [next_col]
          else (next_col ::.) <$>
                 extend_merge row value session_dur fuel' (S next_col) total_dur'
        else Some []
      else Some []
  end.

(** Lines 168-175: the fill colour of a course name. *)
Definition pick_color (name : string) (ps : palette) : string * palette :=
  match course_colors ps !! name with
  | Some fill => (fill, ps)
  | None =>
      match last (available_colors ps) with
      | Some fill =>
          (fill, Palette (<[name := fill]> (course_colors ps))
                         (removelast (available_colors ps)) (palette_rng ps))
      | None =>
          let p := palette_rng ps in
          let fill := PyText.hex2 (PyText.randint rnd p 150 255) +:+
                      PyText.hex2 (PyText.randint rnd (p + 1) 150 255) +:+
                      PyText.hex2 (PyText.randint rnd (p + 2) 150 255) in
          (fill, Palette (<[name := fill]> (course_colors ps)) [] (p + 3))
      end
  end.

(** Lines 129-181: the outer [while] of one sheet row, from [col_start] on. *)
Fixpoint style_row (fuel row_idx : nat) (row : list string) (col_start : nat) (ps : palette)
  : option (list span * palette) :=
  match fuel with
  | O => Some ([], ps)
  | S fuel' =>
      if Nat.leb col_start max_column then
        let value := cell_value row col_start in
        if bool_decide (value = "") then style_row fuel' row_idx row (S col_start) ps
        else
          let session_dur := session_duration value in
          total_dur ← column_duration col_start;
          appended ← extend_merge row value session_dur (length slot_keys)
                                  (S col_start) total_dur;
          let merge_cols := col_start :: appended in
          name ← raw_name value;
          let '(fill, ps') := pick_color name ps in
          let last_col := List.last merge_cols col_start in
          '(spans, ps'') ← style_row fuel' row_idx row (S last_col) ps';
          Some (Span row_idx col_start last_col fill :: spans, ps'')
      else Some ([], ps)
  end.

(** Lines 127-181: [for row_idx in range(2, ws.max_row + 1)]. *)
Fixpoint style_rows (row_idx : nat) (rows : list (list string)) (ps : palette)
  : option (list span * palette) :=
  match rows with
  | [] => Some ([], ps)
  | row :: rest =>
      '(spans, ps') ← style_row (length slot_keys) row_idx row 2 ps;
      '(more, ps'') ← style_rows (S row_idx) rest ps';
      Some (spans ++ more, ps'')
  end.

(** [style_and_merge_cells(filename)] on the sheet whose rows 2, 3, ... are
    [rows], with the random stream at draw [pos]: the styled runs, in the
    order they are made, and the colour state at the end.  [None] stands for
    an exception: the [IndexError] of line 167 or a failed lookup of a
    duration (lines 146 and 151). *)
Definition style_and_merge_cells (rows : list (list string)) (pos : nat)
  : option (list span * palette) :=
  let available_colors := PyText.shuffle rnd pos color_palette in
  style_rows 2 rows (Palette ∅ available_colors (pos + (length color_palette - 1))).

End Render.

(** [span_before a b]: [a] lies in an earlier row than [b], or in the same
    row and wholly to the left of [b]. *)
Definition span_before (a b : span) : Prop :=
  (span_row a < span_row b)%nat ∨
  (span_row a = span_row b ∧ (span_last a < span_first b)%nat).

Fixpoint has_space (s : string) : bool :=
  match s with
  | EmptyString => false
  | String c rest => Py.is_space c || has_space rest
  end.

(** Upper-case hexadecimal digits, and texts of six of them. *)
Definition hex_char (c : ascii) : bool :=
  let n := nat_of_ascii c in
  (Nat.leb 48 n && Nat.leb n 57) || (Nat.leb 65 n && Nat.leb n 70).

Fixpoint all_hex (s : string) : bool :=
  match s with
  | EmptyString => true
  | String c rest => hex_char c && all_hex rest
  end.

Definition is_rgb_hex (s : string) : Prop :=
  String.length s = 6%nat ∧ all_hex s = true.

(** [colors_extend P ps ps']: the colours assigned in [ps] are still assigned
    in [ps'], and [P] holds of every colour [ps] can hand out. *)
Definition colors_ok (P : string → Prop) (ps : palette) : Prop :=
  Forall P (available_colors ps) ∧
  ∀ name fill, course_colors ps !! name = Some fill → P fill.

Definition colors_kept (ps ps' : palette) : Prop :=
  ∀ name fill, course_colors ps !! name = Some fill → course_colors ps' !! name = Some fill.

(** The code and the elective flag under which the course loop places the
    sessions of a course (lines 206-207). *)
Definition code_of (c : course) : string := Py.strip (Course_Code c).
Definition elective_of (c : course) : bool := bool_decide (code_of c = "Elective").

(** [grid_explained courses st]: every cell of the frame is empty or holds
    the occupant tag of a session of one of the [courses]; unless the course
    is the elective, the room of the tag is the room bound to the course. *)
Definition grid_explained (courses : list course) (st : state) : Prop :=
  ∀ cell v, tt_frame st !! cell = Some v →
    v = "" ∨
    ∃ c session_type room,
      c ∈ courses ∧
      occupant_tag session_type (code_of c) room (elective_of c) = Some v ∧
      (elective_of c = false → room_allocations st !! code_of c = Some room).

(** [bindings_explained classrooms labs courses st]: every bound room comes
    from one of the two pools and is bound to the code of one of the
    [courses], never to the elective. *)
Definition bindings_explained (classrooms labs : list string) (courses : list course)
    (st : state) : Prop :=
  ∀ code room, room_allocations st !! code = Some room →
    code ≠ "Elective" ∧ (room ∈ classrooms ∨ room ∈ labs) ∧
    ∃ c, c ∈ courses ∧ code = code_of c.

(** The sheet of the end-to-end scenario, as the renderer reads it, and a
    palette of one colour. *)
Definition scenario_sheet : list (list string) :=
  [ ["CODE (R1)"; "CODE (R1)"; ""]; ["CODE (R1)"; ""; ""]; [""; ""; ""]; [""; ""; ""];
    [""; ""; ""] ].
Definition scenario_palette : list string := ["FFB4B4"].

(** A room table with types in mixed case. *)
Definition scenario_rooms : list room_row :=
  [RoomRow "R1" "Classroom"; RoomRow "L1" "LAB"; RoomRow "S1" "Store"].

(** A day around the lunch break: six slots of which the fourth is excluded,
    and two courses of two lecture hours with different faculty.  The
    durations are 1, 1, 1.25, 0.75, 1.5 and 1 hours. *)
Definition lunch_slots : list string :=
  ["10:00-11:00"; "11:00-12:00"; "12:00-13:15"; "13:15-14:00"; "14:00-15:30"; "15:30-16:30"].
Definition lunch_durations : gmap string Q := default ∅ (time_durations_of lunch_slots).
Definition second_course : course := Course "MATH" "Y" "2-0-0-0-2" "0".

(** The state after the course loop has handled the first course, and after
    it has handled the second one too. *)
Definition lunch_first : state :=
  foldl (schedule_course lunch_slots lunch_durations ["R1"] [] first_draws)
        (State (empty_frame lunch_slots) empty_faculty_schedule ∅ 0 [])
        [scenario_course].
Definition lunch_second : state :=
  foldl (schedule_course lunch_slots lunch_durations ["R1"] [] first_draws)
        lunch_first [second_course].

(** Unfolding the entry points, whatever local abbreviation hides their
    names. *)
Ltac unfold_placer := unfold place_session.
Ltac unfold_retry_loop := unfold schedule_hours.
Ltac unfold_course_body := unfold schedule_course.
Ltac unfold_builder := unfold create_timetable.
Ltac unfold_select_courses := unfold select_courses.
Ltac unfold_max_column := unfold max_column in *.
Ltac unfold_style_and_merge_cells := unfold style_and_merge_cells.

Ltac step_day_loop := cbn [day_loop].
Ltac step_extend_merge := cbn [extend_merge].
Ltac step_style_row := cbn [style_row].
Ltac step_style_rows := cbn [style_rows].

(** ** Facts about maximal runs *)

Section Runs.
Context {A : Type} (free : A → bool).

Lemma boundary_nil : boundary free (@None A).
Proof. intros x Hx. discriminate. Qed.

Lemma free_prefix_unique (g1 g2 l1 l2 : list A) :
  Forall (λ x, free x = true) g1 → Forall (λ x, free x = true) g2 →
  boundary free (head l1) → boundary free (head l2) →
  g1 ++ l1 = g2 ++ l2 → g1 = g2 ∧ l1 = l2.
Proof.
  intros H1; revert g2. induction H1 as [|x g1 Hx H1 IH]; intros g2 H2 B1 B2 E.
  - destruct H2 as [|y g2 Hy H2]; [done|]. simpl in E. subst l1.
    specialize (B1 y eq_refl). congruence.
  - destruct H2 as [|y g2 Hy H2]; simpl in E.
    + subst l2. specialize (B2 x eq_refl). congruence.
    + injection E as -> E. destruct (IH g2 H2 B1 B2 E) as [-> ->]. done.
Qed.

Lemma maximal_runs_unique (l : list A) (gs1 gs2 : list (list A)) :
  maximal_runs free l gs1 → maximal_runs free l gs2 → gs1 = gs2.
Proof.
  intros R1; revert gs2.
  induction R1 as [|x l gs1 Hx R1 IH|g l gs1 Hne Hg Hb R1 IH]; intros gs2 R2.
  - inversion R2 as [| |g' l' gs' Hne' Hg' Hb' R' E]; [done|].
    destruct g'; [done|discriminate].
  - inversion R2 as [|x' l' gs' Hx' R' E|g' l' gs' Hne' Hg' Hb' R' E]; subst.
    + by apply IH.
    + destruct g' as [|y g']; [done|]. simpl in E. injection E as -> _.
      apply Forall_cons_1 in Hg' as [Hy _]. congruence.
  - remember (g ++ l) as gl eqn:Egl.
    destruct R2 as [|x' l' gs' Hx' R'|g' l' gs' Hne' Hg' Hb' R'].
    + destruct g; [done|discriminate].
    + destruct g as [|y g]; [done|]. simpl in Egl. injection Egl as -> _.
      apply Forall_cons_1 in Hg as [Hy _]. congruence.
    + destruct (free_prefix_unique g' g l' l Hg' Hg Hb' Hb Egl) as [-> ->].
      f_equal. by apply IH.
Qed.

Lemma maximal_runs_concat (l : list A) (gs : list (list A)) :
  maximal_runs free l gs → concat gs = filter (λ x, free x = true) l.
Proof.
  induction 1 as [|x l gs Hx R IH|g l gs Hne Hg Hb R IH]; simpl.
  - done.
  - rewrite filter_cons_False by congruence. done.
  - rewrite filter_app, IH. f_equal.
    clear -Hg. induction Hg as [|x g Hx Hg IH]; [done|].
    rewrite filter_cons_True by done. by rewrite <- IH.
Qed.

Lemma maximal_runs_groups (l : list A) (gs : list (list A)) :
  maximal_runs free l gs →
  Forall (λ g, g ≠ [] ∧ Forall (λ x, free x = true) g ∧
               ∃ before after, l = before ++ g ++ after ∧
                 boundary free (last before) ∧ boundary free (head after)) gs.
Proof.
  induction 1 as [|x l gs Hx R IH|g l gs Hne Hg Hb R IH].
  - constructor.
  - eapply Forall_impl; [exact IH|]. simpl.
    intros g (Hne & Hg & before & after & -> & Hl & Hh).
    repeat split; [done..|]. exists (x :: before), after. repeat split; [|done].
    destruct before as [|y before]; [intros z [= <-]; done|]. exact Hl.
  - constructor.
    + repeat split; [done..|]. exists [], l. repeat split; [|done]. apply boundary_nil.
    + eapply Forall_impl; [exact IH|]. simpl.
      intros g2 (Hne2 & Hg2 & before & after & -> & Hl & Hh).
      repeat split; [done..|]. exists (g ++ before), after.
      rewrite <- (assoc_L (++)). repeat split; [|done].
      destruct before as [|y before].
      * destruct g2 as [|z g2]; [done|]. simpl in Hb.
        apply Forall_cons_1 in Hg2 as [Hz _]. specialize (Hb z eq_refl). congruence.
      * rewrite last_app. simpl in *. destruct (last (y :: before)) eqn:E; [done|].
        by apply last_None in E.
Qed.

End Runs.

(** ** Facts about the free-block finder *)

Section FinderFacts.
Variable slot_keys : list string.
Implicit Types (tt : gmap (day * string) string) (d : day).

Lemma scan_slots_runs tt d slots free_groups temp_group :
  Forall (λ s, is_free tt d s = true) temp_group →
  ∃ gs, scan_slots tt d slots free_groups temp_group = free_groups ++ gs ∧
        maximal_runs (is_free tt d) (temp_group ++ slots) gs.
Proof.
  revert free_groups temp_group.
  induction slots as [|slot rest IH]; intros fg tg Htg; simpl.
  - destruct tg as [|s tg].
    + exists []. split; [by rewrite app_nil_r|constructor].
    + exists [s :: tg]. split; [done|].
      apply runs_group; [done|done|apply boundary_nil|constructor].
  - destruct (is_free tt d slot) eqn:Hslot.
    + destruct (IH fg (tg ++ [slot])) as (gs & E & R).
      { apply Forall_app. split; [done|]. by constructor. }
      exists gs. split; [done|]. by rewrite <- (assoc_L (++)) in R.
    + destruct tg as [|s tg].
      * destruct (IH fg []) as (gs & E & R); [done|].
        exists gs. split; [done|]. by apply runs_skip.
      * destruct (IH (fg ++ [s :: tg]) []) as (gs & E & R); [done|].
        exists ((s :: tg) :: gs). split; [by rewrite E, <- (assoc_L (++))|].
        apply runs_group; [done|done| |by apply runs_skip].
        intros x [= <-]. done.
Qed.

Lemma find_free_blocks_runs tt d :
  maximal_runs (is_free tt d) slot_keys (find_free_blocks slot_keys tt d).
Proof.
  destruct (scan_slots_runs tt d slot_keys [] []) as (gs & E & R); [done|].
  unfold find_free_blocks. by rewrite E.
Qed.

Lemma is_free_true_iff tt d s :
  is_free tt d s = true ↔ tt !!! (d, s) = "" ∧ s ∉ excluded_slots.
Proof. unfold is_free. by rewrite andb_true_iff, !bool_decide_eq_true. Qed.

Lemma is_free_false_iff tt d s :
  is_free tt d s = false ↔ tt !!! (d, s) ≠ "" ∨ s ∈ excluded_slots.
Proof.
  unfold is_free. rewrite andb_false_iff, !bool_decide_eq_false. split.
  - intros [?|Hex]; [by left|]. right. by destruct (decide (s ∈ excluded_slots)).
  - intros [?|Hin]; [by left|]. right. intros Hout. exact (Hout Hin).
Qed.

(** C4. For every occupancy row, [find_free_blocks] returns exactly the
    maximal runs of catalogue-consecutive slots whose cell is empty and whose
    label is not excluded, in catalogue order: the result is the one and only
    list of maximal runs; each group is non-empty, made of slots with an
    empty cell and a label that is not excluded, and contiguous in the
    catalogue, with an occupied or excluded slot (or the end of the
    catalogue) on either side, so a trailing run is kept; an occupied or
    excluded slot is in no group; the groups put end to end are the slots
    with an empty cell and a label that is not excluded, in catalogue order.
    The finder is a function of the row and returns nothing but the groups:
    it is deterministic and leaves the row as it is. *)
Theorem find_free_blocks_maximal_runs tt d :
  let free := λ s, bool_decide (tt !!! (d, s) = "") && bool_decide (s ∉ excluded_slots) in
  (∀ gs, maximal_runs free slot_keys gs ↔ gs = find_free_blocks slot_keys tt d) ∧
  Forall (λ g, g ≠ [] ∧
               Forall (λ s, tt !!! (d, s) = "" ∧ s ∉ excluded_slots) g ∧
               ∃ before after, slot_keys = before ++ g ++ after ∧
                 (∀ s, last before = Some s → tt !!! (d, s) ≠ "" ∨ s ∈ excluded_slots) ∧
                 (∀ s, head after = Some s → tt !!! (d, s) ≠ "" ∨ s ∈ excluded_slots))
         (find_free_blocks slot_keys tt d) ∧
  (∀ s g, tt !!! (d, s) ≠ "" ∨ s ∈ excluded_slots →
          g ∈ find_free_blocks slot_keys tt d → s ∉ g) ∧
  concat (find_free_blocks slot_keys tt d) =
    filter (λ s, tt !!! (d, s) = "" ∧ s ∉ excluded_slots) slot_keys.
Proof.
  intros free. change free with (is_free tt d). clear free.
  pose proof (find_free_blocks_runs tt d) as R.
  pose proof (maximal_runs_groups _ _ _ R) as G.
  split; [|split; [|split]].
  - intros gs. split.
    + intros R'. by eapply maximal_runs_unique.
    + by intros ->.
  - eapply Forall_impl; [exact G|]. simpl.
    intros g (Hne & Hfree & before & after & E & Hl & Hh).
    split; [done|]. split.
    + eapply Forall_impl; [exact Hfree|]. intros s. apply is_free_true_iff.
    + exists before, after. split; [done|].
      split; intros s Hs; apply is_free_false_iff; [by apply Hl|by apply Hh].
  - intros s g Hs Hg Hin. rewrite Forall_forall in G.
    destruct (G g Hg) as (_ & Hfree & _). rewrite Forall_forall in Hfree.
    apply is_free_false_iff in Hs. rewrite (Hfree s Hin) in Hs. done.
  - rewrite (maximal_runs_concat _ _ _ R). apply list_filter_iff.
    intros s. apply is_free_true_iff.
Qed.

(** Every slot of every returned group is a free slot of the catalogue. *)
Lemma find_free_blocks_free tt d group s :
  group ∈ find_free_blocks slot_keys tt d → s ∈ group →
  is_free tt d s = true ∧ s ∈ slot_keys.
Proof.
  intros Hg Hs.
  pose proof (maximal_runs_groups _ _ _ (find_free_blocks_runs tt d)) as F.
  rewrite Forall_forall in F. destruct (F _ Hg) as (_ & Hfree & before & after & E & _).
  split.
  - rewrite Forall_forall in Hfree. by apply Hfree.
  - rewrite E, !elem_of_app. auto.
Qed.

Lemma find_free_blocks_nonempty tt d group :
  group ∈ find_free_blocks slot_keys tt d → group ≠ [].
Proof.
  intros Hg.
  pose proof (maximal_runs_groups _ _ _ (find_free_blocks_runs tt d)) as F.
  rewrite Forall_forall in F. by destruct (F _ Hg) as (? & _).
Qed.

End FinderFacts.

(** ** Facts about the session placer *)

Section PlacerFacts.
Variable slot_keys : list string.
Variable time_durations : gmap string Q.
Variable classrooms labs : list string.
Variable rnd : nat → nat.
Implicit Types (tt : gmap (day * string) string) (d : day) (st : state).

Local Abbreviation resolve_room := (resolve_room classrooms labs rnd).
Local Abbreviation place_in := (place_in time_durations classrooms labs rnd).
Local Abbreviation pool_of := (pool_of classrooms labs).
Local Abbreviation placed_as := (placed_as time_durations classrooms labs rnd).
Local Abbreviation place_session := (place_session slot_keys time_durations classrooms labs rnd).

Lemma select_slots_subset duration_hours accum group s :
  s ∈ select_slots time_durations duration_hours accum group → s ∈ group.
Proof.
  revert accum. induction group as [|x group IH]; intros accum; simpl; [done|].
  destruct (Qle_bool _ _).
  - intros ->%list_elem_of_singleton. left.
  - intros [->|H]%elem_of_cons; [left|right; eauto].
Qed.

Lemma select_slots_nonempty duration_hours accum group :
  group ≠ [] → select_slots time_durations duration_hours accum group ≠ [].
Proof. destruct group; [done|]. simpl. by destruct (Qle_bool _ _). Qed.

Lemma choose_elem_of `{Inhabited A} st (pool : list A) :
  pool ≠ [] → choose rnd st pool ∈ pool.
Proof.
  intros Hne. unfold choose, Py.choice.
  destruct (lookup_lt_is_Some_2 pool (rnd (rng_pos st) `mod` length pool)%nat) as [x Hx].
  { apply Nat.mod_upper_bound. by destruct pool. }
  rewrite Hx. simpl. by eapply list_elem_of_lookup_2.
Qed.

(** What room resolution does, case by case. *)
Lemma resolve_room_cases st course_code session_type :
  match resolve_room st course_code session_type with
  | (Some room, st1) =>
      (room_allocations st !! course_code = Some room ∧ st1 = st) ∨
      (room_allocations st !! course_code = None ∧ room ∈ pool_of session_type ∧
       room = choose rnd st (pool_of session_type) ∧
       st1 = bind_room course_code room (draw st))
  | (None, st1) =>
      room_allocations st !! course_code = None ∧ pool_of session_type = [] ∧
      ∃ line, st1 = print line st
  end.
Proof.
  unfold resolve_room, pool_of.
  destruct (room_allocations st !! course_code) as [room|] eqn:E; [by left|].
  destruct (bool_decide (session_type = "P")).
  - destruct labs as [|r pool] eqn:El; [eauto|]. rewrite <- El. right.
    repeat split; try done. apply choose_elem_of. by rewrite El.
  - destruct classrooms as [|r pool] eqn:El; [eauto|]. rewrite <- El. right.
    repeat split; try done. apply choose_elem_of. by rewrite El.
Qed.

(** The cells of a frame after the write loop. *)
Lemma write_slots_lookup tt d session_type course_code room is_elective slots cell :
  write_slots tt d session_type course_code room is_elective slots !! cell =
    match occupant_tag session_type course_code room is_elective with
    | Some tag =>
        if bool_decide (cell.1 = d ∧ cell.2 ∈ slots) then Some tag else tt !! cell
    | None => tt !! cell
    end.
Proof.
  unfold write_slots.
  destruct (occupant_tag session_type course_code room is_elective) as [tag|].
  - revert tt. induction slots as [|s slots IH]; intros tt; simpl.
    + rewrite bool_decide_eq_false_2; [done|]. intros [_ H]. by apply elem_of_nil in H.
    + rewrite IH. destruct cell as [d' s']; simpl.
      destruct (decide (d' = d ∧ s' ∈ slots)) as [[-> Hin]|Hout].
      * rewrite !bool_decide_eq_true_2; [done|split; [done|by right]|done].
      * rewrite (bool_decide_eq_false_2 _ Hout).
        destruct (decide ((d, s) = (d', s'))) as [[= <- <-]|Hne].
        -- rewrite lookup_insert_eq, bool_decide_eq_true_2; [done|]. split; [done|left].
        -- rewrite lookup_insert_ne by done.
           rewrite bool_decide_eq_false_2; [done|].
           intros [-> [->|Hin]%elem_of_cons]; [done|]. by apply Hout.
  - induction slots as [|s slots IH]; simpl; done.
Qed.

(** Every run of the loop over the free groups ends in one of three ways. *)
Lemma place_in_cases st d faculty course_code duration_hours session_type is_elective groups :
  match place_in st d faculty course_code duration_hours session_type is_elective groups with
  | (true, st') =>
      ∃ group room st1, group ∈ groups ∧
        placed_as st d faculty course_code duration_hours session_type is_elective
                  group room st1 st'
  | (false, st') =>
      (st' = st ∧
       Forall (λ g, Qle_bool duration_hours (total_duration time_durations g) = false) groups) ∨
      (is_elective = false ∧ room_allocations st !! course_code = None ∧
       pool_of session_type = [] ∧ (∃ line, st' = print line st) ∧
       Exists (λ g, Qle_bool duration_hours (total_duration time_durations g) = true) groups)
  end.
Proof.
  induction groups as [|group rest IH]; simpl; [by left|].
  destruct (Qle_bool duration_hours (total_duration time_durations group)) eqn:Hfit.
  - destruct is_elective; simpl.
    + exists group, "", st. split; [left|]. by repeat split.
    + pose proof (resolve_room_cases st course_code session_type) as Hr.
      destruct (resolve_room st course_code session_type) as [[room|] st1] eqn:Er.
      * exists group, room, st1. split; [left|]. by repeat split.
      * destruct Hr as (Hnone & Hpool & Hline). right. repeat split; try done. by left.
  - destruct (place_in st d faculty course_code duration_hours session_type is_elective rest)
      as [[] st'].
    + destruct IH as (g & room & st1 & Hg & Hp). exists g, room, st1. split; [by right|done].
    + destruct IH as [[-> Hall]|(He & Hnone & Hpool & Hline & Hex)].
      * left. split; [done|]. by constructor.
      * right. repeat split; try done. by right.
Qed.

Lemma record_faculty_fields d faculty st :
  tt_frame (record_faculty d faculty st) = tt_frame st ∧
  room_allocations (record_faculty d faculty st) = room_allocations st ∧
  rng_pos (record_faculty d faculty st) = rng_pos st ∧
  stdout (record_faculty d faculty st) = stdout st.
Proof. unfold record_faculty. by destruct (truthy faculty). Qed.

Lemma record_faculty_schedule d faculty st d' :
  faculty_schedule (record_faculty d faculty st) !!! d' =
    if truthy faculty && bool_decide (d' = d)
    then faculty_schedule st !!! d ++ [faculty]
    else faculty_schedule st !!! d'.
Proof.
  unfold record_faculty. destruct (truthy faculty); simpl; [|done].
  destruct (decide (d' = d)) as [->|Hne].
  - by rewrite bool_decide_eq_true_2, lookup_total_insert_eq.
  - by rewrite bool_decide_eq_false_2, lookup_total_insert_ne.
Qed.

(** Room resolution never touches the frame nor the faculty lists. *)
Lemma resolve_room_frame st course_code session_type :
  tt_frame (resolve_room st course_code session_type).2 = tt_frame st ∧
  faculty_schedule (resolve_room st course_code session_type).2 = faculty_schedule st.
Proof.
  pose proof (resolve_room_cases st course_code session_type) as Hr.
  destruct (resolve_room st course_code session_type) as [[room|] st1]; simpl.
  - by destruct Hr as [[_ ->]|(_ & _ & _ & ->)].
  - by destruct Hr as (_ & _ & line & ->).
Qed.

(** C5. Whenever [place_session] returns [False], the occupancy grid is
    exactly as it was before the call, and so are the faculty lists, the
    room bindings and the position in the random stream; the failure has one
    of two causes: no free block of the day is long enough (nothing at all
    changed), or the course is a non-elective one without a room yet and the
    pool of its session type is empty (only the diagnostic was printed). *)
Theorem place_session_failure_leaves_grid
    st d faculty course_code duration_hours session_type is_elective :
  (place_session st d faculty course_code duration_hours session_type is_elective).1 = false →
  let st' :=
    (place_session st d faculty course_code duration_hours session_type is_elective).2 in
  tt_frame st' = tt_frame st ∧
  faculty_schedule st' = faculty_schedule st ∧
  room_allocations st' = room_allocations st ∧
  rng_pos st' = rng_pos st ∧
  ((st' = st ∧
    Forall (λ g, Qle_bool duration_hours (total_duration time_durations g) = false)
           (find_free_blocks slot_keys (tt_frame st) d)) ∨
   (is_elective = false ∧ room_allocations st !! course_code = None ∧
    pool_of session_type = [] ∧ ∃ line, st' = print line st)).
Proof.
  unfold place_session.
  pose proof (place_in_cases st d faculty course_code duration_hours session_type
                is_elective (find_free_blocks slot_keys (tt_frame st) d)) as Hc.
  destruct (place_in st d faculty course_code duration_hours session_type is_elective
              (find_free_blocks slot_keys (tt_frame st) d)) as [[] st']; simpl; [done|].
  intros _. destruct Hc as [[-> Hall]|(He & Hnone & Hpool & [line ->] & _)].
  - repeat split; try done. by left.
  - repeat split; try done. right. repeat split; try done. by exists line.
Qed.

End PlacerFacts.

(** ** Elective placements *)

Section ElectiveFacts.
Variable slot_keys : list string.
Variable time_durations : gmap string Q.
Implicit Types (st : state) (d : day).



End ElectiveFacts.

(** ** Lifting a property of single placements to the whole course loop *)

Section Lifting.
Variable slot_keys : list string.
Variable time_durations : gmap string Q.
Variable classrooms labs : list string.
Variable rnd : nat → nat.
Implicit Types (d : day) (st : state).

Local Abbreviation place_session := (place_session slot_keys time_durations classrooms labs rnd).
Local Abbreviation day_loop := (day_loop slot_keys time_durations classrooms labs rnd).
Local Abbreviation pass_loop := (pass_loop slot_keys time_durations classrooms labs rnd).
Local Abbreviation schedule_hours := (schedule_hours slot_keys time_durations classrooms labs rnd).
Local Abbreviation schedule_course := (schedule_course slot_keys time_durations classrooms labs rnd).

(** [R] relates the state before a step to the state after it. *)
Variable R : state → state → Prop.
Hypothesis R_refl : ∀ st, R st st.
Hypothesis R_trans : ∀ st1 st2 st3, R st1 st2 → R st2 st3 → R st1 st3.
(** The scheduler only calls the placer on a day where the faculty is not
    busy yet. *)
Hypothesis R_place :
  ∀ st d faculty course_code duration_hours session_type is_elective,
    busy faculty st d = false →
    R st (place_session st d faculty course_code duration_hours session_type is_elective).2.

Lemma day_loop_lift alloc session_type faculty course_code is_elective days remaining st :
  R st (day_loop alloc session_type faculty course_code is_elective days remaining st).2.
Proof.
  revert st. induction days as [|d rest IH]; intros st; simpl; [done|].
  destruct (Qle_bool remaining 0); simpl; [apply IH|].
  destruct (busy faculty st d) eqn:Hbusy; [apply IH|].
  pose proof (R_place st d faculty course_code (alloc remaining) session_type is_elective Hbusy)
    as Hstep.
  destruct (place_session st d faculty course_code (alloc remaining) session_type is_elective)
    as [[] st']; simpl in *; [done|].
  eapply R_trans; [exact Hstep|apply IH].
Qed.

Lemma pass_loop_S alloc session_type faculty course_code is_elective
    fuel attempts remaining st :
  pass_loop alloc session_type faculty course_code is_elective (S fuel) attempts remaining st =
    if Qltb 0 remaining && Nat.ltb attempts MAX_ATTEMPTS then
      let '(remaining', st') :=
        day_loop alloc session_type faculty course_code is_elective week_days remaining st in
      pass_loop alloc session_type faculty course_code is_elective fuel (S attempts)
                remaining' st'
    else (remaining, attempts, st).
Proof. reflexivity. Qed.

Lemma pass_loop_lift alloc session_type faculty course_code is_elective
    fuel attempts remaining st :
  R st (pass_loop alloc session_type faculty course_code is_elective
          fuel attempts remaining st).2.
Proof.
  revert attempts remaining st. induction fuel as [|fuel IH]; intros attempts remaining st;
    [done|].
  rewrite pass_loop_S.
  destruct (Qltb 0 remaining && Nat.ltb attempts MAX_ATTEMPTS); [|done].
  pose proof (day_loop_lift alloc session_type faculty course_code is_elective
                week_days remaining st) as Hday.
  destruct (day_loop alloc session_type faculty course_code is_elective week_days remaining st)
    as [remaining' st'].
  eapply R_trans; [exact Hday|apply IH].
Qed.

Lemma schedule_course_lift st c : R st (schedule_course st c).
Proof.
  unfold_course_body.
  destruct (parse_quintuple (L_T_P_S_C c)) as [[[[[l t] p] s] cr]|]; [|done].
  set (faculty := Py.strip (Faculty c)). set (code := Py.strip (Course_Code c)).
  set (el := bool_decide (code = "Elective")).
  pose proof (pass_loop_lift lecture_alloc "L" faculty code el MAX_ATTEMPTS 0 (inject_Z l) st)
    as H1.
  unfold_retry_loop.
  destruct (pass_loop lecture_alloc "L" faculty code el MAX_ATTEMPTS 0 (inject_Z l) st)
    as [[r1 a1] st1].
  pose proof (pass_loop_lift tutorial_alloc "T" faculty code el MAX_ATTEMPTS 0 (inject_Z t) st1)
    as H2.
  destruct (pass_loop tutorial_alloc "T" faculty code el MAX_ATTEMPTS 0 (inject_Z t) st1)
    as [[r2 a2] st2].
  pose proof (pass_loop_lift practical_alloc "P" faculty code el MAX_ATTEMPTS 0 (inject_Z p) st2)
    as H3.
  destruct (pass_loop practical_alloc "P" faculty code el MAX_ATTEMPTS 0 (inject_Z p) st2)
    as [[r3 a3] st3].
  simpl in *. eauto.
Qed.

Lemma courses_lift st courses : R st (foldl schedule_course st courses).
Proof.
  revert st. induction courses as [|c courses IH]; intros st; simpl; [done|].
  eapply R_trans; [apply schedule_course_lift|apply IH].
Qed.

End Lifting.

(** ** The grid: occupied and excluded cells *)

Section GridFacts.
Variable slot_keys : list string.
Variable time_durations : gmap string Q.
Variable classrooms labs : list string.
Variable rnd : nat → nat.
Implicit Types (d : day) (st : state) (tt : gmap (day * string) string).

Local Abbreviation place_session := (place_session slot_keys time_durations classrooms labs rnd).
Local Abbreviation schedule_course := (schedule_course slot_keys time_durations classrooms labs rnd).
Local Abbreviation create_timetable := (create_timetable slot_keys time_durations classrooms labs rnd).

Lemma grid_respected_refl st : grid_respected slot_keys st st.
Proof. intros cell. by left. Qed.

Lemma grid_respected_trans st1 st2 st3 :
  grid_respected slot_keys st1 st2 → grid_respected slot_keys st2 st3 →
  grid_respected slot_keys st1 st3.
Proof.
  intros H12 H23 cell. destruct (H12 cell) as [E12|H1]; [|by right].
  destruct (H23 cell) as [E23|(H2 & Hex & Hin)]; [left; congruence|].
  right. repeat split; try done.
  rewrite lookup_total_alt in *. by rewrite <- E12.
Qed.

Lemma is_free_spec tt d s :
  is_free tt d s = true ↔ tt !!! (d, s) = "" ∧ s ∉ excluded_slots.
Proof.
  unfold is_free. rewrite andb_true_iff, !bool_decide_eq_true. done.
Qed.

Lemma placed_as_frame st d faculty course_code duration_hours session_type is_elective
    group room st1 st' :
  placed_as time_durations classrooms labs rnd st d faculty course_code duration_hours
            session_type is_elective group room st1 st' →
  tt_frame st' =
    write_slots (tt_frame st) d session_type course_code room is_elective
                (select_slots time_durations duration_hours 0 group) ∧
  faculty_schedule st1 = faculty_schedule st.
Proof.
  intros (_ & Hroom & ->).
  destruct (record_faculty_fields d faculty
    (set_tt_frame (write_slots (tt_frame st1) d session_type course_code room is_elective
       (select_slots time_durations duration_hours 0 group)) st1)) as (-> & _).
  simpl. destruct is_elective; simpl in Hroom.
  - by destruct Hroom as [_ ->].
  - pose proof (resolve_room_frame classrooms labs rnd st course_code session_type) as [Ht Hf].
    rewrite Hroom in Ht, Hf. simpl in Ht, Hf. by rewrite Ht, Hf.
Qed.

Lemma place_session_grid st d faculty course_code duration_hours session_type is_elective :
  grid_respected slot_keys st
    (place_session st d faculty course_code duration_hours session_type is_elective).2.
Proof.
  unfold_placer.
  pose proof (place_in_cases time_durations classrooms labs rnd st d faculty course_code
                duration_hours session_type is_elective
                (find_free_blocks slot_keys (tt_frame st) d)) as Hc.
  destruct (place_in time_durations classrooms labs rnd st d faculty course_code
              duration_hours session_type is_elective
              (find_free_blocks slot_keys (tt_frame st) d)) as [[] st']; simpl.
  - destruct Hc as (group & room & st1 & Hg & Hp).
    apply placed_as_frame in Hp as [Htt _]. intros cell. rewrite Htt, write_slots_lookup.
    destruct (occupant_tag _ _ _ _); [|by left]. case_bool_decide as Hcell; [|by left].
    destruct Hcell as [Hd Hs]. apply select_slots_subset in Hs.
    destruct (find_free_blocks_free slot_keys (tt_frame st) d group cell.2 Hg Hs) as [Hfree Hin].
    apply is_free_spec in Hfree as [Hempty Hex].
    right. destruct cell as [dc sc]; simpl in *; subst dc. done.
  - intros cell. left.
    destruct Hc as [[-> _]|(_ & _ & _ & [line ->] & _)]; done.
Qed.

Lemma courses_grid st courses :
  grid_respected slot_keys st (foldl schedule_course st courses).
Proof.
  apply courses_lift.
  - apply grid_respected_refl.
  - apply grid_respected_trans.
  - intros. apply place_session_grid.
Qed.

Lemma grid_respected_occupied st st' cell v :
  grid_respected slot_keys st st' →
  tt_frame st !! cell = Some v → v ≠ "" → tt_frame st' !! cell = Some v.
Proof.
  intros H Hv Hne. destruct (H cell) as [->|(Hempty & _)]; [done|].
  rewrite lookup_total_alt, Hv in Hempty. done.
Qed.

Lemma grid_respected_excluded st st' d s :
  grid_respected slot_keys st st' →
  s ∈ excluded_slots → tt_frame st' !! (d, s) = tt_frame st !! (d, s).
Proof. intros H Hs. destruct (H (d, s)) as [->|(_ & Hex & _)]; done. Qed.

Lemma grid_respected_outside st st' d s :
  grid_respected slot_keys st st' →
  s ∉ slot_keys → tt_frame st' !! (d, s) = tt_frame st !! (d, s).
Proof. intros H Hs. destruct (H (d, s)) as [->|(_ & _ & Hin)]; done. Qed.

End GridFacts.

(** ** Facts about the builder *)

#[local] Set Warnings "-clear-no-such-hyp".

Lemma lookup_constant_map `{Countable K} {V} (keys : list K) (v : V) (k : K) :
  (list_to_map ((λ k, (k, v)) <$> keys) : gmap K V) !! k =
    if bool_decide (k ∈ keys) then Some v else None.
Proof.
  induction keys as [|x keys IH]; [apply lookup_empty|].
  rewrite fmap_cons, list_to_map_cons.
  - destruct (decide (x = k)) as [->|Hne].
    + rewrite lookup_insert_eq, bool_decide_eq_true_2; [done|left].
    + rewrite lookup_insert_ne, IH by done.
      destruct (decide (k ∈ keys)) as [Hin|Hout].
      * rewrite !bool_decide_eq_true_2; [done|by right|done].
      * rewrite !bool_decide_eq_false_2; [done| |done].
        intros [->|?]%elem_of_cons; done.
Qed.

Lemma elem_of_week_days (d : day) : d ∈ week_days.
Proof. unfold week_days. destruct d; repeat first [by left | right]. Qed.

Section BuilderFacts.
Variable slot_keys : list string.
Variable time_durations : gmap string Q.
Variable classrooms labs : list string.
Variable rnd : nat → nat.
Implicit Types (d : day) (st : state) (tt : gmap (day * string) string).

Local Abbreviation place_session := (place_session slot_keys time_durations classrooms labs rnd).
Local Abbreviation schedule_course := (schedule_course slot_keys time_durations classrooms labs rnd).
Local Abbreviation create_timetable := (create_timetable slot_keys time_durations classrooms labs rnd).

Lemma empty_frame_lookup d s :
  empty_frame slot_keys !! (d, s) = if bool_decide (s ∈ slot_keys) then Some "" else None.
Proof.
  unfold empty_frame. rewrite lookup_constant_map.
  destruct (decide (s ∈ slot_keys)) as [Hin|Hout].
  - rewrite !bool_decide_eq_true_2; [done..|].
    apply list_elem_of_In, in_prod_iff. split; apply list_elem_of_In; [|done].
    apply elem_of_week_days.
  - rewrite !bool_decide_eq_false_2; [done..|].
    intros [_ ?%list_elem_of_In]%list_elem_of_In%in_prod_iff. done.
Qed.

Lemma empty_faculty_schedule_lookup d : empty_faculty_schedule !!! d = [].
Proof. by destruct d. Qed.

Lemma clear_row_lookup tt d slots cell :
  foldl (λ tt slot, if bool_decide (slot ∈ slot_keys) then <[(d, slot) := ""]> tt else tt)
        tt slots !! cell =
    if bool_decide (cell.1 = d ∧ cell.2 ∈ slots ∧ cell.2 ∈ slot_keys) then Some ""
    else tt !! cell.
Proof.
  revert tt. induction slots as [|slot slots IH]; intros tt.
  - rewrite bool_decide_eq_false_2; [done|]. by intros (_ & ?%elem_of_nil & _).
  - cbn [foldl]. rewrite IH. destruct cell as [dc sc]. simpl.
    repeat case_bool_decide; try done;
      try (destruct (decide ((d, slot) = (dc, sc))) as [[= <- <-]|Hne];
           [rewrite ?lookup_insert_eq|rewrite ?lookup_insert_ne by done]; try done);
      rewrite ?elem_of_cons in *; naive_solver.
Qed.

Lemma clear_days_lookup tt days cell :
  foldl (λ tt d,
           foldl (λ tt slot,
                    if bool_decide (slot ∈ slot_keys) then <[(d, slot) := ""]> tt else tt)
                 tt excluded_slots) tt days !! cell =
    if bool_decide (cell.1 ∈ days ∧ cell.2 ∈ excluded_slots ∧ cell.2 ∈ slot_keys)
    then Some "" else tt !! cell.
Proof.
  revert tt. induction days as [|d days IH]; intros tt.
  - rewrite bool_decide_eq_false_2; [done|]. by intros (?%elem_of_nil & _).
  - cbn [foldl]. rewrite IH, clear_row_lookup.
    repeat case_bool_decide; try done; rewrite ?elem_of_cons in *; naive_solver.
Qed.

Lemma clear_excluded_lookup tt cell :
  clear_excluded slot_keys tt !! cell =
    if bool_decide (cell.2 ∈ excluded_slots ∧ cell.2 ∈ slot_keys) then Some ""
    else tt !! cell.
Proof.
  unfold clear_excluded. rewrite clear_days_lookup.
  pose proof (elem_of_week_days cell.1).
  repeat case_bool_decide; try done; naive_solver.
Qed.

(** The state in which the course loop of [create_timetable] starts. *)
Lemma select_courses_state st course_list :
  tt_frame (select_courses rnd st course_list).2 = tt_frame st ∧
  faculty_schedule (select_courses rnd st course_list).2 = faculty_schedule st ∧
  room_allocations (select_courses rnd st course_list).2 = room_allocations st.
Proof. unfold select_courses. by destruct (filter _ course_list). Qed.

Lemma create_timetable_unfold globals course_list :
  create_timetable globals course_list =
    let st0 := State (empty_frame slot_keys) empty_faculty_schedule ∅
                     (rng_pos globals) (stdout globals) in
    let st2 := foldl schedule_course (select_courses rnd st0 course_list).2
                     (select_courses rnd st0 course_list).1 in
    set_tt_frame (clear_excluded slot_keys (tt_frame st2)) st2.
Proof.
  unfold_builder. by destruct (select_courses _ _ _).
Qed.

(** C3. A cell that holds a non-empty occupant tag is never overwritten by a
    later placement, and no placement writes into an excluded slot: this
    holds for every single call of [place_session] and for the whole course
    loop of the builder from any state, hence for every sequence of
    placements of a run.  In the grid the builder emits, every excluded slot
    is empty on every day. *)
Theorem occupied_and_excluded_cells_respected :
  (∀ st d faculty course_code duration_hours session_type is_elective,
     let st' :=
       (place_session st d faculty course_code duration_hours session_type is_elective).2 in
     (∀ cell v, tt_frame st !! cell = Some v → v ≠ "" → tt_frame st' !! cell = Some v) ∧
     (∀ d' s, s ∈ excluded_slots → tt_frame st' !! (d', s) = tt_frame st !! (d', s))) ∧
  (∀ st courses,
     let st' := foldl schedule_course st courses in
     (∀ cell v, tt_frame st !! cell = Some v → v ≠ "" → tt_frame st' !! cell = Some v) ∧
     (∀ d' s, s ∈ excluded_slots → tt_frame st' !! (d', s) = tt_frame st !! (d', s))) ∧
  (∀ globals course_list d s,
     s ∈ excluded_slots →
     tt_frame (create_timetable globals course_list) !!! (d, s) = "" ∧
     (s ∈ slot_keys →
      tt_frame (create_timetable globals course_list) !! (d, s) = Some "")).
Proof.
  split; [|split].
  - intros st d faculty course_code duration_hours session_type is_elective st'.
    pose proof (place_session_grid slot_keys time_durations classrooms labs rnd st d faculty
                  course_code duration_hours session_type is_elective) as Hg.
    split.
    + intros cell v. by apply grid_respected_occupied with slot_keys.
    + intros d' s. by apply grid_respected_excluded with slot_keys.
  - intros st courses st'.
    pose proof (courses_grid slot_keys time_durations classrooms labs rnd st courses) as Hg.
    split.
    + intros cell v. by apply grid_respected_occupied with slot_keys.
    + intros d' s. by apply grid_respected_excluded with slot_keys.
  - intros globals course_list d s Hex.
    rewrite create_timetable_unfold. simpl.
    rewrite lookup_total_alt, clear_excluded_lookup. simpl.
    destruct (decide (s ∈ slot_keys)) as [Hin|Hout].
    + rewrite bool_decide_eq_true_2 by done. done.
    + rewrite bool_decide_eq_false_2 by (by intros [_ ?]).
      split; [|done].
      set (st0 := State (empty_frame slot_keys) empty_faculty_schedule ∅
                        (rng_pos globals) (stdout globals)).
      rewrite (grid_respected_outside slot_keys _ _ d s
                 (courses_grid slot_keys time_durations classrooms labs rnd _ _) Hout).
      destruct (select_courses_state st0 course_list) as (-> & _).
      simpl. rewrite empty_frame_lookup, bool_decide_eq_false_2 by done. done.
Qed.

End BuilderFacts.

(** ** The reads of a run are defined

    The script reads [tt_frame.at[day, slot]], [faculty_schedule[day]] and
    [time_durations[s]] without a default.  The keys it reads are there:
    the frame and the lists start with every day and every catalogue slot
    and never lose a key, and the loaded durations cover the catalogue. *)

Lemma load_time_durations_lookup slot_keys acc durations s :
  load_time_durations slot_keys acc = Some durations →
  durations !! s =
    if bool_decide (s ∈ slot_keys) then calc_slot_duration s else acc !! s.
Proof.
  revert acc. induction slot_keys as [|x slot_keys IH]; intros acc; simpl.
  - by intros [= ->].
  - destruct (calc_slot_duration x) as [q|] eqn:Ex; simpl; [|done].
    intros Hload. rewrite (IH _ Hload).
    destruct (decide (s ∈ slot_keys)) as [Hin|Hout].
    + rewrite !bool_decide_eq_true_2; [done|by right|done].
    + rewrite (bool_decide_eq_false_2 _ Hout).
      destruct (decide (x = s)) as [->|Hne].
      * rewrite lookup_insert_eq, bool_decide_eq_true_2; [done|left].
      * rewrite lookup_insert_ne, bool_decide_eq_false_2; [done| |done].
        intros [->|?]%elem_of_cons; done.
Qed.

Lemma time_durations_cover slot_keys durations s :
  time_durations_of slot_keys = Some durations → s ∈ slot_keys →
  durations !! s = calc_slot_duration s ∧ is_Some (durations !! s).
Proof.
  intros Hload Hin. pose proof (load_time_durations_lookup _ _ _ s Hload) as E.
  rewrite bool_decide_eq_true_2 in E by done. split; [done|].
  rewrite E. clear E. revert Hload. unfold time_durations_of. generalize (∅ : gmap string Q).
  induction slot_keys as [|x slot_keys IH]; intros acc; simpl.
  - by apply elem_of_nil in Hin.
  - destruct (calc_slot_duration x) as [q|] eqn:Ex; simpl; [|done].
    apply elem_of_cons in Hin as [->|Hin]; [by rewrite Ex|]. by apply IH.
Qed.

Section ReadFacts.
Variable slot_keys : list string.
Variable time_durations : gmap string Q.
Variable classrooms labs : list string.
Variable rnd : nat → nat.
Implicit Types (d : day) (st : state).

Local Abbreviation place_session := (place_session slot_keys time_durations classrooms labs rnd).
Local Abbreviation schedule_course := (schedule_course slot_keys time_durations classrooms labs rnd).

Lemma place_session_keys st d faculty course_code duration_hours session_type is_elective :
  keys_kept st
    (place_session st d faculty course_code duration_hours session_type is_elective).2.
Proof.
  unfold_placer.
  pose proof (place_in_cases time_durations classrooms labs rnd st d faculty course_code
                duration_hours session_type is_elective
                (find_free_blocks slot_keys (tt_frame st) d)) as Hc.
  destruct (place_in time_durations classrooms labs rnd st d faculty course_code
              duration_hours session_type is_elective
              (find_free_blocks slot_keys (tt_frame st) d)) as [[] st']; simpl.
  - destruct Hc as (group & room & st1 & _ & Hp).
    pose proof (placed_as_frame _ _ _ _ _ _ _ _ _ _ _ _ _ _ _ Hp) as [Htt Hfs].
    split.
    + intros cell Hcell. rewrite Htt, write_slots_lookup.
      destruct (occupant_tag _ _ _ _); [|done]. by case_bool_decide.
    + intros d' Hd'. destruct Hp as (_ & _ & ->). unfold record_faculty.
      destruct (truthy faculty); simpl; rewrite Hfs; [|done].
      destruct (decide (d = d')) as [->|Hne].
      * by rewrite lookup_insert_eq.
      * by rewrite lookup_insert_ne.
  - destruct Hc as [[-> _]|(_ & _ & _ & [line ->] & _)]; by split.
Qed.

Lemma courses_keys st courses : keys_kept st (foldl schedule_course st courses).
Proof.
  apply courses_lift.
  - by split.
  - intros st1 st2 st3 [H12 F12] [H23 F23]. split; auto.
  - intros. apply place_session_keys.
Qed.

(** In every state of the course loop of the builder, the frame has a cell
    for every day and catalogue slot, and every day has its faculty list. *)
Lemma builder_reads_defined globals course_list courses d s :
  let st0 := State (empty_frame slot_keys) empty_faculty_schedule ∅
                   (rng_pos globals) (stdout globals) in
  let st := foldl schedule_course (select_courses rnd st0 course_list).2 courses in
  (s ∈ slot_keys → is_Some (tt_frame st !! (d, s))) ∧
  is_Some (faculty_schedule st !! d).
Proof.
  intros st0 st.
  destruct (courses_keys (select_courses rnd st0 course_list).2 courses) as [Hcells Hdays].
  destruct (select_courses_state rnd st0 course_list) as (Ett & Efs & _).
  split.
  - intros Hs. apply Hcells. rewrite Ett. simpl.
    rewrite empty_frame_lookup, bool_decide_eq_true_2 by done. done.
  - apply Hdays. rewrite Efs. simpl. by destruct d.
Qed.

End ReadFacts.

(** ** Room bindings *)

Section RoomFacts.
Variable slot_keys : list string.
Variable time_durations : gmap string Q.
Variable classrooms labs : list string.
Variable rnd : nat → nat.
Implicit Types (d : day) (st : state).

Local Abbreviation place_session := (place_session slot_keys time_durations classrooms labs rnd).
Local Abbreviation schedule_course := (schedule_course slot_keys time_durations classrooms labs rnd).
Local Abbreviation create_timetable := (create_timetable slot_keys time_durations classrooms labs rnd).

Lemma placed_as_bindings st d faculty course_code duration_hours session_type is_elective
    group room st1 st' :
  placed_as time_durations classrooms labs rnd st d faculty course_code duration_hours
            session_type is_elective group room st1 st' →
  room_allocations st' = room_allocations st1 ∧
  (st1 = st ∨
   (is_elective = false ∧ room_allocations st !! course_code = None ∧
    room ∈ pool_of classrooms labs session_type ∧
    st1 = bind_room course_code room (draw st))) ∧
  (is_elective = false → room_allocations st1 !! course_code = Some room).
Proof.
  intros (_ & Hroom & ->).
  destruct (record_faculty_fields d faculty
    (set_tt_frame (write_slots (tt_frame st1) d session_type course_code room is_elective
       (select_slots time_durations duration_hours 0 group)) st1)) as (_ & -> & _).
  split; [done|]. destruct is_elective; simpl in Hroom.
  - destruct Hroom as [_ ->]. split; [by left|done].
  - pose proof (resolve_room_cases classrooms labs rnd st course_code session_type) as Hr.
    rewrite Hroom in Hr. destruct Hr as [[Hb ->]|(Hnone & Hin & _ & ->)].
    + split; [by left|done].
    + split; [right; done|]. intros _. simpl. apply lookup_insert_eq.
Qed.

Lemma place_session_bindings st d faculty course_code duration_hours session_type is_elective :
  bindings_kept st
    (place_session st d faculty course_code duration_hours session_type is_elective).2.
Proof.
  unfold_placer.
  pose proof (place_in_cases time_durations classrooms labs rnd st d faculty course_code
                duration_hours session_type is_elective
                (find_free_blocks slot_keys (tt_frame st) d)) as Hc.
  destruct (place_in time_durations classrooms labs rnd st d faculty course_code
              duration_hours session_type is_elective
              (find_free_blocks slot_keys (tt_frame st) d)) as [[] st']; simpl.
  - destruct Hc as (group & room & st1 & _ & Hp).
    apply placed_as_bindings in Hp as (Hra & Hst1 & _).
    intros code' room' Hb. rewrite Hra.
    destruct Hst1 as [->|(_ & Hnone & _ & ->)]; [done|].
    simpl. rewrite lookup_insert_ne; [done|]. intros <-. congruence.
  - destruct Hc as [[-> _]|(_ & _ & _ & [line ->] & _)]; by intros ? ? ?.
Qed.


(** The first placement of a non-elective course draws its room from the
    pool of the session type being placed, binds it and writes it. *)
Lemma fresh_room_from_matching_pool st d faculty course_code duration_hours session_type :
  room_allocations st !! course_code = None →
  let r := place_session st d faculty course_code duration_hours session_type false in
  r.1 = true →
  ∃ room, room ∈ pool_of classrooms labs session_type ∧
          room_allocations r.2 !! course_code = Some room ∧
          ∀ cell, tt_frame r.2 !! cell = tt_frame st !! cell ∨
                  ∃ tag, occupant_tag session_type course_code room false = Some tag ∧
                         tt_frame r.2 !! cell = Some tag.
Proof.
  intros Hnone r. subst r. unfold_placer.
  pose proof (place_in_cases time_durations classrooms labs rnd st d faculty course_code
                duration_hours session_type false
                (find_free_blocks slot_keys (tt_frame st) d)) as Hc.
  destruct (place_in time_durations classrooms labs rnd st d faculty course_code
              duration_hours session_type false
              (find_free_blocks slot_keys (tt_frame st) d)) as [[] st']; simpl; [|done].
  intros _. destruct Hc as (group & room & st1 & _ & Hp).
  pose proof (placed_as_frame _ _ _ _ _ _ _ _ _ _ _ _ _ _ _ Hp) as [Htt _].
  apply placed_as_bindings in Hp as (Hra & [->|(_ & _ & Hin & ->)] & Hroom).
  { specialize (Hroom eq_refl). congruence. }
  exists room. split; [done|]. split; [rewrite Hra; by apply Hroom|].
  intros cell. rewrite Htt, write_slots_lookup.
  destruct (occupant_tag session_type course_code room false) as [tag|]; [|by left].
  case_bool_decide; [right; by exists tag|by left].
Qed.

(** C1 (as amended). A successful placement of a non-elective course that
    has no room yet draws its room from the pool that matches the session
    type, the lab pool for a practical and the classroom pool for a lecture
    or a tutorial, binds it to the course and writes it into the occupant
    tag.  A successful placement of a course that has a room reuses that
    room, whatever the session type. *)
Theorem room_from_pool_at_first_binding
    st d faculty course_code duration_hours session_type :
  let r := place_session st d faculty course_code duration_hours session_type false in
  r.1 = true →
  ∃ room,
    room_allocations r.2 !! course_code = Some room ∧
    (∀ cell, tt_frame r.2 !! cell = tt_frame st !! cell ∨
             ∃ tag, occupant_tag session_type course_code room false = Some tag ∧
                    tt_frame r.2 !! cell = Some tag) ∧
    match room_allocations st !! course_code with
    | None => (session_type = "P" → room ∈ labs) ∧ (session_type ≠ "P" → room ∈ classrooms)
    | Some bound => room = bound
    end.
Proof.
  intros r. subst r. unfold_placer.
  pose proof (place_in_cases time_durations classrooms labs rnd st d faculty course_code
                duration_hours session_type false
                (find_free_blocks slot_keys (tt_frame st) d)) as Hc.
  destruct (place_in time_durations classrooms labs rnd st d faculty course_code
              duration_hours session_type false
              (find_free_blocks slot_keys (tt_frame st) d)) as [[] st']; simpl; [|done].
  intros _. destruct Hc as (group & room & st1 & _ & Hp).
  pose proof (placed_as_frame _ _ _ _ _ _ _ _ _ _ _ _ _ _ _ Hp) as [Htt _].
  apply placed_as_bindings in Hp as (Hra & Hst1 & Hroom). specialize (Hroom eq_refl).
  exists room. split; [by rewrite Hra|]. split.
  - intros cell. rewrite Htt, write_slots_lookup.
    destruct (occupant_tag session_type course_code room false) as [tag|]; [|by left].
    case_bool_decide; [right; by exists tag|by left].
  - destruct Hst1 as [->|(_ & Hnone & Hin & _)].
    + by rewrite Hroom.
    + rewrite Hnone. unfold pool_of in Hin.
      case_bool_decide; split; intros; done.
Qed.


End RoomFacts.

(** ** Faculty-day lists *)

Section FacultyFacts.
Variable slot_keys : list string.
Variable time_durations : gmap string Q.
Variable classrooms labs : list string.
Variable rnd : nat → nat.
Implicit Types (d : day) (st : state).

Local Abbreviation place_session := (place_session slot_keys time_durations classrooms labs rnd).
Local Abbreviation day_loop := (day_loop slot_keys time_durations classrooms labs rnd).
Local Abbreviation schedule_course := (schedule_course slot_keys time_durations classrooms labs rnd).
Local Abbreviation create_timetable := (create_timetable slot_keys time_durations classrooms labs rnd).

(** The faculty lists after a call of the placer. *)
Lemma place_session_faculty st d faculty course_code duration_hours session_type is_elective d' :
  let r := place_session st d faculty course_code duration_hours session_type is_elective in
  faculty_schedule r.2 !!! d' =
    if r.1 && truthy faculty && bool_decide (d' = d)
    then faculty_schedule st !!! d ++ [faculty]
    else faculty_schedule st !!! d'.
Proof.
  unfold_placer.
  pose proof (place_in_cases time_durations classrooms labs rnd st d faculty course_code
                duration_hours session_type is_elective
                (find_free_blocks slot_keys (tt_frame st) d)) as Hc.
  destruct (place_in time_durations classrooms labs rnd st d faculty course_code
              duration_hours session_type is_elective
              (find_free_blocks slot_keys (tt_frame st) d)) as [[] st']; simpl.
  - destruct Hc as (group & room & st1 & _ & Hp).
    pose proof (placed_as_frame _ _ _ _ _ _ _ _ _ _ _ _ _ _ _ Hp) as [_ Hfs].
    destruct Hp as (_ & _ & ->). rewrite record_faculty_schedule. simpl. by rewrite Hfs.
  - destruct Hc as [[-> _]|(_ & _ & _ & [line ->] & _)]; done.
Qed.

Lemma place_session_faculty_once st d faculty course_code duration_hours session_type
    is_elective :
  busy faculty st d = false → faculty_once st →
  faculty_once
    (place_session st d faculty course_code duration_hours session_type is_elective).2.
Proof.
  intros Hbusy Hst d'.
  pose proof (place_session_faculty st d faculty course_code duration_hours session_type
                is_elective d') as Hfs. simpl in Hfs. rewrite Hfs.
  destruct ((place_session st d faculty course_code duration_hours session_type is_elective).1);
    simpl; [|apply Hst].
  destruct (truthy faculty) eqn:Ht; simpl; [|apply Hst].
  case_bool_decide; [|apply Hst].
  apply NoDup_app. split; [apply Hst|]. split; [|apply NoDup_singleton].
  intros x Hx ->%list_elem_of_singleton.
  unfold busy in Hbusy. rewrite Ht in Hbusy. simpl in Hbusy.
  by apply bool_decide_eq_false in Hbusy.
Qed.

Lemma courses_faculty_once st courses :
  faculty_once st → faculty_once (foldl schedule_course st courses).
Proof.
  apply (courses_lift slot_keys time_durations classrooms labs rnd
           (λ st st', faculty_once st → faculty_once st')).
  - done.
  - auto.
  - intros. by apply place_session_faculty_once.
Qed.

(** C7. At most one session is placed for a faculty name on a day within one
    run of the builder.  A successful placement with a non-empty faculty name
    appends the name once to the list of its day, and nothing else changes
    the lists; the scheduler skips a day whose list already holds the
    faculty of the course; so, in the state the builder ends in, no name
    occurs twice in the list of any day. *)
Theorem faculty_at_most_once_per_day :
  (∀ st d faculty course_code duration_hours session_type is_elective d',
     let r := place_session st d faculty course_code duration_hours session_type is_elective in
     faculty_schedule r.2 !!! d' =
       if r.1 && truthy faculty && bool_decide (d' = d)
       then faculty_schedule st !!! d ++ [faculty]
       else faculty_schedule st !!! d') ∧
  (∀ alloc session_type faculty course_code is_elective d days remaining st,
     faculty ≠ "" → faculty ∈ faculty_schedule st !!! d →
     day_loop alloc session_type faculty course_code is_elective (d :: days) remaining st =
     day_loop alloc session_type faculty course_code is_elective days remaining st) ∧
  (∀ globals course_list d,
     NoDup (faculty_schedule (create_timetable globals course_list) !!! d)).
Proof.
  split; [|split].
  - intros. apply place_session_faculty.
  - intros alloc session_type faculty course_code is_elective d days remaining st Hne Hin.
    simpl. unfold busy, truthy.
    rewrite (bool_decide_eq_false_2 _ Hne), (bool_decide_eq_true_2 _ Hin). simpl.
    by rewrite orb_true_r.
  - intros globals course_list d.
    rewrite create_timetable_unfold. simpl.
    apply courses_faculty_once. intros d'.
    set (st0 := State (empty_frame slot_keys) empty_faculty_schedule ∅
                      (rng_pos globals) (stdout globals)).
    destruct (select_courses_state rnd st0 course_list) as (_ & -> & _).
    simpl. rewrite empty_faculty_schedule_lookup. constructor.
Qed.

End FacultyFacts.

(** ** The retry loops *)

Section RetryFacts.
Variable slot_keys : list string.
Variable time_durations : gmap string Q.
Variable classrooms labs : list string.
Variable rnd : nat → nat.
Implicit Types (d : day) (st : state).

Local Abbreviation day_loop := (day_loop slot_keys time_durations classrooms labs rnd).
Local Abbreviation pass_loop := (pass_loop slot_keys time_durations classrooms labs rnd).
Local Abbreviation schedule_hours := (schedule_hours slot_keys time_durations classrooms labs rnd).

(** The loop stops by its own test before the unfolding bound is reached. *)
Lemma pass_loop_exit alloc session_type faculty course_code is_elective
    fuel attempts remaining st :
  (MAX_ATTEMPTS ≤ attempts + fuel)%nat →
  let r := pass_loop alloc session_type faculty course_code is_elective
                     fuel attempts remaining st in
  (attempts ≤ r.1.2)%nat ∧ (r.1.2 ≤ Nat.max attempts MAX_ATTEMPTS)%nat ∧
  Qltb 0 r.1.1 && Nat.ltb r.1.2 MAX_ATTEMPTS = false.
Proof.
  revert attempts remaining st.
  induction fuel as [|fuel IH]; intros attempts remaining st Hfuel.
  - simpl. repeat split; [lia..|].
    rewrite (proj2 (Nat.ltb_ge _ _)) by lia. apply andb_false_r.
  - rewrite pass_loop_S.
    destruct (Qltb 0 remaining && Nat.ltb attempts MAX_ATTEMPTS) eqn:Hcond.
    + apply andb_true_iff in Hcond as [_ Hlt%Nat.ltb_lt].
      destruct (day_loop alloc session_type faculty course_code is_elective
                  week_days remaining st) as [remaining' st'].
      destruct (IH (S attempts) remaining' st') as (H1 & H2 & H3); [lia|].
      repeat split; [lia|lia|done].
    + simpl. repeat split; [lia..|done].
Qed.

Lemma day_loop_all_busy alloc session_type faculty course_code is_elective days remaining st :
  (∀ d, busy faculty st d = true) →
  day_loop alloc session_type faculty course_code is_elective days remaining st =
    (remaining, st).
Proof.
  intros Hbusy. induction days as [|d days IH]; simpl; [done|].
  by rewrite Hbusy, orb_true_r.
Qed.

Lemma pass_loop_all_busy alloc session_type faculty course_code is_elective
    fuel attempts remaining st :
  (∀ d, busy faculty st d = true) → Qltb 0 remaining = true →
  pass_loop alloc session_type faculty course_code is_elective fuel attempts remaining st =
    (remaining, Nat.min (attempts + fuel) (Nat.max attempts MAX_ATTEMPTS), st).
Proof.
  intros Hbusy Hpos. revert attempts.
  induction fuel as [|fuel IH]; intros attempts.
  - simpl. do 2 f_equal. lia.
  - rewrite pass_loop_S, Hpos. simpl andb.
    destruct (Nat.ltb attempts MAX_ATTEMPTS) eqn:Hlt.
    + rewrite day_loop_all_busy by done. rewrite IH. apply Nat.ltb_lt in Hlt.
      do 2 f_equal. lia.
    + apply Nat.ltb_ge in Hlt. do 2 f_equal. lia.
Qed.

(** C8. A retry loop for one course and one session type always ends after
    at most [MAX_ATTEMPTS] = 10 passes, by its own test (no hours left, or
    ten passes made).  When the faculty of the course is already in the list
    of every day and there are hours to place, the loop makes exactly 10
    passes, places nothing and leaves the state as it is; with no hours to
    place it makes no pass.  The loop is a total function: running out of
    passes with hours left yields its result like any other run. *)
Theorem retry_loop_bounded :
  MAX_ATTEMPTS = 10%nat ∧
  (∀ alloc session_type faculty course_code is_elective hours st,
     let r := schedule_hours alloc session_type faculty course_code is_elective hours st in
     (r.1.2 ≤ 10)%nat ∧ (Qle r.1.1 0 ∨ r.1.2 = 10%nat)) ∧
  (∀ alloc session_type faculty course_code is_elective hours st,
     faculty ≠ "" → (∀ d, faculty ∈ faculty_schedule st !!! d) → (0 < hours)%Q →
     schedule_hours alloc session_type faculty course_code is_elective hours st =
       (hours, 10%nat, st)) ∧
  (∀ alloc session_type faculty course_code is_elective hours st,
     (hours <= 0)%Q →
     schedule_hours alloc session_type faculty course_code is_elective hours st =
       (hours, 0%nat, st)).
Proof.
  split; [done|split; [|split]].
  - intros alloc session_type faculty course_code is_elective hours st r. subst r.
    unfold_retry_loop.
    destruct (pass_loop_exit alloc session_type faculty course_code is_elective
                MAX_ATTEMPTS 0 hours st) as (_ & Hle & Hexit); [unfold MAX_ATTEMPTS; lia|].
    destruct (pass_loop alloc session_type faculty course_code is_elective
                MAX_ATTEMPTS 0 hours st) as [[remaining attempts] st'].
    change (attempts ≤ 10)%nat in Hle. simpl in Hexit |- *.
    split; [exact Hle|].
    apply andb_false_iff in Hexit as [Hrem|Hatt].
    + left. unfold Qltb in Hrem. apply negb_false_iff in Hrem. by apply Qle_bool_iff.
    + right. apply Nat.ltb_ge in Hatt. unfold MAX_ATTEMPTS in Hatt. lia.
  - intros alloc session_type faculty course_code is_elective hours st Hne Hin Hpos.
    unfold_retry_loop. rewrite pass_loop_all_busy; [done| |].
    + intros d. unfold busy, truthy.
      by rewrite (bool_decide_eq_false_2 _ Hne), (bool_decide_eq_true_2 _ (Hin d)).
    + unfold Qltb. apply negb_true_iff. destruct (Qle_bool hours 0) eqn:E; [|done].
      apply Qle_bool_iff in E. exfalso. by apply (Qlt_not_le _ _ Hpos).
  - intros alloc session_type faculty course_code is_elective hours st Hle.
    unfold_retry_loop. unfold MAX_ATTEMPTS. rewrite pass_loop_S.
    unfold Qltb. by rewrite (proj2 (Qle_bool_iff _ _) Hle).
Qed.

End RetryFacts.

(** ** The slot catalogue *)

Lemma split_without sep s : has_char sep s = false → Py.split sep s = [s].
Proof.
  induction s as [|c s IH]; simpl; [done|].
  intros [Hc Hs]%orb_false_iff. by rewrite Hc, IH.
Qed.

Lemma split_at sep a b :
  has_char sep a = false → Py.split sep (a +:+ String sep b) = a :: Py.split sep b.
Proof.
  induction a as [|c a IH]; simpl.
  - intros _. by rewrite Ascii.eqb_refl.
  - intros [Hc Hs]%orb_false_iff. by rewrite Hc, IH.
Qed.












(** ** Worked scenarios *)

(** An all-empty day whose middle slot is excluded gives the two runs on
    either side of it. *)
Example free_blocks_around_excluded :
  find_free_blocks ["12:00-13:15"; "13:15-14:00"; "14:00-15:00"; "15:00-16:00"]
                   (empty_frame ["12:00-13:15"; "13:15-14:00"; "14:00-15:00"; "15:00-16:00"])
                   Wednesday =
    [["12:00-13:15"]; ["14:00-15:00"; "15:00-16:00"]].
Proof. vm_compute. reflexivity. Qed.

Lemma scenario_durations_loaded : time_durations_of scenario_slots = Some scenario_durations.
Proof.
  unfold scenario_durations.
  assert (match time_durations_of scenario_slots with Some _ => true | None => false end
          = true) as E by (vm_compute; reflexivity).
  by destruct (time_durations_of scenario_slots).
Qed.

Lemma scenario_durations_cover slot :
  slot ∈ scenario_slots → is_Some (scenario_durations !! slot).
Proof. intros Hin. by apply (time_durations_cover _ _ _ scenario_durations_loaded Hin). Qed.

(** C2 (as amended). In the scenario with the three one-hour slots, one
    classroom [R1] and the course [CODE] of faculty [X] with two lecture
    hours, the first pass asks for [min(1.5, 2)] hours and fills the first
    two slots of Monday with ["CODE (R1)"], which leaves half an hour; the
    second pass skips Monday and fills the first slot of Tuesday; the loop
    ends after two passes with nothing left, and the emitted grid holds
    these three cells and is empty elsewhere.  This holds whatever the lab
    pool, the random stream and the earlier state of the process are. *)
Theorem scenario_two_passes labs rnd globals :
  time_durations_of scenario_slots = Some scenario_durations ∧
  let first_pass :=
    day_loop scenario_slots scenario_durations ["R1"] labs rnd
             lecture_alloc "L" "X" "CODE" false week_days 2 (scenario_start globals) in
  (first_pass.1 == 1 # 2)%Q ∧
  grid_rows scenario_slots (tt_frame first_pass.2) =
    [ ["CODE (R1)"; "CODE (R1)"; ""]; [""; ""; ""]; [""; ""; ""]; [""; ""; ""];
      [""; ""; ""] ] ∧
  let lectures :=
    schedule_hours scenario_slots scenario_durations ["R1"] labs rnd
                   lecture_alloc "L" "X" "CODE" false 2 (scenario_start globals) in
  (lectures.1.1 == 0)%Q ∧ lectures.1.2 = 2%nat ∧
  grid_rows scenario_slots
    (tt_frame (create_timetable scenario_slots scenario_durations ["R1"] labs rnd
                                globals [scenario_course])) =
    [ ["CODE (R1)"; "CODE (R1)"; ""]; ["CODE (R1)"; ""; ""]; [""; ""; ""]; [""; ""; ""];
      [""; ""; ""] ].
Proof.
  split; [exact scenario_durations_loaded|].
  cbv zeta. repeat split; vm_compute; reflexivity.
Qed.

(** C2 (as stated) fails: after the first pass half an hour of lecture is
    still to be placed, and the emitted grid has a third occupied cell, on
    Tuesday. *)
Lemma scenario_not_done_after_one_pass :
  let first_pass :=
    day_loop scenario_slots scenario_durations ["R1"] [] first_draws
             lecture_alloc "L" "X" "CODE" false week_days 2 (scenario_start fresh_process) in
  ¬ (first_pass.1 == 0)%Q ∧
  tt_frame (create_timetable scenario_slots scenario_durations ["R1"] [] first_draws
                             fresh_process [scenario_course])
    !! (Tuesday, "08:00-09:00") = Some "CODE (R1)".
Proof. vm_compute. split; [discriminate|reflexivity]. Qed.

(** C1 (as stated) fails.  With one classroom [R1] and one lab [L1], the
    course [CODE] with one lecture hour and one practical hour gets its
    lecture in [R1] on Monday; the practical of Tuesday reuses the bound
    room: its tag names [R1], which is not in the lab pool. *)
Theorem practical_reuses_lecture_room :
  let final :=
    create_timetable scenario_slots scenario_durations ["R1"] ["L1"] first_draws
                     fresh_process [lab_course] in
  tt_frame final !! (Monday, "08:00-09:00") = Some "CODE (R1)" ∧
  tt_frame final !! (Tuesday, "08:00-09:00") = Some "CODE (Lab-R1)" ∧
  occupant_tag "P" "CODE" "R1" false = Some "CODE (Lab-R1)" ∧
  room_allocations final !! "CODE" = Some "R1" ∧
  "R1" ∉ pool_of ["R1"] ["L1"] "P".
Proof.
  vm_compute. repeat split.
  intros H. apply list_elem_of_singleton in H. discriminate.
Qed.

(** A failed placement: the day has room, but no classroom exists. *)
Lemma place_session_failure_witness :
  let st := scenario_start fresh_process in
  let r := place_session scenario_slots scenario_durations [] [] first_draws
                         st Monday "X" "CODE" 1 "L" false in
  r.1 = false ∧ tt_frame r.2 = tt_frame st ∧
  stdout r.2 = ["No classrooms available for CODE"].
Proof.
  split; [vm_compute; reflexivity|]. split; [|vm_compute; reflexivity].
  apply (place_session_failure_leaves_grid scenario_slots scenario_durations [] []
           first_draws (scenario_start fresh_process) Monday "X" "CODE" 1 "L" false).
  vm_compute. reflexivity.
Defined.

(** A faculty already placed on all five days: ten passes, nothing placed. *)
Lemma retry_loop_bounded_witness :
  let busy_week :=
    set_faculty_schedule (list_to_map ((λ d, (d, ["X"])) <$> week_days))
                         (scenario_start fresh_process) in
  schedule_hours scenario_slots scenario_durations ["R1"] [] first_draws
                 lecture_alloc "L" "X" "CODE" false 3 busy_week = (3%Q, 10%nat, busy_week).
Proof.
  apply (proj1 (proj2 (proj2 (retry_loop_bounded scenario_slots scenario_durations
                                ["R1"] [] first_draws)))).
  - discriminate.
  - intros d. destruct d; vm_compute; left.
  - reflexivity.
Defined.

(** Around the lunch break.  The first course fills the first two slots of
    Monday and the first slot of Tuesday.  The second course then finds, on
    Monday, the block of 1.25 hours between these cells and the excluded
    lunch slot too short for its hour and a half, and takes the slot after
    lunch; on Tuesday it takes the slot after the occupied one.  The cells
    of the first course are kept and the lunch slot stays empty on every
    day. *)
Lemma occupied_and_excluded_cells_respected_witness :
  grid_rows lunch_slots (tt_frame lunch_first) =
    [ ["CODE (R1)"; "CODE (R1)"; ""; ""; ""; ""]; ["CODE (R1)"; ""; ""; ""; ""; ""];
      [""; ""; ""; ""; ""; ""]; [""; ""; ""; ""; ""; ""]; [""; ""; ""; ""; ""; ""] ] ∧
  grid_rows lunch_slots (tt_frame lunch_second) =
    [ ["CODE (R1)"; "CODE (R1)"; ""; ""; "MATH (R1)"; ""];
      ["CODE (R1)"; "MATH (R1)"; ""; ""; ""; ""];
      [""; ""; ""; ""; ""; ""]; [""; ""; ""; ""; ""; ""]; [""; ""; ""; ""; ""; ""] ] ∧
  (∀ cell v, tt_frame lunch_first !! cell = Some v → v ≠ "" →
             tt_frame lunch_second !! cell = Some v) ∧
  (∀ d, tt_frame lunch_second !! (d, "13:15-14:00") = tt_frame lunch_first !! (d, "13:15-14:00")) ∧
  (∀ d, tt_frame (create_timetable lunch_slots lunch_durations ["R1"] [] first_draws
                                   fresh_process [scenario_course; second_course])
          !! (d, "13:15-14:00") = Some "").
Proof.
  pose proof (occupied_and_excluded_cells_respected lunch_slots lunch_durations ["R1"] []
                first_draws) as (_ & Hloop & Hfinal).
  split; [vm_compute; reflexivity|]. split; [vm_compute; reflexivity|].
  destruct (Hloop lunch_first [second_course]) as [Hkeep Hexcluded].
  split; [exact Hkeep|]. split.
  - intros d. apply Hexcluded. unfold excluded_slots. right. left.
  - intros d. apply Hfinal.
    + unfold excluded_slots. right. left.
    + unfold lunch_slots. do 3 right. left.
Defined.

(** Monday of the same grid: the occupied cells and the excluded lunch slot
    leave two free blocks of one slot each. *)
Lemma find_free_blocks_maximal_runs_witness :
  find_free_blocks lunch_slots (tt_frame lunch_second) Monday =
    [["12:00-13:15"]; ["15:30-16:30"]].
Proof.
  pose proof (find_free_blocks_maximal_runs lunch_slots (tt_frame lunch_second) Monday) as H.
  cbv zeta in H. destruct H as [H _]. symmetry. apply H. unfold lunch_slots.
  apply runs_skip; [vm_compute; reflexivity|].
  apply runs_skip; [vm_compute; reflexivity|].
  apply (runs_group _ ["12:00-13:15"]
           ["13:15-14:00"; "14:00-15:30"; "15:30-16:30"]).
  { discriminate. }
  { constructor; [vm_compute; reflexivity|constructor]. }
  { intros x [= <-]. vm_compute. reflexivity. }
  apply runs_skip; [vm_compute; reflexivity|].
  apply runs_skip; [vm_compute; reflexivity|].
  apply (runs_group _ ["15:30-16:30"] []).
  { discriminate. }
  { constructor; [vm_compute; reflexivity|constructor]. }
  { intros x [=]. }
  apply runs_end.
Defined.

(** A practical of a course without a room, with one classroom and one lab:
    the lab is drawn, bound and written. *)
Lemma room_from_pool_at_first_binding_witness :
  let r := place_session scenario_slots scenario_durations ["R1"] ["L1"] first_draws
                         (scenario_start fresh_process) Monday "X" "CODE" 1 "P" false in
  tt_frame r.2 !! (Monday, "08:00-09:00") = Some "CODE (Lab-L1)" ∧
  ∃ room, room_allocations r.2 !! "CODE" = Some room ∧ room ∈ ["L1"].
Proof.
  cbv zeta. split; [vm_compute; reflexivity|].
  destruct (room_from_pool_at_first_binding scenario_slots scenario_durations ["R1"] ["L1"]
              first_draws (scenario_start fresh_process) Monday "X" "CODE" 1 "P")
    as (room & Hbound & _ & Hpool); [vm_compute; reflexivity|].
  exists room. split; [exact Hbound|].
  assert (room_allocations (scenario_start fresh_process) !! "CODE" = None) as E
    by reflexivity.
  rewrite E in Hpool. by apply Hpool.
Defined.


(** In the scenario the faculty [X] is placed once on Monday and once on
    Tuesday. *)
Lemma faculty_at_most_once_per_day_witness :
  let final := create_timetable scenario_slots scenario_durations ["R1"] [] first_draws
                                fresh_process [scenario_course] in
  faculty_schedule final !!! Monday = ["X"] ∧
  faculty_schedule final !!! Tuesday = ["X"] ∧
  NoDup (faculty_schedule final !!! Monday).
Proof.
  cbv zeta. split; [vm_compute; reflexivity|]. split; [vm_compute; reflexivity|].
  apply (proj2 (proj2 (faculty_at_most_once_per_day scenario_slots scenario_durations
                         ["R1"] [] first_draws))).
Defined.

(** ** More about the session placer *)

Section PlacerMore.
Variable slot_keys : list string.
Variable time_durations : gmap string Q.
Variable classrooms labs : list string.
Variable rnd : nat → nat.
Implicit Types (tt : gmap (day * string) string) (d : day) (st : state).

Local Abbreviation total_duration := (total_duration time_durations).
Local Abbreviation select_slots := (select_slots time_durations).
Local Abbreviation resolve_room := (resolve_room classrooms labs rnd).
Local Abbreviation place_in := (place_in time_durations classrooms labs rnd).
Local Abbreviation place_session := (place_session slot_keys time_durations classrooms labs rnd).



(** The loop over the free groups stops at the first group that is long
    enough. *)
Lemma place_in_first_fit st d faculty course_code duration_hours session_type is_elective
    groups :
  place_in st d faculty course_code duration_hours session_type is_elective groups =
    match list_find (λ g, Qle_bool duration_hours (total_duration g) = true) groups with
    | None => (false, st)
    | Some (_, group) =>
        match (if negb is_elective then resolve_room st course_code session_type
               else (Some "", st)) with
        | (None, st1) => (false, st1)
        | (Some room, st1) =>
            (true, record_faculty d faculty
                     (set_tt_frame
                        (write_slots (tt_frame st1) d session_type course_code room
                           is_elective (select_slots duration_hours 0 group)) st1))
        end
    end.
Proof.
  induction groups as [|group rest IH]; simpl; [done|].
  destruct (Qle_bool duration_hours (total_duration group)) eqn:Hfit.
  - by rewrite decide_True.
  - rewrite decide_False by congruence. rewrite IH.
    by destruct (list_find _ rest) as [[i g]|].
Qed.


Lemma write_slots_no_tag tt d session_type course_code room is_elective slots :
  occupant_tag session_type course_code room is_elective = None →
  write_slots tt d session_type course_code room is_elective slots = tt.
Proof.
  intros Hnone. unfold write_slots. rewrite Hnone.
  induction slots as [|s slots IH]; [done|]. exact IH.
Qed.

(** X3. With a session type other than ["L"], ["T"] and ["P"] the placer
    writes no cell at all, and yet, where a block fits (and a room can be
    had), it reports success and marks the faculty as busy on that day. *)
Theorem place_session_unknown_type
    st d faculty course_code duration_hours session_type is_elective :
  session_type ≠ "L" → session_type ≠ "T" → session_type ≠ "P" →
  let r := place_session st d faculty course_code duration_hours session_type is_elective in
  tt_frame r.2 = tt_frame st ∧
  (Exists (λ g, Qle_bool duration_hours (total_duration g) = true)
          (find_free_blocks slot_keys (tt_frame st) d) →
   is_elective = true ∨ is_Some (room_allocations st !! course_code) ∨ classrooms ≠ [] →
   r.1 = true ∧
   (faculty ≠ "" → faculty_schedule r.2 !!! d = faculty_schedule st !!! d ++ [faculty])).
Proof.
  intros HL HT HP r. subst r. unfold_placer. rewrite place_in_first_fit.
  assert (∀ room, occupant_tag session_type course_code room is_elective = None) as Htag.
  { intros room. unfold occupant_tag. by rewrite !bool_decide_eq_false_2. }
  pose proof (resolve_room_frame classrooms labs rnd st course_code session_type) as [Htt Hfs].
  pose proof (resolve_room_cases classrooms labs rnd st course_code session_type) as Hcases.
  destruct (list_find _ (find_free_blocks slot_keys (tt_frame st) d)) as [[i group]|] eqn:E.
  - assert (∃ o st1, (if negb is_elective then resolve_room st course_code session_type
                      else (Some "", st)) = (o, st1) ∧ tt_frame st1 = tt_frame st ∧
                     faculty_schedule st1 = faculty_schedule st ∧
                     (is_elective = true ∨ is_Some (room_allocations st !! course_code) ∨
                      classrooms ≠ [] → is_Some o)) as (o & st1 & -> & Ett & Efs & Hsome).
    { destruct is_elective; simpl.
      - exists (Some ""), st. by repeat split.
      - destruct (resolve_room st course_code session_type) as [o st1]. exists o, st1.
        repeat split; [done..|]. intros [?|[[room Hb]|Hpool]]; [done| |].
        + destruct o; [done|]. destruct Hcases as (Hnone & _). congruence.
        + destruct o; [done|]. destruct Hcases as (_ & Hempty & _).
          unfold pool_of in Hempty. rewrite bool_decide_eq_false_2 in Hempty by done. done. }
    destruct o as [room|]; simpl.
    + destruct (record_faculty_fields d faculty
        (set_tt_frame (write_slots (tt_frame st1) d session_type course_code room
           is_elective (select_slots duration_hours 0 group)) st1)) as (-> & _).
      simpl. rewrite write_slots_no_tag by done. split; [done|].
      intros _ _. split; [done|]. intros Hne.
      rewrite record_faculty_schedule. unfold truthy.
      rewrite (bool_decide_eq_false_2 _ Hne), bool_decide_eq_true_2 by done.
      simpl. by rewrite Efs.
    + split; [done|]. intros _ H. by destruct (Hsome H).
  - split; [done|]. intros Hex. apply list_find_None in E.
    apply Exists_exists in Hex as (g & Hg & Hfit). rewrite Forall_forall in E.
    by destruct (E g Hg).
Qed.

(** X12. The finder returns no block exactly when every catalogue slot of
    the day is occupied or excluded, and then the placer fails and leaves
    the state as it is, whatever is asked for. *)
Theorem full_day_has_no_block tt d :
  (find_free_blocks slot_keys tt d = [] ↔
   Forall (λ s, tt !!! (d, s) ≠ "" ∨ s ∈ excluded_slots) slot_keys) ∧
  ∀ st faculty course_code duration_hours session_type is_elective,
    tt_frame st = tt →
    Forall (λ s, tt !!! (d, s) ≠ "" ∨ s ∈ excluded_slots) slot_keys →
    place_session st d faculty course_code duration_hours session_type is_elective =
      (false, st).
Proof.
  assert (Forall (λ s, tt !!! (d, s) ≠ "" ∨ s ∈ excluded_slots) slot_keys ↔
          Forall (λ s, is_free tt d s = false) slot_keys) as Hfull.
  { rewrite !Forall_forall. split; intros H s Hs; apply is_free_false_iff; by apply H. }
  assert (find_free_blocks slot_keys tt d = [] ↔
          Forall (λ s, is_free tt d s = false) slot_keys) as Hiff.
  { pose proof (find_free_blocks_runs slot_keys tt d) as R.
    pose proof (maximal_runs_concat _ _ _ R) as Hc.
    pose proof (maximal_runs_groups _ _ _ R) as Hg.
    split.
    - intros E. rewrite E in Hc. simpl in Hc. symmetry in Hc.
      apply Forall_forall. intros s Hs.
      destruct (is_free tt d s) eqn:Hf; [|done].
      assert (s ∈ filter (λ x, is_free tt d x = true) slot_keys) as Hin
        by (by apply list_elem_of_filter).
      rewrite Hc in Hin. by apply elem_of_nil in Hin.
    - intros Hall. destruct (find_free_blocks slot_keys tt d) as [|g gs]; [done|].
      apply Forall_cons_1 in Hg as [(Hne & Hfree & before & after & E & _) _].
      destruct g as [|s g]; [done|]. apply Forall_cons_1 in Hfree as [Hs _].
      rewrite Forall_forall in Hall. rewrite (Hall s) in Hs; [done|].
      rewrite E, !elem_of_app. right. left. left. }
  rewrite Hfull. split; [exact Hiff|].
  intros st faculty course_code duration_hours session_type is_elective <- Hall.
  unfold_placer. by rewrite (proj2 Hiff (proj1 Hfull Hall)).
Qed.

End PlacerMore.

(** ** More about the scheduler and the builder *)

Section SchedulerMore.
Variable slot_keys : list string.
Variable time_durations : gmap string Q.
Variable classrooms labs : list string.
Variable rnd : nat → nat.
Implicit Types (d : day) (st : state).

Local Abbreviation place_session := (place_session slot_keys time_durations classrooms labs rnd).
Local Abbreviation day_loop := (day_loop slot_keys time_durations classrooms labs rnd).
Local Abbreviation pass_loop := (pass_loop slot_keys time_durations classrooms labs rnd).
Local Abbreviation schedule_hours := (schedule_hours slot_keys time_durations classrooms labs rnd).
Local Abbreviation schedule_course := (schedule_course slot_keys time_durations classrooms labs rnd).
Local Abbreviation create_timetable := (create_timetable slot_keys time_durations classrooms labs rnd).

(** What a call of the placer may change, by outcome. *)
Lemma place_session_effect st d faculty course_code duration_hours session_type is_elective :
  let r := place_session st d faculty course_code duration_hours session_type is_elective in
  (r.1 = false →
   tt_frame r.2 = tt_frame st ∧ faculty_schedule r.2 = faculty_schedule st ∧
   room_allocations r.2 = room_allocations st ∧ rng_pos r.2 = rng_pos st) ∧
  (∀ cell, cell.1 ≠ d → tt_frame r.2 !! cell = tt_frame st !! cell).
Proof.
  intros r. subst r. unfold_placer.
  pose proof (place_in_cases time_durations classrooms labs rnd st d faculty course_code
                duration_hours session_type is_elective
                (find_free_blocks slot_keys (tt_frame st) d)) as Hc.
  destruct (place_in time_durations classrooms labs rnd st d faculty course_code
              duration_hours session_type is_elective
              (find_free_blocks slot_keys (tt_frame st) d)) as [[] st']; simpl.
  - split; [done|]. destruct Hc as (group & room & st1 & _ & Hp).
    apply placed_as_frame in Hp as [-> _]. intros cell Hcell. rewrite write_slots_lookup.
    destruct (occupant_tag _ _ _ _); [|done].
    rewrite bool_decide_eq_false_2; [done|]. by intros [? _].
  - destruct Hc as [[-> _]|(_ & _ & _ & [line ->] & _)]; by repeat split.
Qed.

(** X4. One pass over the week places at most one session.  Either nothing
    is placed (the hours left, the frame, the faculty lists and the room
    bindings are as before), or exactly one day, on which the faculty was not
    busy, receives a session: the hours left drop by the requested amount,
    the cells of all other days are untouched and the faculty is recorded for
    that day only. *)
Theorem day_loop_places_at_most_one
    alloc session_type faculty course_code is_elective days remaining st :
  let r := day_loop alloc session_type faculty course_code is_elective days remaining st in
  (r.1 = remaining ∧ tt_frame r.2 = tt_frame st ∧
   faculty_schedule r.2 = faculty_schedule st ∧
   room_allocations r.2 = room_allocations st) ∨
  (∃ d, d ∈ days ∧ busy faculty st d = false ∧
        r.1 = (remaining - alloc remaining)%Q ∧
        (∀ cell, cell.1 ≠ d → tt_frame r.2 !! cell = tt_frame st !! cell) ∧
        (∀ d', faculty_schedule r.2 !!! d' =
               if truthy faculty && bool_decide (d' = d)
               then faculty_schedule st !!! d ++ [faculty]
               else faculty_schedule st !!! d')).
Proof.
  cbn zeta. revert st. induction days as [|d days IH]; intros st; [by left|].
  step_day_loop.
  destruct (Qle_bool remaining 0 || busy faculty st d) eqn:Hskip.
  { destruct (IH st) as [H|(d0 & Hin & H)]; [by left|].
    right. exists d0. split; [by right|done]. }
  apply orb_false_iff in Hskip as [_ Hbusy].
  pose proof (place_session_effect st d faculty course_code (alloc remaining)
                session_type is_elective) as [Hfail Hother].
  pose proof (place_session_faculty slot_keys time_durations classrooms labs rnd st d faculty
                course_code (alloc remaining) session_type is_elective) as Hfs.
  cbn zeta in Hfail, Hother, Hfs.
  destruct (place_session st d faculty course_code (alloc remaining) session_type is_elective)
    as [[] st'] eqn:Ep; simpl in *.
  - right. exists d. split; [left|]. repeat split; try done.
  - destruct (Hfail eq_refl) as (Ett & Efs & Era & _).
    destruct (IH st') as [(H1 & H2 & H3 & H4)|(d0 & Hin & Hb & H1 & H2 & H3)].
    + left. rewrite H1, H2, H3, H4. done.
    + right. exists d0. split; [by right|].
      unfold busy in *. rewrite Efs in Hb. split; [done|]. split; [done|].
      split.
      * intros cell Hcell. rewrite (H2 cell Hcell). by rewrite Ett.
      * intros d'. rewrite H3. by rewrite Efs.
Qed.

(** A property of the hours left that each successful placement keeps is
    kept by the whole retry loop. *)
Lemma day_loop_remaining alloc session_type faculty course_code is_elective days remaining st :
  let r := day_loop alloc session_type faculty course_code is_elective days remaining st in
  r.1 = remaining ∨ (Qle_bool remaining 0 = false ∧ r.1 = (remaining - alloc remaining)%Q).
Proof.
  cbn zeta. revert st. induction days as [|d days IH]; intros st; [by left|].
  step_day_loop.
  destruct (Qle_bool remaining 0) eqn:Hrem; simpl; [apply IH|].
  destruct (busy faculty st d); [apply IH|].
  destruct (place_session st d faculty course_code (alloc remaining) session_type is_elective)
    as [[] st']; [by right|apply IH].
Qed.

Lemma pass_loop_invariant (I : Q → Prop) alloc session_type faculty course_code is_elective :
  (∀ r, I r → Qle_bool r 0 = false → I (r - alloc r)%Q) →
  ∀ fuel attempts remaining st,
    I remaining →
    I (pass_loop alloc session_type faculty course_code is_elective
                 fuel attempts remaining st).1.1.
Proof.
  intros Hstep. induction fuel as [|fuel IH]; intros attempts remaining st Hrem; [done|].
  rewrite pass_loop_S.
  destruct (Qltb 0 remaining && Nat.ltb attempts MAX_ATTEMPTS); [|done].
  pose proof (day_loop_remaining alloc session_type faculty course_code is_elective
                week_days remaining st) as Hday. cbn zeta in Hday.
  destruct (day_loop alloc session_type faculty course_code is_elective week_days remaining st)
    as [remaining' st']. simpl in Hday. apply IH.
  destruct Hday as [->|[Hpos ->]]; [done|by apply Hstep].
Qed.

Lemma Qle_bool_false_lt (a b : Q) : Qle_bool a b = false → (b < a)%Q.
Proof.
  intros H. apply Qnot_le_lt. intros Hle%Qle_bool_iff. congruence.
Qed.

Lemma lecture_alloc_within r : Qle_bool r 0 = false → (0 <= r - lecture_alloc r <= r)%Q.
Proof.
  intros Hpos%Qle_bool_false_lt. unfold lecture_alloc, py_min, Qltb.
  destruct (Qle_bool 1.5 r) eqn:E; simpl.
  - apply Qle_bool_iff in E. split; lra.
  - split; lra.
Qed.

Lemma practical_alloc_within r : Qle_bool r 0 = false → (0 <= r - practical_alloc r <= r)%Q.
Proof.
  intros Hpos%Qle_bool_false_lt. unfold practical_alloc, py_min, Qltb.
  destruct (Qle_bool 2 r) eqn:E; simpl.
  - apply Qle_bool_iff in E. split; lra.
  - split; lra.
Qed.

(** X5. For the hour counts of a course (non-negative integers), each of the
    three retry loops ends with hours left between zero and the request:
    the count never goes negative.  It ends either with exactly nothing
    left or with all ten passes spent. *)
Theorem hours_left_within_bounds alloc session_type faculty course_code is_elective n st :
  alloc = lecture_alloc ∨ alloc = tutorial_alloc ∨ alloc = practical_alloc →
  (0 ≤ n)%Z →
  let r := schedule_hours alloc session_type faculty course_code is_elective (inject_Z n) st in
  (0 <= r.1.1 <= inject_Z n)%Q ∧ ((r.1.1 == 0)%Q ∨ r.1.2 = 10%nat).
Proof.
  intros Halloc Hn r. subst r. unfold_retry_loop.
  assert (0 <= (pass_loop alloc session_type faculty course_code is_elective
                   MAX_ATTEMPTS 0 (inject_Z n) st).1.1 <= inject_Z n)%Q as Hbounds.
  { assert (inject_Z 0 <= inject_Z n)%Q as Hn' by (by rewrite <- Zle_Qle).
    change (inject_Z 0) with 0%Q in Hn'.
    destruct Halloc as [ -> | [ -> | -> ] ].
    - apply (pass_loop_invariant (λ r, 0 <= r <= inject_Z n)%Q); [|split; [done|lra]].
      intros r [H0 H1] Hpos. pose proof (lecture_alloc_within r Hpos). split; lra.
    - assert (∃ k, (0 ≤ k ≤ n)%Z ∧
                ((pass_loop tutorial_alloc session_type faculty course_code is_elective
                    MAX_ATTEMPTS 0 (inject_Z n) st).1.1 == inject_Z k)%Q) as (k & Hk & E).
      { apply (pass_loop_invariant (λ r, ∃ k, (0 ≤ k ≤ n)%Z ∧ (r == inject_Z k)%Q)).
        - intros r (k & Hk & E) Hpos%Qle_bool_false_lt. exists (k - 1)%Z.
          rewrite E in Hpos. change (inject_Z 0 < inject_Z k)%Q in Hpos.
          rewrite <- Zlt_Qlt in Hpos. split; [lia|].
          unfold tutorial_alloc. rewrite E. unfold Zminus. rewrite inject_Z_plus. simpl.
          reflexivity.
        - exists n. split; [lia|reflexivity]. }
      rewrite E. change (inject_Z 0 <= inject_Z k <= inject_Z n)%Q.
      rewrite <- !Zle_Qle. lia.
    - apply (pass_loop_invariant (λ r, 0 <= r <= inject_Z n)%Q); [|split; [done|lra]].
      intros r [H0 H1] Hpos. pose proof (practical_alloc_within r Hpos). split; lra. }
  split; [exact Hbounds|].
  destruct (pass_loop_exit slot_keys time_durations classrooms labs rnd alloc session_type
              faculty course_code is_elective MAX_ATTEMPTS 0 (inject_Z n) st)
    as (_ & Hle & Hexit); [unfold MAX_ATTEMPTS; lia|].
  destruct (pass_loop alloc session_type faculty course_code is_elective
              MAX_ATTEMPTS 0 (inject_Z n) st) as [[remaining attempts] st'].
  change (attempts ≤ 10)%nat in Hle. simpl in Hexit, Hbounds |- *.
  apply andb_false_iff in Hexit as [Hrem|Hatt].
  - left. unfold Qltb in Hrem. apply negb_false_iff, Qle_bool_iff in Hrem.
    apply Qle_antisym; [done|]. apply Hbounds.
  - right. apply Nat.ltb_ge in Hatt. unfold MAX_ATTEMPTS in Hatt. lia.
Qed.

End SchedulerMore.

Section BuilderMore.
Variable slot_keys : list string.
Variable time_durations : gmap string Q.
Variable classrooms labs : list string.
Variable rnd : nat → nat.
Implicit Types (d : day) (st : state).

Local Abbreviation place_session := (place_session slot_keys time_durations classrooms labs rnd).
Local Abbreviation schedule_course := (schedule_course slot_keys time_durations classrooms labs rnd).
Local Abbreviation create_timetable := (create_timetable slot_keys time_durations classrooms labs rnd).

Lemma place_session_draws st d faculty course_code duration_hours session_type is_elective :
  draws_match_bindings st
    (place_session st d faculty course_code duration_hours session_type is_elective).2.
Proof.
  unfold_placer.
  pose proof (place_in_cases time_durations classrooms labs rnd st d faculty course_code
                duration_hours session_type is_elective
                (find_free_blocks slot_keys (tt_frame st) d)) as Hc.
  destruct (place_in time_durations classrooms labs rnd st d faculty course_code
              duration_hours session_type is_elective
              (find_free_blocks slot_keys (tt_frame st) d)) as [[] st']; simpl.
  - destruct Hc as (group & room & st1 & _ & Hp).
    pose proof (placed_as_bindings _ _ _ _ _ _ _ _ _ _ _ _ _ _ _ Hp) as (Hra & Hst1 & _).
    destruct Hp as (_ & _ & ->). unfold draws_match_bindings.
    destruct (record_faculty_fields d faculty
      (set_tt_frame (write_slots (tt_frame st1) d session_type course_code room is_elective
         (select_slots time_durations duration_hours 0 group)) st1)) as (_ & -> & -> & ->).
    simpl. destruct Hst1 as [->|(_ & Hnone & _ & ->)]; [by repeat split|].
    simpl. rewrite map_size_insert_None by done. repeat split; [lia|lia|done].
  - destruct Hc as [[-> _]|(_ & _ & _ & [line ->] & _)]; [by repeat split|].
    simpl. repeat split; [done..|]. by apply prefix_app_r.
Qed.

Lemma courses_draws st courses :
  draws_match_bindings st (foldl schedule_course st courses).
Proof.
  apply courses_lift.
  - by repeat split.
  - intros st1 st2 st3 (H1 & H2 & H3) (H4 & H5 & H6).
    repeat split; [lia|lia|by etrans].
  - intros. apply place_session_draws.
Qed.

(** X6. A run of the builder consumes exactly one random draw for the choice
    of the elective, when some course is flagged elective, and one draw per
    room it binds: the position in the stream at the end is the position at
    the start plus these.  What was printed before the run is still there,
    the run only appends diagnostics. *)
Theorem builder_draws_accounted globals course_list :
  let final := create_timetable globals course_list in
  let electives := filter (λ c, Elective c = "1") course_list in
  rng_pos final =
    (rng_pos globals + (if bool_decide (electives = []) then 0 else 1) +
     size (room_allocations final))%nat ∧
  stdout globals `prefix_of` stdout final.
Proof.
  cbn zeta. rewrite create_timetable_unfold. cbn zeta.
  set (st0 := State (empty_frame slot_keys) empty_faculty_schedule ∅
                    (rng_pos globals) (stdout globals)).
  destruct (courses_draws (select_courses rnd st0 course_list).2
                          (select_courses rnd st0 course_list).1) as (H1 & _ & H3).
  destruct (select_courses_state rnd st0 course_list) as (_ & _ & Hra).
  rewrite Hra in H1. simpl in H1.
  change (size (∅ : gmap string string)) with 0%nat in H1.
  assert (rng_pos (select_courses rnd st0 course_list).2 =
            (rng_pos globals +
             (if bool_decide (filter (λ c, Elective c = "1") course_list = []) then 0 else 1))%nat
          ∧ stdout (select_courses rnd st0 course_list).2 = stdout globals) as [Hpos Hout].
  { unfold_select_courses.
    destruct (filter (λ c, Elective c = "1") course_list) as [|c cs]; simpl; split; lia || done. }
  simpl. rewrite Hout in H3. split; [lia|done].
Qed.

(** X7. The grid the builder emits is full-shaped: it has a cell for every
    weekday and every catalogue slot and no other cell, whatever the course
    list and however many placements failed. *)
Theorem emitted_grid_full_shaped globals course_list d s :
  is_Some (tt_frame (create_timetable globals course_list) !! (d, s)) ↔ s ∈ slot_keys.
Proof.
  rewrite create_timetable_unfold. cbn zeta. simpl.
  set (st0 := State (empty_frame slot_keys) empty_faculty_schedule ∅
                    (rng_pos globals) (stdout globals)).
  rewrite clear_excluded_lookup. simpl.
  destruct (builder_reads_defined slot_keys time_durations classrooms labs rnd globals
              course_list (select_courses rnd st0 course_list).1 d s) as [Hcell _].
  split.
  - intros Hsome. destruct (decide (s ∈ slot_keys)) as [|Hout]; [done|].
    rewrite bool_decide_eq_false_2 in Hsome by (by intros [_ ?]).
    rewrite (grid_respected_outside slot_keys _ _ d s
               (courses_grid slot_keys time_durations classrooms labs rnd _ _) Hout) in Hsome.
    destruct (select_courses_state rnd st0 course_list) as (Ett & _).
    rewrite Ett in Hsome. simpl in Hsome.
    rewrite empty_frame_lookup, bool_decide_eq_false_2 in Hsome by done.
    by destruct Hsome.
  - intros Hin. case_bool_decide; [done|]. by apply Hcell.
Qed.

(** X8. The final clearing of the excluded slots changes nothing: the
    placements never touch these slots, so the state the builder returns is
    the state in which its course loop ended. *)
Theorem final_clearing_changes_nothing globals course_list :
  let st0 := State (empty_frame slot_keys) empty_faculty_schedule ∅
                   (rng_pos globals) (stdout globals) in
  create_timetable globals course_list =
    foldl schedule_course (select_courses rnd st0 course_list).2
          (select_courses rnd st0 course_list).1.
Proof.
  intros st0. rewrite create_timetable_unfold. cbn zeta. fold st0.
  set (st2 := foldl schedule_course (select_courses rnd st0 course_list).2
                    (select_courses rnd st0 course_list).1).
  assert (clear_excluded slot_keys (tt_frame st2) = tt_frame st2) as Hclear.
  { apply map_eq. intros [d s]. rewrite clear_excluded_lookup. simpl.
    case_bool_decide as Hcell; [|done]. destruct Hcell as [Hex Hin].
    subst st2.
    rewrite (grid_respected_excluded slot_keys _ _ d s
               (courses_grid slot_keys time_durations classrooms labs rnd _ _) Hex).
    destruct (select_courses_state rnd st0 course_list) as (-> & _).
    simpl. by rewrite empty_frame_lookup, bool_decide_eq_true_2. }
  unfold set_tt_frame. rewrite Hclear. by destruct st2.
Qed.

End BuilderMore.

(** ** Parsing: what the catalogue and the quintuple accept *)

Lemma has_char_count c s : has_char c s = false ↔ count_char c s = 0%nat.
Proof.
  induction s as [|c' s IH]; simpl; [done|].
  destruct (Ascii.eqb c' c); simpl; [done|]. exact IH.
Qed.

Lemma split_nonempty sep s : Py.split sep s ≠ [].
Proof.
  destruct s as [|c s]; simpl; [done|].
  destruct (Ascii.eqb c sep); [done|]. by destruct (Py.split sep s).
Qed.

Lemma split_length sep s : length (Py.split sep s) = S (count_char sep s).
Proof.
  induction s as [|c s IH]; simpl; [done|].
  destruct (Ascii.eqb c sep); simpl; [by rewrite IH|].
  pose proof (split_nonempty sep s). destruct (Py.split sep s); [done|]. exact IH.
Qed.

Lemma split_parts_without sep s part :
  part ∈ Py.split sep s → has_char sep part = false.
Proof.
  revert part. induction s as [|c s IH]; intros part; simpl.
  - by intros ->%list_elem_of_singleton.
  - destruct (Ascii.eqb c sep) eqn:Ec.
    + intros [->|Hin]%elem_of_cons; [done|]. by apply IH.
    + pose proof (split_nonempty sep s). destruct (Py.split sep s) as [|w ws]; [done|].
      intros [->|Hin]%elem_of_cons.
      * simpl. rewrite Ec. apply IH. left.
      * apply IH. by right.
Qed.

Lemma split_one sep s part : Py.split sep s = [part] → s = part.
Proof.
  revert part. induction s as [|c s IH]; intros part; simpl.
  - by intros [= <-].
  - pose proof (split_nonempty sep s).
    destruct (Ascii.eqb c sep); destruct (Py.split sep s) as [|w ws]; try done.
    intros [= <- ->]. by rewrite (IH w).
Qed.

Lemma split_two sep s a b : Py.split sep s = [a; b] → s = a +:+ String sep b.
Proof.
  revert a. induction s as [|c s IH]; intros a; simpl; [done|].
  destruct (Ascii.eqb c sep) eqn:Ec.
  - intros [= <- Hb]. apply Ascii.eqb_eq in Ec as ->. simpl. by rewrite (split_one _ _ _ Hb).
  - pose proof (split_nonempty sep s). destruct (Py.split sep s) as [|w ws]; [done|].
    intros [= <- ->]. simpl. by rewrite (IH w).
Qed.

Lemma count_char_app c a b : count_char c (a +:+ b) = (count_char c a + count_char c b)%nat.
Proof. induction a as [|x a IH]; simpl; [done|]. rewrite IH. lia. Qed.

Lemma lstrip_without c s : has_char c s = false → has_char c (Py.lstrip s) = false.
Proof.
  induction s as [|x s IH]; simpl; [done|].
  intros [Hx Hs]%orb_false_iff. destruct (Py.is_space x); [by apply IH|].
  simpl. by rewrite Hx, Hs.
Qed.

Lemma rstrip_without c s : has_char c s = false → has_char c (Py.rstrip s) = false.
Proof.
  induction s as [|x s IH]; simpl; [done|].
  intros [Hx Hs]%orb_false_iff. specialize (IH Hs).
  destruct (Py.rstrip s) as [|y r].
  - destruct (Py.is_space x); simpl; [done|]. by rewrite Hx.
  - simpl in *. by rewrite Hx, IH.
Qed.

Lemma strip_without c s : has_char c s = false → has_char c (Py.strip s) = false.
Proof. intros H. by apply rstrip_without, lstrip_without. Qed.

Lemma digit_of_range c d : Py.digit_of c = Some d → (0 ≤ d ≤ 9)%Z.
Proof.
  unfold Py.digit_of. destruct (Nat.leb 48 _ && Nat.leb _ 57) eqn:E; [|done].
  apply andb_true_iff in E as [H1%Nat.leb_le H2%Nat.leb_le]. intros [= <-]. lia.
Qed.

Lemma digits_nonneg acc after_digit s n :
  Py.digits acc after_digit s = Some n → (0 ≤ acc)%Z → (0 ≤ n)%Z.
Proof.
  revert acc after_digit. induction s as [|c s IH]; intros acc after_digit; simpl.
  - destruct after_digit; [|done]. by intros [= <-].
  - destruct (Py.digit_of c) as [d|] eqn:Ed.
    + intros H Hacc. apply (IH _ _ H). apply digit_of_range in Ed. lia.
    + destruct (Ascii.eqb c "_" && after_digit); [|done]. apply IH.
Qed.

(** [int] never yields a negative number on a text without a minus sign. *)
Lemma int_nonneg s n : has_char "-" s = false → Py.int s = Some n → (0 ≤ n)%Z.
Proof.
  intros Hs%strip_without. unfold Py.int.
  destruct (Py.strip s) as [|c rest] eqn:E.
  - intros H. by apply digits_nonneg in H.
  - destruct c as [[] [] [] [] [] [] [] []];
      try (intros H; by apply digits_nonneg in H).
    simpl in Hs. done.
Qed.

Lemma int_strip_part_nonneg text part n :
  part ∈ Py.split "-" text → Py.int (Py.strip part) = Some n → (0 ≤ n)%Z.
Proof.
  intros Hin%split_parts_without. by apply int_nonneg, strip_without.
Qed.

(** X9. A quintuple that is accepted has exactly five fields, that is four
    dashes, and all five numbers are non-negative: a minus sign is always
    read as a separator, so no course ever asks for negative hours. *)
Theorem parse_quintuple_nonneg text l t p s c :
  parse_quintuple text = Some (l, t, p, s, c) →
  count_char "-" text = 4%nat ∧
  (0 ≤ l)%Z ∧ (0 ≤ t)%Z ∧ (0 ≤ p)%Z ∧ (0 ≤ s)%Z ∧ (0 ≤ c)%Z.
Proof.
  unfold parse_quintuple. intros H.
  pose proof (split_length "-" text) as Hlen.
  pose proof (int_strip_part_nonneg text) as Hpos.
  destruct (Py.split "-" text) as [|x1 [|x2 [|x3 [|x4 [|x5 [|x6 xs]]]]]];
    simpl in H, Hlen; try done.
  - destruct (Py.int (Py.strip x1)); done.
  - destruct (Py.int (Py.strip x1)), (Py.int (Py.strip x2)); done.
  - destruct (Py.int (Py.strip x1)), (Py.int (Py.strip x2)), (Py.int (Py.strip x3)); done.
  - destruct (Py.int (Py.strip x1)), (Py.int (Py.strip x2)), (Py.int (Py.strip x3)),
      (Py.int (Py.strip x4)); done.
  - destruct (Py.int (Py.strip x1)) as [n1|] eqn:E1; [|done].
    destruct (Py.int (Py.strip x2)) as [n2|] eqn:E2; [|done].
    destruct (Py.int (Py.strip x3)) as [n3|] eqn:E3; [|done].
    destruct (Py.int (Py.strip x4)) as [n4|] eqn:E4; [|done].
    destruct (Py.int (Py.strip x5)) as [n5|] eqn:E5; [|done].
    injection H as <- <- <- <- <-. split; [lia|].
    repeat split; eapply Hpos; try eassumption; repeat first [by left | right].
  - destruct (Py.int (Py.strip x1)), (Py.int (Py.strip x2)), (Py.int (Py.strip x3)),
      (Py.int (Py.strip x4)), (Py.int (Py.strip x5)), (Py.int (Py.strip x6)); try done.
    all: by destruct ((λ x, Py.int (Py.strip x)) <$> xs).
Qed.

Lemma hour_minute_shape t h m :
  hour_minute t = Some (h, m) → count_char ":" t = 1%nat.
Proof.
  unfold hour_minute. pose proof (split_length ":" t) as Hlen.
  destruct (Py.split ":" t) as [|a [|b [|c cs]]]; simpl in Hlen; try done. lia.
Qed.

Lemma hour_minute_nonneg t h m :
  has_char "-" t = false → hour_minute t = Some (h, m) → (0 ≤ h)%Z ∧ (0 ≤ m)%Z.
Proof.
  intros Hdash. unfold hour_minute.
  destruct (Py.split ":" t) as [|a [|b [|c cs]]] eqn:E; try done.
  apply split_two in E. subst t.
  apply has_char_count in Hdash. rewrite count_char_app in Hdash. simpl in Hdash.
  apply Nat.eq_add_0 in Hdash as [Ha%has_char_count Hb%has_char_count].
  destruct (Py.int a) as [x|] eqn:Ex; simpl; [|done].
  destruct (Py.int b) as [y|] eqn:Ey; simpl; [|done].
  intros [= <- <-]. split; [by apply (int_nonneg a)|by apply (int_nonneg b)].
Qed.

(** X11. A label the catalogue accepts has exactly one dash, with exactly one
    colon on each side of it; the four numbers read from it are not
    negative, and the duration is the value of the double that line 24
    computes from them, with its divisions, additions and subtraction in
    binary64.  Any other label (no dash, a second dash, a missing or extra
    colon) is rejected. *)
Theorem calc_slot_duration_shape slot duration :
  calc_slot_duration slot = Some duration →
  ∃ start end_ h1 m1 h2 m2 x1 y1 x2 y2,
    slot = start +:+ "-" +:+ end_ ∧
    count_char "-" slot = 1%nat ∧ count_char ":" start = 1%nat ∧ count_char ":" end_ = 1%nat ∧
    hour_minute start = Some (h1, m1) ∧ hour_minute end_ = Some (h2, m2) ∧
    (0 ≤ h1)%Z ∧ (0 ≤ m1)%Z ∧ (0 ≤ h2)%Z ∧ (0 ≤ m2)%Z ∧
    Float64.true_div m1 60 = Some x1 ∧ Float64.of_int h1 = Some y1 ∧
    Float64.true_div m2 60 = Some x2 ∧ Float64.of_int h2 = Some y2 ∧
    Float64.to_Q (Float64.sub (Float64.add y2 x2) (Float64.add y1 x1)) = Some duration.
Proof.
  unfold calc_slot_duration, calc_slot_duration_float.
  pose proof (split_length "-" slot) as Hlen.
  pose proof (split_parts_without "-" slot) as Hparts.
  destruct (Py.split "-" slot) as [|start [|end_ [|x xs]]] eqn:E; try done.
  simpl in Hlen.
  destruct (hour_minute start) as [[h1 m1]|] eqn:E1; simpl; [|done].
  destruct (hour_minute end_) as [[h2 m2]|] eqn:E2; simpl; [|done].
  unfold clock_difference, clock_hours.
  destruct (Float64.true_div m2 60) as [x2|] eqn:Ex2; simpl; [|done].
  destruct (Float64.of_int h2) as [y2|] eqn:Ey2; simpl; [|done].
  destruct (Float64.true_div m1 60) as [x1|] eqn:Ex1; simpl; [|done].
  destruct (Float64.of_int h1) as [y1|] eqn:Ey1; simpl; [|done].
  intros Hd. exists start, end_, h1, m1, h2, m2, x1, y1, x2, y2.
  destruct (hour_minute_nonneg start h1 m1) as [? ?]; [apply Hparts; left|done|].
  destruct (hour_minute_nonneg end_ h2 m2) as [? ?]; [apply Hparts; right; left|done|].
  repeat split; try done.
  - by apply split_two.
  - lia.
  - by eapply hour_minute_shape.
  - by eapply hour_minute_shape.
Qed.

Lemma load_time_durations_fails slot_keys acc :
  load_time_durations slot_keys acc = None ↔
  ∃ s, s ∈ slot_keys ∧ calc_slot_duration s = None.
Proof.
  revert acc. induction slot_keys as [|x slot_keys IH]; intros acc; simpl.
  - split; [done|]. by intros (s & ?%elem_of_nil & _).
  - destruct (calc_slot_duration x) as [q|] eqn:Ex; simpl.
    + rewrite IH. split.
      * intros (s & Hin & Hs). exists s. split; [by right|done].
      * intros (s & [->|Hin]%elem_of_cons & Hs); [congruence|]. by exists s.
    + split; [|done]. intros _. exists x. split; [left|done].
Qed.

(** X10. Loading the durations is all or nothing: it fails exactly when some
    label of the catalogue is rejected by [calc_slot_duration]; when it
    succeeds, the table holds the duration of every label of the catalogue
    and no other key. *)
Theorem time_durations_all_or_nothing slot_keys :
  (time_durations_of slot_keys = None ↔
   ∃ s, s ∈ slot_keys ∧ calc_slot_duration s = None) ∧
  ∀ durations, time_durations_of slot_keys = Some durations →
    ∀ s, durations !! s = if bool_decide (s ∈ slot_keys) then calc_slot_duration s else None.
Proof.
  split; [apply load_time_durations_fails|].
  intros durations Hload s.
  rewrite (load_time_durations_lookup _ _ _ s Hload). by rewrite lookup_empty.
Qed.

(** ** Start-up data *)

Lemma rooms_of_type_elem wanted rooms_df id :
  id ∈ rooms_of_type wanted rooms_df ↔
  ∃ r, r ∈ rooms_df ∧ Room_ID r = id ∧ PyStr.lower (Room_Type r) = wanted.
Proof.
  unfold rooms_of_type. rewrite list_elem_of_fmap. split.
  - intros (r & -> & [Ht Hin]%list_elem_of_filter). by exists r.
  - intros (r & Hin & <- & Ht). exists r. split; [done|]. by apply list_elem_of_filter.
Qed.

Lemma NoDup_fmap_inj_on {A B} (f : A → B) (l : list A) x y :
  NoDup (f <$> l) → x ∈ l → y ∈ l → f x = f y → x = y.
Proof.
  induction l as [|a l IH]; simpl; [by intros _ ?%elem_of_nil|].
  intros [Ha Hl]%NoDup_cons [->|Hx]%elem_of_cons [->|Hy]%elem_of_cons Hf; [done| | |by apply IH].
  - destruct Ha. rewrite Hf. by apply list_elem_of_fmap_2.
  - destruct Ha. rewrite <- Hf. by apply list_elem_of_fmap_2.
Qed.

(** X13. The two room pools are read from the room table case-insensitively:
    a room is in the classroom pool exactly when its type is ["classroom"]
    in any mix of cases, in the lab pool exactly when it is ["lab"], and in
    neither for any other type.  With distinct room identifiers the two
    pools are disjoint and have no duplicates. *)
Theorem room_pools_by_type rooms_df :
  NoDup (Room_ID <$> rooms_df) →
  (∀ r, r ∈ rooms_df →
     (Room_ID r ∈ classrooms_of rooms_df ↔ PyStr.lower (Room_Type r) = "classroom") ∧
     (Room_ID r ∈ labs_of rooms_df ↔ PyStr.lower (Room_Type r) = "lab")) ∧
  (∀ id, id ∈ classrooms_of rooms_df → id ∉ labs_of rooms_df) ∧
  NoDup (classrooms_of rooms_df) ∧ NoDup (labs_of rooms_df).
Proof.
  intros Hnd.
  assert (∀ wanted r, r ∈ rooms_df →
            (Room_ID r ∈ rooms_of_type wanted rooms_df ↔
             PyStr.lower (Room_Type r) = wanted)) as Hpool.
  { intros wanted r Hr. rewrite rooms_of_type_elem. split.
    - intros (r' & Hr' & Hid & Ht).
      by rewrite (NoDup_fmap_inj_on Room_ID rooms_df r r' Hnd Hr Hr' (eq_sym Hid)).
    - intros Ht. by exists r. }
  assert (∀ wanted, NoDup (rooms_of_type wanted rooms_df)) as Hnd'.
  { intros wanted. unfold rooms_of_type.
    eapply sublist_NoDup; [exact Hnd|]. apply fmap_sublist, sublist_filter. }
  split; [|split; [|split]].
  - intros r Hr. split; by apply Hpool.
  - intros id (r & Hr & <- & Hc)%rooms_of_type_elem Hlab.
    apply (Hpool "lab" r Hr) in Hlab. congruence.
  - apply Hnd'.
  - apply Hnd'.
Qed.

Lemma lstrip_spaces p : only_spaces p = true → Py.lstrip p = "".
Proof.
  induction p as [|c p IH]; simpl; [done|].
  intros [Hc Hp]%andb_true_iff. rewrite Hc. by apply IH.
Qed.

Lemma rstrip_spaces p : only_spaces p = true → Py.rstrip p = "".
Proof.
  induction p as [|c p IH]; simpl; [done|].
  intros [Hc Hp]%andb_true_iff. by rewrite (IH Hp), Hc.
Qed.

Lemma lstrip_pad p s : only_spaces p = true → Py.lstrip (p +:+ s) = Py.lstrip s.
Proof.
  induction p as [|c p IH]; simpl; [done|].
  intros [Hc Hp]%andb_true_iff. rewrite Hc. by apply IH.
Qed.

Lemma rstrip_pad s p : only_spaces p = true → Py.rstrip (s +:+ p) = Py.rstrip s.
Proof.
  intros Hp. induction s as [|c s IH]; simpl; [by apply rstrip_spaces|]. by rewrite IH.
Qed.

Lemma strip_pad p1 s p2 :
  only_spaces p1 = true → only_spaces p2 = true →
  Py.strip (p1 +:+ s +:+ p2) = Py.strip s.
Proof.
  intros H1 H2. unfold Py.strip. rewrite lstrip_pad by done.
  induction s as [|c s IH]; simpl.
  - by rewrite lstrip_spaces, rstrip_spaces.
  - destruct (Py.is_space c); [exact IH|].
    change (String c (s +:+ p2)) with (String c s +:+ p2). by rewrite rstrip_pad.
Qed.

Lemma space_is_not c x : Py.is_space x = true → Py.is_space c = false → Ascii.eqb x c = false.
Proof.
  intros Hx Hc. destruct (Ascii.eqb x c) eqn:E; [|done].
  apply Ascii.eqb_eq in E as ->. congruence.
Qed.

Lemma has_char_lstrip c s :
  Py.is_space c = false → has_char c (Py.lstrip s) = has_char c s.
Proof.
  intros Hc. induction s as [|x s IH]; simpl; [done|].
  destruct (Py.is_space x) eqn:Hx; [|done].
  by rewrite IH, (space_is_not c x Hx Hc).
Qed.

Lemma has_char_rstrip c s :
  Py.is_space c = false → has_char c (Py.rstrip s) = has_char c s.
Proof.
  intros Hc. induction s as [|x s IH]; simpl; [done|].
  destruct (Py.rstrip s) as [|y r]; simpl in *.
  - rewrite <- IH. destruct (Py.is_space x) eqn:Hx; simpl; [|done].
    by rewrite (space_is_not c x Hx Hc).
  - by rewrite IH.
Qed.

Lemma has_char_strip c s :
  Py.is_space c = false → has_char c (Py.strip s) = has_char c s.
Proof. intros Hc. unfold Py.strip. by rewrite has_char_rstrip, has_char_lstrip. Qed.

(** X14. The label built from a slot record ignores white space around the
    start and end texts.  When neither text holds a dash, the duration of
    the label is computed from the hours and minutes of the two stripped
    texts, as line 24 does in binary64; when one of them holds a dash, the
    label is rejected. *)
Theorem slot_key_duration slot :
  (∀ p1 p2 q1 q2,
     only_spaces p1 = true → only_spaces p2 = true →
     only_spaces q1 = true → only_spaces q2 = true →
     slot_key (SlotRow (p1 +:+ slot_start slot +:+ p2) (q1 +:+ slot_end slot +:+ q2)) =
     slot_key slot) ∧
  (has_char "-" (slot_start slot) = false → has_char "-" (slot_end slot) = false →
   calc_slot_duration (slot_key slot) =
     '(h1, m1) ← hour_minute (Py.strip (slot_start slot));
     '(h2, m2) ← hour_minute (Py.strip (slot_end slot));
     clock_difference h1 m1 h2 m2 ≫= Float64.to_Q) ∧
  (has_char "-" (slot_start slot) = true ∨ has_char "-" (slot_end slot) = true →
   calc_slot_duration (slot_key slot) = None).
Proof.
  split; [|split].
  - intros p1 p2 q1 q2 H1 H2 H3 H4. unfold slot_key. simpl. by rewrite !strip_pad.
  - intros Hs He. unfold calc_slot_duration, calc_slot_duration_float, slot_key.
    change ("-" +:+ Py.strip (slot_end slot)) with (String "-" (Py.strip (slot_end slot))).
    rewrite split_at by (by rewrite has_char_strip).
    rewrite split_without by (by rewrite has_char_strip).
    destruct (hour_minute (Py.strip (slot_start slot))) as [[h1 m1]|]; [|done].
    by destruct (hour_minute (Py.strip (slot_end slot))) as [[h2 m2]|].
  - intros Hdash. unfold calc_slot_duration, calc_slot_duration_float.
    pose proof (split_length "-" (slot_key slot)) as Hlen.
    assert (2 ≤ count_char "-" (slot_key slot))%nat as Hcount.
    { unfold slot_key. rewrite !count_char_app. simpl.
      destruct Hdash as [H|H]; rewrite <- (has_char_strip "-") in H by done.
      - destruct (count_char "-" (Py.strip (slot_start slot))) eqn:E; [|lia].
        apply has_char_count in E. congruence.
      - destruct (count_char "-" (Py.strip (slot_end slot))) eqn:E; [|lia].
        apply has_char_count in E. congruence. }
    destruct (Py.split "-" (slot_key slot)) as [|a [|b [|c cs]]]; simpl in Hlen; try done.
    lia.
Qed.

(** ** Facts about the renderer *)

Section RenderFacts.
Variable slot_keys : list string.
Variable time_durations : gmap string Q.
Variable color_palette : list string.
Variable rnd : nat → nat.

Local Abbreviation max_column := (max_column slot_keys).
Local Abbreviation extend_merge := (extend_merge slot_keys time_durations).
Local Abbreviation style_row := (style_row slot_keys time_durations rnd).
Local Abbreviation style_rows := (style_rows slot_keys time_durations rnd).
Local Abbreviation style_and_merge_cells :=
  (style_and_merge_cells slot_keys time_durations color_palette rnd).

(** The columns the inner loop appends are consecutive, inside the sheet,
    and hold the text of the first cell. *)
Lemma extend_merge_run row value session_dur fuel next_col total_dur appended :
  extend_merge row value session_dur fuel next_col total_dur = Some appended →
  appended = seq next_col (length appended) ∧
  ∀ col, col ∈ appended → (col ≤ max_column)%nat ∧ cell_value row col = value.
Proof.
  revert next_col total_dur appended.
  induction fuel as [|fuel IH]; intros next_col total_dur appended.
  { simpl. intros [= <-]. split; [done|]. by intros col ?%elem_of_nil. }
  step_extend_merge.
  destruct (Nat.leb next_col max_column) eqn:Hcol;
    [|intros [= <-]; split; [done|]; by intros col ?%elem_of_nil].
  apply Nat.leb_le in Hcol.
  case_bool_decide as Hval;
    [|intros [= <-]; split; [done|]; by intros col ?%elem_of_nil].
  destruct (column_duration slot_keys time_durations next_col) as [dur|]; simpl; [|done].
  destruct (Qle_bool session_dur (total_dur + dur)).
  - intros [= <-]. split; [done|]. by intros col ->%list_elem_of_singleton.
  - destruct (extend_merge row value session_dur fuel (S next_col) (total_dur + dur)%Q)
      as [more|] eqn:Hmore; simpl; [|done].
    intros [= <-]. destruct (IH _ _ _ Hmore) as (Hseq & Hvals).
    simpl. split; [by rewrite <- Hseq|].
    intros col [->|Hin]%elem_of_cons; [done|by apply Hvals].
Qed.

Lemma last_of_run col n : List.last (col :: seq (S col) n) col = (col + n)%nat.
Proof.
  rewrite cons_seq, seq_S, List.last_last. done.
Qed.

(** The styled runs of one row. *)
Lemma style_row_spans fuel row_idx row col_start ps spans ps' :
  style_row fuel row_idx row col_start ps = Some (spans, ps') →
  Forall (λ sp, span_row sp = row_idx ∧
                (col_start ≤ span_first sp)%nat ∧ (span_first sp ≤ span_last sp)%nat ∧
                (span_last sp ≤ max_column)%nat ∧
                cell_value row (span_first sp) ≠ "" ∧
                ∀ col, (span_first sp ≤ col ≤ span_last sp)%nat →
                       cell_value row col = cell_value row (span_first sp)) spans ∧
  StronglySorted span_before spans ∧
  ∀ col, (col_start ≤ col)%nat → (col < col_start + fuel)%nat → (col ≤ max_column)%nat →
         cell_value row col ≠ "" →
         ∃ sp, sp ∈ spans ∧ (span_first sp ≤ col ≤ span_last sp)%nat.
Proof.
  revert col_start ps spans ps'.
  induction fuel as [|fuel IH]; intros col_start ps spans ps'.
  { simpl. intros [= <- <-]. split; [done|]. split; [constructor|]. intros col; lia. }
  step_style_row.
  destruct (Nat.leb col_start max_column) eqn:Hcol.
  2:{ intros [= <- <-]. apply Nat.leb_gt in Hcol. split; [done|]. split; [constructor|].
      intros col; lia. }
  apply Nat.leb_le in Hcol. cbn zeta.
  case_bool_decide as Hval.
  { intros H. destruct (IH _ _ _ _ H) as (Hall & Hsort & Hcover). split.
    - eapply Forall_impl; [exact Hall|]. simpl. intros sp (? & ? & ?). split; [done|].
      split; [lia|done].
    - split; [done|]. intros col H1 H2 H3 H4.
      destruct (decide (col = col_start)) as [->|Hne]; [done|].
      apply Hcover; [lia|lia|done|done]. }
  destruct (column_duration slot_keys time_durations col_start) as [dur|]; simpl; [|done].
  destruct (extend_merge row (cell_value row col_start)
              (session_duration (cell_value row col_start)) (length slot_keys)
              (S col_start) dur) as [appended|] eqn:Happ; simpl; [|done].
  destruct (extend_merge_run _ _ _ _ _ _ _ Happ) as (Hseq & Hvals). clear Happ.
  destruct (raw_name (cell_value row col_start)) as [name|]; simpl; [|done].
  destruct (pick_color rnd name ps) as [fill ps1].
  assert (List.last (col_start :: appended) col_start = (col_start + length appended)%nat)
    as Hlast by (rewrite Hseq at 1; apply last_of_run).
  change (match appended with
          | [] => col_start
          | _ :: _ => List.last appended col_start
          end) with (List.last (col_start :: appended) col_start).
  rewrite Hlast.
  assert (col_start + length appended ≤ max_column)%nat as Hlen.
  { destruct (length appended) as [|n] eqn:En; [lia|].
    apply (Hvals (col_start + S n)%nat). rewrite Hseq. apply elem_of_seq. lia. }
  destruct (style_row fuel row_idx row (S (col_start + length appended)) ps1)
    as [[more ps2]|] eqn:Hrest; simpl; [|done].
  intros [= <- <-]. destruct (IH _ _ _ _ Hrest) as (Hall & Hsort & Hcover).
  split; [|split].
  - constructor.
    + simpl. repeat split; [lia..|done|].
      intros col Hcol'. destruct (decide (col = col_start)) as [->|Hne]; [done|].
      apply (Hvals col). rewrite Hseq. apply elem_of_seq. lia.
    + eapply Forall_impl; [exact Hall|]. simpl. intros sp (? & ? & ?). split; [done|].
      split; [lia|done].
  - constructor; [done|]. eapply Forall_impl; [exact Hall|]. simpl.
    intros sp (Hrow & Hfirst & _). right. simpl. split; [done|lia].
  - intros col H1 H2 H3 H4.
    destruct (decide (col ≤ col_start + length appended)%nat) as [Hin|Hout].
    + eexists. split; [left|]. simpl. lia.
    + destruct (Hcover col) as (sp & Hsp & Hrange); [lia|lia|done|done|].
      exists sp. split; [by right|done].
Qed.

(** The styled runs of all rows. *)
Lemma style_rows_spans row_idx rows ps spans ps' :
  style_rows row_idx rows ps = Some (spans, ps') →
  Forall (λ sp, ∃ row, rows !! (span_row sp - row_idx)%nat = Some row ∧
                (row_idx ≤ span_row sp)%nat ∧
                (2 ≤ span_first sp)%nat ∧ (span_first sp ≤ span_last sp)%nat ∧
                (span_last sp ≤ max_column)%nat ∧
                cell_value row (span_first sp) ≠ "" ∧
                ∀ col, (span_first sp ≤ col ≤ span_last sp)%nat →
                       cell_value row col = cell_value row (span_first sp)) spans ∧
  StronglySorted span_before spans ∧
  ∀ i row col, rows !! i = Some row → (2 ≤ col ≤ max_column)%nat →
               cell_value row col ≠ "" →
               ∃ sp, sp ∈ spans ∧ span_row sp = (row_idx + i)%nat ∧
                     (span_first sp ≤ col ≤ span_last sp)%nat.
Proof.
  revert row_idx ps spans ps'. induction rows as [|row rows IH]; intros row_idx ps spans ps'.
  { simpl. intros [= <- <-]. split; [done|]. split; [constructor|]. by intros i row col ?. }
  step_style_rows.
  destruct (style_row (length slot_keys) row_idx row 2 ps) as [[here ps1]|] eqn:Hrow;
    simpl; [|done].
  destruct (style_rows (S row_idx) rows ps1) as [[more ps2]|] eqn:Hrest; simpl; [|done].
  intros [= <- <-].
  destruct (style_row_spans _ _ _ _ _ _ _ Hrow) as (Hall1 & Hsort1 & Hcover1).
  destruct (IH _ _ _ _ Hrest) as (Hall2 & Hsort2 & Hcover2).
  split; [|split].
  - apply Forall_app. split.
    + eapply Forall_impl; [exact Hall1|]. simpl. intros sp (-> & ? & ? & ? & ? & ?).
      exists row. rewrite Nat.sub_diag. repeat split; try done.
    + eapply Forall_impl; [exact Hall2|]. simpl. intros sp (r & Hr & Hge & ?).
      exists r. split; [|split; [lia|done]].
      replace (span_row sp - row_idx)%nat with (S (span_row sp - S row_idx)) by lia. done.
  - apply StronglySorted_app. split; [|by split].
    intros a b Ha Hb. left.
    rewrite Forall_forall in Hall1, Hall2.
    destruct (Hall1 a Ha) as (-> & _). destruct (Hall2 b Hb) as (r & _ & Hge & _). lia.
  - intros i r col Hr Hcol Hval. destruct i as [|i]; simpl in Hr.
    + injection Hr as ->. destruct (Hcover1 col) as (sp & Hsp & Hrange);
        [lia|unfold_max_column; lia|lia|done|].
      exists sp. split; [apply elem_of_app; by left|]. split; [|done].
      rewrite Forall_forall in Hall1. destruct (Hall1 sp Hsp) as (-> & _). lia.
    + destruct (Hcover2 i r col Hr Hcol Hval) as (sp & Hsp & Hrow' & Hrange).
      exists sp. split; [apply elem_of_app; by right|]. split; [lia|done].
Qed.

(** X15. The styled runs of a sheet partition its occupied cells: every run
    lies in one row, inside the slot columns, over cells that all hold the
    same non-empty text; the runs are made row by row and left to right and
    never overlap; and every occupied cell lies in a run.  (A run of more
    than one column is what the renderer merges.) *)
Theorem styled_runs_partition rows pos spans ps :
  style_and_merge_cells rows pos = Some (spans, ps) →
  Forall (λ sp, ∃ row, rows !! (span_row sp - 2)%nat = Some row ∧
                (2 ≤ span_row sp)%nat ∧
                (2 ≤ span_first sp)%nat ∧ (span_first sp ≤ span_last sp)%nat ∧
                (span_last sp ≤ max_column)%nat ∧
                cell_value row (span_first sp) ≠ "" ∧
                ∀ col, (span_first sp ≤ col ≤ span_last sp)%nat →
                       cell_value row col = cell_value row (span_first sp)) spans ∧
  StronglySorted span_before spans ∧
  ∀ i row col, rows !! i = Some row → (2 ≤ col ≤ max_column)%nat →
               cell_value row col ≠ "" →
               ∃ sp, sp ∈ spans ∧ span_row sp = (2 + i)%nat ∧
                     (span_first sp ≤ col ≤ span_last sp)%nat.
Proof. unfold_style_and_merge_cells. apply style_rows_spans. Qed.

End RenderFacts.

(** *** The colour key of an occupant tag *)

Lemma append_assoc_s (a b c : string) : (a +:+ b) +:+ c = a +:+ (b +:+ c).
Proof.
  induction a as [|x a IH]; [done|].
  change (String x ((a +:+ b) +:+ c) = String x (a +:+ (b +:+ c))). by f_equal.
Qed.

Lemma append_nil_s (a : string) : a +:+ "" = a.
Proof.
  induction a as [|x a IH]; [done|]. change (String x (a +:+ "") = String x a). by f_equal.
Qed.

Lemma append_empty_inv (a b : string) : a +:+ b = "" → a = "".
Proof. by destruct a. Qed.

Lemma words_token a s cur :
  has_space a = false → PyText.words (a +:+ s) cur = PyText.words s (cur +:+ a).
Proof.
  revert cur. induction a as [|c a IH]; intros cur; simpl.
  - intros _. by rewrite append_nil_s.
  - intros [Hc Ha]%orb_false_iff. rewrite Hc, (IH _ Ha). by rewrite append_assoc_s.
Qed.

Lemma remove_char_app c a b :
  PyText.remove_char c (a +:+ b) = PyText.remove_char c a +:+ PyText.remove_char c b.
Proof.
  induction a as [|x a IH]; simpl; [done|]. destruct (Ascii.eqb x c); simpl; by rewrite IH.
Qed.

(** The first token of a text that starts with a token [a] followed by a
    blank, or that is the token [a] alone. *)
Lemma raw_name_token a rest :
  a ≠ "" → has_space a = false →
  raw_name a = Some (PyText.remove_char "T" a) ∧
  raw_name (a +:+ String " " rest) = Some (PyText.remove_char "T" a).
Proof.
  intros Hne Ha. unfold raw_name, PyText.split_ws. split.
  - rewrite <- (append_nil_s a) at 1. rewrite words_token by done. simpl.
    by rewrite bool_decide_eq_false_2.
  - rewrite words_token by done. simpl. by rewrite bool_decide_eq_false_2.
Qed.

(** X16. All sessions of a course share one colour key: for a course code
    that is not empty and holds no white space, the name under which the
    renderer colours a lecture, tutorial or practical tag, elective or not,
    is the course code with every letter [T] removed (so two codes that
    differ only in letters [T] share a colour). *)
Theorem color_key_of_tag session_type course_code room is_elective tag :
  course_code ≠ "" → has_space course_code = false →
  occupant_tag session_type course_code room is_elective = Some tag →
  raw_name tag = Some (PyText.remove_char "T" course_code).
Proof.
  intros Hne Hsp. unfold occupant_tag.
  assert (raw_name (course_code +:+ "T") = Some (PyText.remove_char "T" course_code) ∧
          ∀ rest, raw_name ((course_code +:+ "T") +:+ String " " rest) =
                  Some (PyText.remove_char "T" course_code)) as [HT HT'].
  { assert (course_code +:+ "T" ≠ "") as Hne' by (by intros ?%append_empty_inv).
    assert (has_space (course_code +:+ "T") = false) as Hsp'.
    { clear Hne Hne'. induction course_code as [|c s IH]; simpl in *; [done|].
      apply orb_false_iff in Hsp as [-> Hs]. by apply IH. }
    assert (PyText.remove_char "T" (course_code +:+ "T") = PyText.remove_char "T" course_code)
      as E by (by rewrite remove_char_app, append_nil_s).
    split; [|intros rest]; rewrite <- E; by apply raw_name_token. }
  destruct (raw_name_token course_code) with (rest := "") as [Hcode _]; [done..|].
  repeat case_bool_decide; destruct is_elective; simpl; intros [= <-]; try done.
  - apply (raw_name_token course_code ("(" +:+ room +:+ ")")); done.
  - change (course_code +:+ "T (" +:+ room +:+ ")")
      with (course_code +:+ ("T" +:+ String " " ("(" +:+ room +:+ ")"))).
    rewrite <- append_assoc_s. apply HT'.
  - apply (raw_name_token course_code ("(Lab-" +:+ room +:+ ")")); done.
Qed.

(** *** Fill colours *)

Lemma hex2_is_hex n : (n < 256)%nat → all_hex (PyText.hex2 n) = true.
Proof.
  intros Hn.
  assert (forallb (λ k, all_hex (PyText.hex2 k)) (seq 0 256) = true) as T
    by (vm_compute; reflexivity).
  rewrite forallb_forall in T. apply T, in_seq. lia.
Qed.

Lemma all_hex_app a b : all_hex (a +:+ b) = all_hex a && all_hex b.
Proof.
  induction a as [|c a IH]; [done|].
  change (all_hex (String c (a +:+ b)) = all_hex (String c a) && all_hex b).
  simpl. by rewrite IH, andb_assoc.
Qed.

Lemma three_channels_rgb_hex a b c :
  (a < 256)%nat → (b < 256)%nat → (c < 256)%nat →
  is_rgb_hex (PyText.hex2 a +:+ PyText.hex2 b +:+ PyText.hex2 c).
Proof.
  intros Ha Hb Hc. split; [done|].
  by rewrite !all_hex_app, !hex2_is_hex.
Qed.

Lemma randint_below rnd pos a b : (a ≤ b)%nat → (a ≤ PyText.randint rnd pos a b ≤ b)%nat.
Proof.
  intros Hab. unfold PyText.randint.
  pose proof (Nat.mod_upper_bound (rnd pos) (b - a + 1)). lia.
Qed.

Lemma random_pastel_rgb_hex rnd pos : is_rgb_hex (random_pastel rnd pos).
Proof.
  unfold random_pastel.
  pose proof (randint_below rnd pos 180 255).
  pose proof (randint_below rnd (pos + 1) 180 255).
  pose proof (randint_below rnd (pos + 2) 180 255).
  apply three_channels_rgb_hex; lia.
Qed.

Lemma swap_Forall {A} (P : A → Prop) i j (x : list A) :
  Forall P x → Forall P (PyText.swap i j x).
Proof.
  intros Hx. unfold PyText.swap.
  destruct (x !! i) as [a|] eqn:Ea; [|done]. destruct (x !! j) as [b|] eqn:Eb; [|done].
  apply Forall_insert; [apply Forall_insert; [done|]|]; by eapply Forall_lookup_1.
Qed.

Lemma shuffle_Forall {A} (P : A → Prop) rnd pos (x : list A) :
  Forall P x → Forall P (PyText.shuffle rnd pos x).
Proof.
  unfold PyText.shuffle. generalize (length x - 1)%nat as i. intros i. revert pos x.
  induction i as [|i IH]; intros pos x Hx; [done|]. simpl. by apply IH, swap_Forall.
Qed.

Section ColorFacts.
Variable slot_keys : list string.
Variable time_durations : gmap string Q.
Variable color_palette : list string.
Variable rnd : nat → nat.
Variable P : string → Prop.
(** [P] holds of every colour made up when the palette has run out. *)
Hypothesis P_fallback :
  ∀ p, P (PyText.hex2 (PyText.randint rnd p 150 255) +:+
          PyText.hex2 (PyText.randint rnd (p + 1) 150 255) +:+
          PyText.hex2 (PyText.randint rnd (p + 2) 150 255)).

Local Abbreviation style_row := (style_row slot_keys time_durations rnd).
Local Abbreviation style_rows := (style_rows slot_keys time_durations rnd).

Lemma pick_color_spec name ps :
  colors_ok P ps →
  let r := pick_color rnd name ps in
  course_colors r.2 !! name = Some r.1 ∧ P r.1 ∧ colors_kept ps r.2 ∧ colors_ok P r.2.
Proof.
  intros [Hav Hcc]. unfold pick_color.
  destruct (course_colors ps !! name) as [fill|] eqn:E; simpl.
  { repeat split; eauto. by intros ? ? ?. }
  assert (∀ fill, P fill →
            ∀ n f, <[name := fill]> (course_colors ps) !! n = Some f → P f) as Hins.
  { intros fill Hfill n f. destruct (decide (name = n)) as [->|Hne].
    - rewrite lookup_insert_eq. by intros [= <-].
    - rewrite lookup_insert_ne by done. apply Hcc. }
  assert (∀ fill, colors_kept ps (Palette (<[name := fill]> (course_colors ps))
                                          (removelast (available_colors ps))
                                          (palette_rng ps)) ∧
                  ∀ l n, colors_kept ps (Palette (<[name := fill]> (course_colors ps)) l n))
    as Hkept.
  { intros fill. split; [|intros l n]; intros n' f Hn'; simpl;
      (rewrite lookup_insert_ne; [done|]; intros <-; congruence). }
  destruct (last (available_colors ps)) as [fill|] eqn:El; simpl.
  - apply last_Some in El as [l' El]. rewrite El in Hav |- *.
    apply Forall_app in Hav as [Hl' [Hfill _]%Forall_cons_1].
    rewrite removelast_last. split; [apply lookup_insert_eq|]. split; [done|].
    split; [|split; [done|by apply Hins]].
    intros n' f Hn'. simpl. rewrite lookup_insert_ne; [done|]. intros <-. congruence.
  - split; [apply lookup_insert_eq|]. split; [apply P_fallback|].
    split; [apply Hkept|]. split; [done|]. apply Hins, P_fallback.
Qed.

Lemma style_row_colors fuel row_idx row col_start ps spans ps' :
  style_row fuel row_idx row col_start ps = Some (spans, ps') →
  colors_ok P ps →
  colors_kept ps ps' ∧ colors_ok P ps' ∧
  Forall (λ sp, span_row sp = row_idx ∧ P (span_fill sp) ∧
                ∃ name, raw_name (cell_value row (span_first sp)) = Some name ∧
                        course_colors ps' !! name = Some (span_fill sp)) spans.
Proof.
  revert col_start ps spans ps'.
  induction fuel as [|fuel IH]; intros col_start ps spans ps'.
  { simpl. intros [= <- <-] Hok. split; [by intros ? ? ?|]. by split. }
  step_style_row.
  destruct (Nat.leb col_start (max_column slot_keys));
    [|intros [= <- <-] Hok; split; [by intros ? ? ?|by split]].
  cbn zeta. case_bool_decide as Hval; [apply IH|].
  destruct (column_duration slot_keys time_durations col_start) as [dur|]; simpl; [|done].
  destruct (extend_merge slot_keys time_durations row (cell_value row col_start)
              (session_duration (cell_value row col_start)) (length slot_keys)
              (S col_start) dur) as [appended|]; simpl; [|done].
  destruct (raw_name (cell_value row col_start)) as [name|] eqn:Ename; simpl; [|done].
  intros H Hok. destruct (pick_color_spec name ps Hok) as (Hname & Hfill & Hkept & Hok1).
  cbn zeta in Hname, Hfill, Hkept, Hok1.
  destruct (pick_color rnd name ps) as [fill ps1]. simpl in *.
  match type of H with
  | context [style_row fuel row_idx row ?c ps1] =>
      destruct (style_row fuel row_idx row c ps1) as [[more ps2]|] eqn:Hrest
  end; simpl in H; [|done].
  injection H as <- <-.
  destruct (IH _ _ _ _ Hrest Hok1) as (Hkept2 & Hok2 & Hall).
  split; [|split; [done|]].
  - intros n f Hn. by apply Hkept2, Hkept.
  - constructor; [|done]. simpl. split; [done|]. split; [done|].
    exists name. split; [done|]. by apply Hkept2.
Qed.

Lemma style_rows_colors row_idx rows ps spans ps' :
  style_rows row_idx rows ps = Some (spans, ps') →
  colors_ok P ps →
  colors_kept ps ps' ∧ colors_ok P ps' ∧
  Forall (λ sp, P (span_fill sp) ∧
                ∃ row name, rows !! (span_row sp - row_idx)%nat = Some row ∧
                            (row_idx ≤ span_row sp)%nat ∧
                            raw_name (cell_value row (span_first sp)) = Some name ∧
                            course_colors ps' !! name = Some (span_fill sp)) spans.
Proof.
  revert row_idx ps spans ps'. induction rows as [|row rows IH]; intros row_idx ps spans ps'.
  { simpl. intros [= <- <-] Hok. split; [by intros ? ? ?|]. by split. }
  step_style_rows.
  destruct (style_row (length slot_keys) row_idx row 2 ps) as [[here ps1]|] eqn:Hrow;
    simpl; [|done].
  destruct (style_rows (S row_idx) rows ps1) as [[more ps2]|] eqn:Hrest; simpl; [|done].
  intros [= <- <-] Hok.
  destruct (style_row_colors _ _ _ _ _ _ _ Hrow Hok) as (Hkept1 & Hok1 & Hall1).
  destruct (IH _ _ _ _ Hrest Hok1) as (Hkept2 & Hok2 & Hall2).
  split; [|split; [done|]].
  - intros n f Hn. by apply Hkept2, Hkept1.
  - apply Forall_app. split.
    + eapply Forall_impl; [exact Hall1|]. simpl. intros sp (-> & Hp & name & Hn & Hc).
      split; [done|]. exists row, name. rewrite Nat.sub_diag.
      repeat split; [done..|]. by apply Hkept2.
    + eapply Forall_impl; [exact Hall2|]. simpl.
      intros sp (Hp & r & name & Hr & Hge & Hn & Hc).
      split; [done|]. exists r, name. split; [|split; [lia|done]].
      replace (span_row sp - row_idx)%nat with (S (span_row sp - S row_idx)) by lia. done.
Qed.

End ColorFacts.

Section ColorTheorems.
Variable slot_keys : list string.
Variable time_durations : gmap string Q.
Variable rnd : nat → nat.

(** X17. Within one sheet a colour key keeps one fill colour: every styled
    run is filled with the colour that the final colour table gives to the
    key of its text, so two runs with the same key have the same fill,
    wherever they are in the sheet. *)
Theorem one_fill_per_color_key color_palette rows pos spans ps :
  style_and_merge_cells slot_keys time_durations color_palette rnd rows pos =
    Some (spans, ps) →
  Forall (λ sp, ∃ row name, rows !! (span_row sp - 2)%nat = Some row ∧
                            raw_name (cell_value row (span_first sp)) = Some name ∧
                            course_colors ps !! name = Some (span_fill sp)) spans ∧
  ∀ sp1 sp2 row1 row2,
    sp1 ∈ spans → sp2 ∈ spans →
    rows !! (span_row sp1 - 2)%nat = Some row1 →
    rows !! (span_row sp2 - 2)%nat = Some row2 →
    raw_name (cell_value row1 (span_first sp1)) =
      raw_name (cell_value row2 (span_first sp2)) →
    span_fill sp1 = span_fill sp2.
Proof.
  unfold_style_and_merge_cells. intros H.
  destruct (style_rows_colors slot_keys time_durations rnd (λ _, True) (λ _, I)
              _ _ _ _ _ H) as (_ & _ & Hall).
  { split; [by apply Forall_forall|done]. }
  assert (Forall (λ sp, ∃ row name, rows !! (span_row sp - 2)%nat = Some row ∧
                   raw_name (cell_value row (span_first sp)) = Some name ∧
                   course_colors ps !! name = Some (span_fill sp)) spans) as Hfill.
  { eapply Forall_impl; [exact Hall|]. simpl.
    intros sp (_ & row & name & ? & _ & ? & ?). by exists row, name. }
  split; [exact Hfill|].
  intros sp1 sp2 row1 row2 H1 H2 Hr1 Hr2 Hkey.
  rewrite Forall_forall in Hfill.
  destruct (Hfill sp1 H1) as (r1 & n1 & Hr1' & Hn1 & Hc1).
  destruct (Hfill sp2 H2) as (r2 & n2 & Hr2' & Hn2 & Hc2).
  assert (r1 = row1) as -> by congruence. assert (r2 = row2) as -> by congruence.
  rewrite Hn1, Hn2 in Hkey. injection Hkey as ->. congruence.
Qed.

(** X18. Every fill colour is a text of six upper-case hexadecimal digits:
    the twenty palette colours are, for every random stream, and so are the
    colours made up once the palette is used up; shuffling and handing out
    keep it so. *)
Theorem fills_are_rgb_hex palette_rnd palette_pos rows pos spans ps :
  Forall is_rgb_hex (color_palette_of palette_rnd palette_pos) ∧
  (style_and_merge_cells slot_keys time_durations
     (color_palette_of palette_rnd palette_pos) rnd rows pos = Some (spans, ps) →
   Forall (λ sp, is_rgb_hex (span_fill sp)) spans).
Proof.
  assert (Forall is_rgb_hex (color_palette_of palette_rnd palette_pos)) as Hpal.
  { unfold color_palette_of. apply Forall_fmap, Forall_forall. intros i _.
    apply random_pastel_rgb_hex. }
  split; [exact Hpal|].
  unfold_style_and_merge_cells. intros H.
  assert (∀ p, is_rgb_hex (PyText.hex2 (PyText.randint rnd p 150 255) +:+
                            PyText.hex2 (PyText.randint rnd (p + 1) 150 255) +:+
                            PyText.hex2 (PyText.randint rnd (p + 2) 150 255))) as Hfb.
  { intros p.
    pose proof (randint_below rnd p 150 255).
    pose proof (randint_below rnd (p + 1) 150 255).
    pose proof (randint_below rnd (p + 2) 150 255).
    apply three_channels_rgb_hex; lia. }
  destruct (style_rows_colors slot_keys time_durations rnd is_rgb_hex Hfb _ _ _ _ _ H)
    as (_ & _ & Hall).
  - split; [by apply shuffle_Forall|]. simpl. intros name fill. by rewrite lookup_empty.
  - eapply Forall_impl; [exact Hall|]. by intros sp [? _].
Qed.

End ColorTheorems.

(** ** Invariants of the course loop, course by course *)

Lemma only_spaces_app a b : only_spaces (a +:+ b) = only_spaces a && only_spaces b.
Proof.
  induction a as [|c a IH]; [done|].
  change (only_spaces (String c (a +:+ b)) = only_spaces (String c a) && only_spaces b).
  simpl. by rewrite IH, andb_assoc.
Qed.

Lemma words_nonempty s cur :
  cur ≠ "" ∨ only_spaces s = false → PyText.words s cur ≠ [].
Proof.
  revert cur. induction s as [|c s IH]; intros cur; simpl.
  - intros [Hcur|?]; [|done]. by rewrite bool_decide_eq_false_2.
  - destruct (Py.is_space c) eqn:Hc; simpl.
    + case_bool_decide as Hcur; [|done]. intros [?|Hs]; [done|]. apply IH. by right.
    + intros _. apply IH. left. by destruct cur.
Qed.

Lemma raw_name_some s : only_spaces s = false → is_Some (raw_name s).
Proof.
  intros Hs. unfold raw_name, PyText.split_ws.
  pose proof (words_nonempty s "" (or_intror Hs)).
  by destruct (PyText.words s "").
Qed.

(** The tags the builder writes have a token. *)
Lemma builder_tag_tokened session_type course_code room tag :
  occupant_tag session_type course_code room (bool_decide (course_code = "Elective"))
    = Some tag →
  is_Some (raw_name tag).
Proof.
  unfold occupant_tag. destruct (decide (course_code = "Elective")) as [Hel|Hel].
  - rewrite (bool_decide_eq_true_2 _ Hel), Hel. simpl.
    repeat case_bool_decide; intros [= <-]; by eexists.
  - rewrite (bool_decide_eq_false_2 _ Hel). simpl.
    repeat case_bool_decide; intros [= <-]; apply raw_name_some;
      rewrite only_spaces_app; apply andb_false_iff; right; done.
Qed.

Section CourseByCourse.
Variable slot_keys : list string.
Variable time_durations : gmap string Q.
Variable classrooms labs : list string.
Variable rnd : nat → nat.
Implicit Types (d : day) (st : state) (c : course).

Local Abbreviation place_session := (place_session slot_keys time_durations classrooms labs rnd).
Local Abbreviation day_loop := (day_loop slot_keys time_durations classrooms labs rnd).
Local Abbreviation pass_loop := (pass_loop slot_keys time_durations classrooms labs rnd).
Local Abbreviation schedule_course := (schedule_course slot_keys time_durations classrooms labs rnd).
Local Abbreviation create_timetable := (create_timetable slot_keys time_durations classrooms labs rnd).

(** A property of the state that every placement for a course of the list
    keeps is kept by the whole course loop. *)
Lemma courses_keep (I : state → Prop) (all : list course) :
  (∀ c st d duration_hours session_type,
     c ∈ all → I st →
     I (place_session st d (Py.strip (Faculty c)) (code_of c) duration_hours session_type
                      (elective_of c)).2) →
  ∀ courses st, courses ⊆ all → I st → I (foldl schedule_course st courses).
Proof.
  intros Hplace.
  assert (∀ c alloc session_type days remaining st, c ∈ all → I st →
            I (day_loop alloc session_type (Py.strip (Faculty c)) (code_of c) (elective_of c)
                        days remaining st).2) as Hday.
  { intros c alloc session_type days remaining st Hc. revert st.
    induction days as [|d days IH]; intros st Hst; [done|]. step_day_loop.
    destruct (Qle_bool remaining 0 || busy (Py.strip (Faculty c)) st d); [by apply IH|].
    pose proof (Hplace c st d (alloc remaining) session_type Hc Hst) as Hstep.
    destruct (place_session st d (Py.strip (Faculty c)) (code_of c) (alloc remaining)
                session_type (elective_of c)) as [[] st1]; simpl in *; [done|].
    by apply IH. }
  assert (∀ c alloc session_type fuel attempts remaining st, c ∈ all → I st →
            I (pass_loop alloc session_type (Py.strip (Faculty c)) (code_of c) (elective_of c)
                         fuel attempts remaining st).2) as Hpass.
  { intros c alloc session_type fuel attempts remaining st Hc. revert attempts remaining st.
    induction fuel as [|fuel IH]; intros attempts remaining st Hst; [done|].
    rewrite pass_loop_S.
    destruct (Qltb 0 remaining && Nat.ltb attempts MAX_ATTEMPTS); [|done].
    specialize (Hday c alloc session_type week_days remaining st Hc Hst).
    destruct (day_loop alloc session_type (Py.strip (Faculty c)) (code_of c) (elective_of c)
                week_days remaining st) as [remaining' st']. by apply IH. }
  induction courses as [|c courses IH]; intros st Hsub Hst; [done|].
  assert (c ∈ all) as Hc by (apply Hsub; left).
  simpl. apply IH; [intros x Hx; apply Hsub; by right|]. unfold_course_body.
  destruct (parse_quintuple (L_T_P_S_C c)) as [[[[[l t] p] s] cr]|]; [|done].
  unfold_retry_loop. fold (code_of c). fold (elective_of c).
  pose proof (Hpass c lecture_alloc "L" MAX_ATTEMPTS 0%nat (inject_Z l) st Hc Hst) as H1.
  destruct (pass_loop lecture_alloc "L" (Py.strip (Faculty c)) (code_of c) (elective_of c)
              MAX_ATTEMPTS 0 (inject_Z l) st) as [[r1 a1] st1].
  pose proof (Hpass c tutorial_alloc "T" MAX_ATTEMPTS 0%nat (inject_Z t) st1 Hc H1) as H2.
  destruct (pass_loop tutorial_alloc "T" (Py.strip (Faculty c)) (code_of c) (elective_of c)
              MAX_ATTEMPTS 0 (inject_Z t) st1) as [[r2 a2] st2].
  pose proof (Hpass c practical_alloc "P" MAX_ATTEMPTS 0%nat (inject_Z p) st2 Hc H2) as H3.
  by destruct (pass_loop practical_alloc "P" (Py.strip (Faculty c)) (code_of c)
                 (elective_of c) MAX_ATTEMPTS 0 (inject_Z p) st2) as [[r3 a3] st3].
Qed.

(** What a placement does to the room table. *)
Lemma place_session_binds st d faculty course_code duration_hours session_type is_elective :
  let st' := (place_session st d faculty course_code duration_hours session_type
                            is_elective).2 in
  room_allocations st' = room_allocations st ∨
  (is_elective = false ∧ room_allocations st !! course_code = None ∧
   ∃ room, room ∈ pool_of classrooms labs session_type ∧
           room_allocations st' = <[course_code := room]> (room_allocations st)).
Proof.
  cbn zeta. unfold_placer.
  pose proof (place_in_cases time_durations classrooms labs rnd st d faculty course_code
                duration_hours session_type is_elective
                (find_free_blocks slot_keys (tt_frame st) d)) as Hc.
  destruct (place_in time_durations classrooms labs rnd st d faculty course_code
              duration_hours session_type is_elective
              (find_free_blocks slot_keys (tt_frame st) d)) as [[] st']; simpl.
  - destruct Hc as (group & room & st1 & _ & Hp).
    apply placed_as_bindings in Hp as (-> & [->|(Hel & Hnone & Hin & ->)] & _); [by left|].
    right. split; [done|]. split; [done|]. by exists room.
  - left. by destruct Hc as [[-> _]|(_ & _ & _ & [line ->] & _)].
Qed.

Lemma place_session_explained all c st d duration_hours session_type :
  c ∈ all → grid_explained all st →
  grid_explained all
    (place_session st d (Py.strip (Faculty c)) (code_of c) duration_hours session_type
                   (elective_of c)).2.
Proof.
  intros Hc Hst.
  pose proof (place_session_bindings slot_keys time_durations classrooms labs rnd st d
                (Py.strip (Faculty c)) (code_of c) duration_hours session_type
                (elective_of c)) as Hkept.
  revert Hkept. unfold_placer.
  pose proof (place_in_cases time_durations classrooms labs rnd st d (Py.strip (Faculty c))
                (code_of c) duration_hours session_type (elective_of c)
                (find_free_blocks slot_keys (tt_frame st) d)) as Hcases.
  destruct (place_in time_durations classrooms labs rnd st d (Py.strip (Faculty c))
              (code_of c) duration_hours session_type (elective_of c)
              (find_free_blocks slot_keys (tt_frame st) d)) as [[] st']; simpl; intros Hkept.
  - destruct Hcases as (group & room & st1 & _ & Hp).
    pose proof (placed_as_frame _ _ _ _ _ _ _ _ _ _ _ _ _ _ _ Hp) as [Htt _].
    apply placed_as_bindings in Hp as (Hra & _ & Hroom).
    intros cell v. rewrite Htt, write_slots_lookup.
    destruct (occupant_tag session_type (code_of c) room (elective_of c)) as [tag|] eqn:Et.
    + case_bool_decide.
      * intros [= <-]. right. exists c, session_type, room. split; [done|]. split; [done|].
        intros Hel. rewrite Hra. by apply Hroom.
      * intros Hv. destruct (Hst cell v Hv) as [?|(c' & ty & r & ? & ? & Hb)]; [by left|].
        right. exists c', ty, r. split; [done|]. split; [done|].
        intros Hel. by apply Hkept, Hb.
    + intros Hv. destruct (Hst cell v Hv) as [?|(c' & ty & r & ? & ? & Hb)]; [by left|].
      right. exists c', ty, r. split; [done|]. split; [done|].
      intros Hel. by apply Hkept, Hb.
  - intros cell v Hv.
    assert (tt_frame st' = tt_frame st) as Htt
      by (by destruct Hcases as [[-> _]|(_ & _ & _ & [line ->] & _)]).
    rewrite Htt in Hv. destruct (Hst cell v Hv) as [?|(c' & ty & r & ? & ? & Hb)]; [by left|].
    right. exists c', ty, r. split; [done|]. split; [done|].
    intros Hel. by apply Hkept, Hb.
Qed.

Lemma place_session_bindings_explained all c st d duration_hours session_type :
  c ∈ all → bindings_explained classrooms labs all st →
  bindings_explained classrooms labs all
    (place_session st d (Py.strip (Faculty c)) (code_of c) duration_hours session_type
                   (elective_of c)).2.
Proof.
  intros Hc Hst.
  destruct (place_session_binds st d (Py.strip (Faculty c)) (code_of c) duration_hours
              session_type (elective_of c)) as [E|(Hel & _ & room & Hin & E)];
    intros code r; rewrite E; [apply Hst|].
  destruct (decide (code_of c = code)) as [<-|Hne].
  - rewrite lookup_insert_eq. intros [= <-]. split; [|split].
    + unfold elective_of in Hel. by apply bool_decide_eq_false in Hel.
    + unfold pool_of in Hin. destruct (bool_decide (session_type = "P")); [by right|by left].
    + by exists c.
  - rewrite lookup_insert_ne by done. apply Hst.
Qed.

(** The courses of the loop come from the input list. *)
Lemma select_courses_elem st course_list c :
  c ∈ (select_courses rnd st course_list).1 →
  (c ∈ course_list ∧ Elective c ≠ "1") ∨
  (code_of c = "Elective" ∧ ∃ e, e ∈ course_list ∧ Elective e = "1").
Proof.
  unfold_select_courses.
  destruct (filter (λ c, Elective c = "1") course_list) as [|e es] eqn:E; simpl.
  - intros [? ?]%list_elem_of_filter. by left.
  - intros [[? ?]%list_elem_of_filter| ->%list_elem_of_singleton]%elem_of_app; [by left|].
    right. split; [done|]. exists e.
    assert (e ∈ filter (λ c, Elective c = "1") course_list) as [? ?]%list_elem_of_filter
      by (rewrite E; left).
    done.
Qed.

Lemma emitted_grid_explained globals course_list :
  let st0 := State (empty_frame slot_keys) empty_faculty_schedule ∅
                   (rng_pos globals) (stdout globals) in
  grid_explained (select_courses rnd st0 course_list).1
                 (create_timetable globals course_list) ∧
  bindings_explained classrooms labs (select_courses rnd st0 course_list).1
                     (create_timetable globals course_list).
Proof.
  intros st0. rewrite create_timetable_unfold. cbn zeta. fold st0.
  destruct (select_courses_state rnd st0 course_list) as (Htt & _ & Hra).
  split.
  - intros cell v. simpl. rewrite clear_excluded_lookup.
    case_bool_decide; [intros [= <-]; by left|].
    apply (courses_keep (grid_explained (select_courses rnd st0 course_list).1)
             (select_courses rnd st0 course_list).1); [|done|].
    + intros. by apply place_session_explained.
    + intros [d s] w. rewrite Htt. simpl. rewrite empty_frame_lookup.
      case_bool_decide; [|done]. intros [= <-]. by left.
  - intros code room. simpl.
    apply (courses_keep (bindings_explained classrooms labs
                           (select_courses rnd st0 course_list).1)
             (select_courses rnd st0 course_list).1); [|done|].
    + intros. by apply place_session_bindings_explained.
    + intros code' room'. rewrite Hra. simpl. by rewrite lookup_empty.
Qed.

(** X20. Every occupied cell of the emitted grid is the occupant tag of a
    session of a scheduled course: of an input course that is not flagged
    elective, under its stripped code, or of the synthetic course
    [Elective], which exists only when some input course is flagged.  Unless
    the code is [Elective], the room in the tag is the room bound to the
    code at the end of the run, so all cells of one course show one room. *)
Theorem emitted_cells_are_course_tags globals course_list cell v :
  tt_frame (create_timetable globals course_list) !! cell = Some v → v ≠ "" →
  ∃ code session_type room,
    occupant_tag session_type code room (bool_decide (code = "Elective")) = Some v ∧
    (code = "Elective" ∨
     room_allocations (create_timetable globals course_list) !! code = Some room) ∧
    ((∃ c, c ∈ course_list ∧ Elective c ≠ "1" ∧ code = Py.strip (Course_Code c)) ∨
     (code = "Elective" ∧ ∃ c, c ∈ course_list ∧ Elective c = "1")).
Proof.
  intros Hv Hne.
  destruct (emitted_grid_explained globals course_list) as [Hgrid _].
  destruct (Hgrid cell v Hv) as [?|(c & ty & room & Hc & Htag & Hroom)]; [done|].
  exists (code_of c), ty, room. split; [exact Htag|]. split.
  - destruct (decide (code_of c = "Elective")) as [Hel|Hel]; [by left|].
    right. apply Hroom. unfold elective_of. by rewrite bool_decide_eq_false_2.
  - apply select_courses_elem in Hc as [[Hin Hflag]|[? ?]]; [left; by exists c|by right].
Qed.

(** X21. Every room bound at the end of a run comes from the classroom pool
    or the lab pool and is bound to the stripped code of an input course
    that is not flagged elective; the code [Elective] is never bound. *)
Theorem bound_rooms_from_pools globals course_list code room :
  room_allocations (create_timetable globals course_list) !! code = Some room →
  code ≠ "Elective" ∧ (room ∈ classrooms ∨ room ∈ labs) ∧
  ∃ c, c ∈ course_list ∧ Elective c ≠ "1" ∧ code = Py.strip (Course_Code c).
Proof.
  intros Hb.
  destruct (emitted_grid_explained globals course_list) as [_ Hbind].
  destruct (Hbind code room Hb) as (Hne & Hpool & c & Hc & ->).
  split; [done|]. split; [done|].
  apply select_courses_elem in Hc as [[Hin Hflag]|[? _]]; [by exists c|done].
Qed.

(** The cells of the emitted grid have a token. *)
Lemma emitted_grid_tokened globals course_list cell v :
  tt_frame (create_timetable globals course_list) !! cell = Some v →
  v = "" ∨ is_Some (raw_name v).
Proof.
  intros Hv. destruct (emitted_grid_explained globals course_list) as [Hgrid _].
  destruct (Hgrid cell v Hv) as [?|(c & ty & room & _ & Htag & _)]; [by left|].
  right. by eapply builder_tag_tokened.
Qed.

(** Every cell the renderer reads from the sheet of the emitted grid is
    empty or has a token. *)
Lemma grid_rows_tokened globals course_list row col :
  row ∈ grid_rows slot_keys (tt_frame (create_timetable globals course_list)) →
  cell_value row col = "" ∨ is_Some (raw_name (cell_value row col)).
Proof.
  intros Hrow. unfold grid_rows in Hrow.
  apply list_elem_of_fmap in Hrow as (d & -> & _). unfold cell_value.
  rewrite list_lookup_fmap.
  destruct (slot_keys !! (col - 2)%nat) as [slot|]; simpl; [|by left].
  rewrite lookup_total_alt.
  destruct (tt_frame (create_timetable globals course_list) !! (d, slot)) as [v|] eqn:E;
    simpl; [|by left].
  by eapply emitted_grid_tokened.
Qed.

Section Covered.
(** Every slot label has a duration, as line 26 makes it. *)
Hypothesis durations_cover : ∀ slot, slot ∈ slot_keys → is_Some (time_durations !! slot).

Lemma column_duration_some col :
  (2 ≤ col)%nat → (col ≤ max_column slot_keys)%nat →
  is_Some (column_duration slot_keys time_durations col).
Proof.
  intros H2 Hcol. unfold column_duration. unfold_max_column.
  destruct (lookup_lt_is_Some_2 slot_keys (col - 2)) as [slot Hslot]; [lia|].
  rewrite Hslot. simpl. by eapply durations_cover, list_elem_of_lookup_2.
Qed.

Lemma extend_merge_succeeds row value session_dur fuel next_col total_dur :
  (2 ≤ next_col)%nat →
  is_Some (extend_merge slot_keys time_durations row value session_dur fuel next_col
                        total_dur).
Proof.
  revert next_col total_dur. induction fuel as [|fuel IH]; intros next_col total_dur H2;
    [by eexists|].
  step_extend_merge. destruct (Nat.leb next_col (max_column slot_keys)) eqn:Hcol;
    [|by eexists].
  apply Nat.leb_le in Hcol. case_bool_decide; [|by eexists].
  destruct (column_duration_some next_col H2 Hcol) as [dur ->]. simpl.
  destruct (Qle_bool session_dur (total_dur + dur)); [by eexists|].
  destruct (IH (S next_col) (total_dur + dur)%Q) as [more ->]; [lia|]. by eexists.
Qed.

Lemma style_row_succeeds render_rnd fuel row_idx row col_start ps :
  (∀ col, cell_value row col = "" ∨ is_Some (raw_name (cell_value row col))) →
  (2 ≤ col_start)%nat →
  is_Some (style_row slot_keys time_durations render_rnd fuel row_idx row col_start ps).
Proof.
  intros Hrow. revert col_start ps. induction fuel as [|fuel IH]; intros col_start ps H2;
    [by eexists|].
  step_style_row. destruct (Nat.leb col_start (max_column slot_keys)) eqn:Hcol;
    [|by eexists].
  apply Nat.leb_le in Hcol.
  cbn zeta. case_bool_decide as Hval; [apply IH; lia|].
  destruct (column_duration_some col_start H2 Hcol) as [dur ->]. simpl.
  destruct (extend_merge_succeeds row (cell_value row col_start)
              (session_duration (cell_value row col_start)) (length slot_keys)
              (S col_start) dur) as [appended Happ]; [lia|].
  rewrite Happ. simpl.
  destruct (Hrow col_start) as [?|[name Hname]]; [done|]. rewrite Hname. simpl.
  destruct (pick_color render_rnd name ps) as [fill ps1].
  match goal with
  | |- context [style_row _ _ _ fuel row_idx row (S ?c) ps1] =>
      destruct (IH (S c) ps1) as [[more ps2] ->]
  end.
  - destruct (extend_merge_run slot_keys time_durations _ _ _ _ _ _ _ Happ) as [Hseq _].
    change (match appended with
            | [] => col_start
            | _ :: _ => List.last appended col_start
            end) with (List.last (col_start :: appended) col_start).
    rewrite Hseq at 1. rewrite last_of_run. lia.
  - by eexists.
Qed.

End Covered.

(** X19. When every slot label has a duration, styling the grid that the
    builder emits never raises: every cell the builder writes holds a text
    with a token, so the first-token lookup of line 167 is defined, and
    every column read has a duration.  This holds for every course list,
    room pool, colour palette and random stream. *)
Theorem styling_emitted_grid_succeeds color_palette render_rnd globals course_list pos :
  (∀ slot, slot ∈ slot_keys → is_Some (time_durations !! slot)) →
  is_Some (style_and_merge_cells slot_keys time_durations color_palette render_rnd
             (grid_rows slot_keys (tt_frame (create_timetable globals course_list))) pos).
Proof.
  intros Hcover. unfold_style_and_merge_cells.
  pose proof (grid_rows_tokened globals course_list) as Hrows.
  generalize (Palette ∅ (PyText.shuffle render_rnd pos color_palette)
                      (pos + (length color_palette - 1))).
  generalize 2%nat at 1.
  induction (grid_rows slot_keys (tt_frame (create_timetable globals course_list)))
    as [|row rows IH]; intros row_idx ps; [by eexists|].
  step_style_rows.
  destruct (style_row_succeeds Hcover render_rnd (length slot_keys) row_idx row 2 ps)
    as [[spans ps1] ->]; [intros col; apply Hrows; left|lia|].
  simpl. destruct (IH (λ r col Hr, Hrows r col (list_elem_of_further _ _ _ Hr)) (S row_idx) ps1)
    as [[more ps2] ->].
  by eexists.
Qed.

End CourseByCourse.

(** ** The statements at concrete inputs *)



(** A session of type ["S"] writes nothing and succeeds. *)
Lemma place_session_unknown_type_witness :
  let st := scenario_start fresh_process in
  let r := place_session scenario_slots scenario_durations ["R1"] [] first_draws
                         st Monday "X" "CODE" 1 "S" false in
  tt_frame r.2 = tt_frame st ∧ r.1 = true.
Proof.
  cbv zeta.
  destruct (place_session_unknown_type scenario_slots scenario_durations ["R1"] []
              first_draws (scenario_start fresh_process) Monday "X" "CODE" 1 "S" false)
    as [Hframe _]; [discriminate..|].
  split; [exact Hframe|]. vm_compute. reflexivity.
Defined.

(** Two lecture hours of the scenario: nothing is left. *)
Lemma hours_left_within_bounds_witness :
  let r := schedule_hours scenario_slots scenario_durations ["R1"] [] first_draws
                          lecture_alloc "L" "X" "CODE" false (inject_Z 2)
                          (scenario_start fresh_process) in
  (0 <= r.1.1 <= inject_Z 2)%Q ∧ ((r.1.1 == 0)%Q ∨ r.1.2 = 10%nat).
Proof.
  apply (hours_left_within_bounds scenario_slots scenario_durations ["R1"] [] first_draws
           lecture_alloc "L" "X" "CODE" false 2 (scenario_start fresh_process)).
  - by left.
  - lia.
Defined.

Lemma parse_quintuple_nonneg_witness :
  parse_quintuple "3-1-2-0-4" = Some (3, 1, 2, 0, 4)%Z ∧ count_char "-" "3-1-2-0-4" = 4%nat.
Proof.
  assert (parse_quintuple "3-1-2-0-4" = Some (3, 1, 2, 0, 4)%Z) as E
    by (vm_compute; reflexivity).
  split; [exact E|]. exact (proj1 (parse_quintuple_nonneg "3-1-2-0-4" 3 1 2 0 4 E)).
Defined.

Lemma calc_slot_duration_shape_witness :
  ∃ start end_ h1 m1 h2 m2 x1 y1 x2 y2,
    "09:00-10:30" = start +:+ "-" +:+ end_ ∧
    count_char "-" "09:00-10:30" = 1%nat ∧
    count_char ":" start = 1%nat ∧ count_char ":" end_ = 1%nat ∧
    hour_minute start = Some (h1, m1) ∧ hour_minute end_ = Some (h2, m2) ∧
    (0 ≤ h1)%Z ∧ (0 ≤ m1)%Z ∧ (0 ≤ h2)%Z ∧ (0 ≤ m2)%Z ∧
    Float64.true_div m1 60 = Some x1 ∧ Float64.of_int h1 = Some y1 ∧
    Float64.true_div m2 60 = Some x2 ∧ Float64.of_int h2 = Some y2 ∧
    Float64.to_Q (Float64.sub (Float64.add y2 x2) (Float64.add y1 x1)) = Some (3 # 2)%Q.
Proof.
  apply (calc_slot_duration_shape "09:00-10:30" (3 # 2)%Q).
  vm_compute. reflexivity.
Defined.

(** Types in mixed case are recognised; the third room is in no pool. *)
Lemma room_pools_by_type_witness :
  classrooms_of scenario_rooms = ["R1"] ∧ labs_of scenario_rooms = ["L1"] ∧
  ∀ id, id ∈ classrooms_of scenario_rooms → id ∉ labs_of scenario_rooms.
Proof.
  split; [vm_compute; reflexivity|]. split; [vm_compute; reflexivity|].
  apply (room_pools_by_type scenario_rooms).
  apply (bool_decide_unpack (NoDup (Room_ID <$> scenario_rooms))). vm_compute. exact I.
Defined.

(** The sheet of the scenario: one merged run of two cells on Monday, one
    single cell on Tuesday. *)
Lemma styled_runs_partition_witness :
  match style_and_merge_cells scenario_slots scenario_durations scenario_palette first_draws
                              scenario_sheet 0 with
  | Some (spans, _) =>
      spans = [Span 2 2 3 "FFB4B4"; Span 3 2 2 "FFB4B4"] ∧
      StronglySorted span_before spans
  | None => False
  end.
Proof.
  destruct (style_and_merge_cells scenario_slots scenario_durations scenario_palette
              first_draws scenario_sheet 0) as [[spans ps]|] eqn:E;
    [|vm_compute in E; discriminate].
  split.
  - assert (fst <$> style_and_merge_cells scenario_slots scenario_durations scenario_palette
                      first_draws scenario_sheet 0 =
            Some [Span 2 2 3 "FFB4B4"; Span 3 2 2 "FFB4B4"]) as E' by (vm_compute; reflexivity).
    rewrite E in E'. by injection E'.
  - exact (proj1 (proj2 (styled_runs_partition scenario_slots scenario_durations
                           scenario_palette first_draws scenario_sheet 0 spans ps E))).
Defined.

Lemma color_key_of_tag_witness : raw_name "CODET (R1)" = Some "CODE".
Proof.
  apply (color_key_of_tag "T" "CODE" "R1" false "CODET (R1)").
  - discriminate.
  - reflexivity.
  - reflexivity.
Defined.

(** In the sheet of the scenario all runs have the key [CODE], hence one
    fill. *)
Lemma one_fill_per_color_key_witness :
  match style_and_merge_cells scenario_slots scenario_durations scenario_palette first_draws
                              scenario_sheet 0 with
  | Some (spans, ps) =>
      Forall (λ sp, ∃ row name,
                scenario_sheet !! (span_row sp - 2)%nat = Some row ∧
                raw_name (cell_value row (span_first sp)) = Some name ∧
                course_colors ps !! name = Some (span_fill sp)) spans
  | None => False
  end.
Proof.
  destruct (style_and_merge_cells scenario_slots scenario_durations scenario_palette
              first_draws scenario_sheet 0) as [[spans ps]|] eqn:E;
    [|vm_compute in E; discriminate].
  exact (proj1 (one_fill_per_color_key scenario_slots scenario_durations first_draws
                  scenario_palette scenario_sheet 0 spans ps E)).
Defined.

(** Styling the emitted grid of the scenario succeeds. *)
Lemma styling_emitted_grid_succeeds_witness :
  is_Some (style_and_merge_cells scenario_slots scenario_durations scenario_palette
             first_draws
             (grid_rows scenario_slots
                (tt_frame (create_timetable scenario_slots scenario_durations ["R1"] []
                             first_draws fresh_process [scenario_course]))) 1).
Proof.
  apply (styling_emitted_grid_succeeds scenario_slots scenario_durations ["R1"] []
           first_draws scenario_palette first_draws fresh_process [scenario_course] 1).
  exact scenario_durations_cover.
Defined.

(** The first cell of Monday in the emitted grid of the scenario. *)
Lemma emitted_cells_are_course_tags_witness :
  let final := create_timetable scenario_slots scenario_durations ["R1"] [] first_draws
                                fresh_process [scenario_course] in
  ∃ code session_type room,
    occupant_tag session_type code room (bool_decide (code = "Elective")) =
      Some "CODE (R1)" ∧
    (code = "Elective" ∨ room_allocations final !! code = Some room) ∧
    ((∃ c, c ∈ [scenario_course] ∧ Elective c ≠ "1" ∧ code = Py.strip (Course_Code c)) ∨
     (code = "Elective" ∧ ∃ c, c ∈ [scenario_course] ∧ Elective c = "1")).
Proof.
  cbv zeta.
  apply (emitted_cells_are_course_tags scenario_slots scenario_durations ["R1"] []
           first_draws fresh_process [scenario_course] (Monday, "08:00-09:00") "CODE (R1)").
  - vm_compute. reflexivity.
  - discriminate.
Defined.

(** The room bound in the scenario. *)
Lemma bound_rooms_from_pools_witness :
  "R1" ∈ ["R1"] ∨ "R1" ∈ @nil string.
Proof.
  apply (bound_rooms_from_pools scenario_slots scenario_durations ["R1"] [] first_draws
           fresh_process [scenario_course] "CODE" "R1").
  vm_compute. reflexivity.
Defined.
